(** * EnviroVoice production server: registry, rate limiter and dispatcher

    A shallow embedding of [src/server-production.js]: the [StateManager]
    class, the WebSocket message and close handlers, the broadcast helpers,
    the snapshot ingestion endpoint and the two state-inspection endpoints.

    Conventions.
    - A WebSocket object is a connection handle [conn]; the set [wss.clients]
      is an insertion-ordered table from handles to the socket's
      [readyState] and to the closure variable [gamertag] of its handlers.
    - [Date.now()] is an input of every handler ([now], milliseconds); a
      handler reads one instant.
    - [JSON.parse] is the boundary of the model: a handler receives the
      outcome of parsing ([parsed]).  What a handler sends, closes and logs
      is recorded as a list of [effect]s in program order; a [Send] is the
      call of [send], which does not throw.
    - JavaScript [Map]s iterate in insertion order, and that order is
      observable ([getParticipants], the state endpoints), so they are
      association lists ([JsMap]); [rateLimits] is never iterated and is a
      [gmap].
    - The heartbeat timer only pings and terminates sockets; a terminated
      socket shows as the events [Closing] and [CloseEvent] of the
      transition system.
    - A template literal converts its argument to a string, which throws a
      [TypeError] for an object without a usable [toString].  The only
      value of a message that reaches a template literal is [data.gamertag]
      of a join; what is thrown there runs through both [catch] blocks and,
      when it escapes the handler, through the [uncaughtException] handler,
      which ends the process ([Exit]).  A run of the server has no event
      after one that exits. *)

From stdpp Require Import base decidable option list strings numbers gmap.

(** ** JavaScript values *)

(** The values a field of a parsed JSON document can hold.  Objects and
    arrays are compared by reference, so they are represented by their
    reference.  Numbers are only stored, copied and tested against zero by
    the code below. *)
Inductive value : Type :=
  | VUndefined
  | VNull
  | VBool (b : bool)
  | VNum (n : Z)
  | VStr (s : string)
  | VObj (ref : nat).

#[global] Instance value_eq_dec : EqDecision value.
Proof. solve_decision. Defined.

(** [Boolean(v)], the test of [if (v)], [!v] and [v || w]. *)
Definition truthy (v : value) : bool :=
  match v with
  | VUndefined | VNull => false
  | VBool b => b
  | VNum n => negb (bool_decide (n = 0%Z))
  | VStr s => negb (bool_decide (s = EmptyString))
  | VObj _ => true
  end.

(** [v || w] *)
Definition or_else (v w : value) : value := if truthy v then v else w.

(** [typeof v === 'number'] *)
Definition is_number (v : value) : bool :=
  match v with VNum _ => true | _ => false end.

(** [a === b] *)
Definition strict_eq (a b : value) : bool := bool_decide (a = b).

(** ** Insertion-ordered maps (JavaScript [Map]) *)

Module JsMap.
Section defs.
Context {K V : Type} `{EqDecision K}.

Definition empty : list (K * V) := [].

Fixpoint get (m : list (K * V)) (k : K) : option V :=
  match m with
  | [] => None
  | (k', v) :: m' => if decide (k' = k) then Some v else get m' k
  end.

(** [set] keeps the position of a key that is present and appends a new
    key at the end. *)
Fixpoint set (m : list (K * V)) (k : K) (v : V) : list (K * V) :=
  match m with
  | [] => [(k, v)]
  | (k', v') :: m' =>
      if decide (k' = k) then (k, v) :: m' else (k', v') :: set m' k v
  end.

Fixpoint delete (m : list (K * V)) (k : K) : list (K * V) :=
  match m with
  | [] => []
  | (k', v') :: m' =>
      if decide (k' = k) then delete m' k else (k', v') :: delete m' k
  end.

Definition size (m : list (K * V)) : nat := length m.
Definition entries (m : list (K * V)) : list (K * V) := m.
Definition keys (m : list (K * V)) : list K := map fst m.
Definition values (m : list (K * V)) : list V := map snd m.

(** Every table built from [empty] by [set] and [delete] has distinct
    keys. *)
Definition wf (m : list (K * V)) : Prop := NoDup (keys m).
End defs.
End JsMap.

(** ** Records of the state manager *)

(** Connection handles. *)
Abbreviation conn := nat (only parsing).

Module Client.
Record t : Type := mk {
  gamertag : value;
  joinedAt : Z;
  lastActivity : Z;
  messageCount : Z
}.
End Client.

Module Ptt.
Record t : Type := mk { isTalking : value; isMuted : value }.
End Ptt.

Module Voice.
Record t : Type := mk { isTalking : value; volume : value }.
End Voice.

Module Limit.
Record t : Type := mk { count : Z; resetAt : Z }.
End Limit.

(** A player record of a posted snapshot.  [data] is [None] when
    [player?.data] is falsy, so that [player?.data || {}] is the empty
    block. *)
Module PlayerData.
Record t : Type := mk { isTalking : value; isMuted : value; voiceVolume : value }.
Definition empty : t := mk VUndefined VUndefined VUndefined.
End PlayerData.

Module Player.
Record t : Type := mk { name : value; data : option PlayerData.t }.
End Player.

(** The posted body: [players] is [None] unless [req.body.players] is an
    array. *)
Module Body.
Record t : Type := mk { players : option (list Player.t) }.
End Body.

(** The fields the message handler reads from a parsed envelope; an absent
    field reads [VUndefined]. *)
Module Msg.
Record t : Type := mk {
  type : value;
  gamertag : value;
  isTalking : value;
  isMuted : value;
  volume : value;
  to : value;
  from : value
}.
End Msg.

(** Outcome of [JSON.parse(msg.toString())]: a thrown [SyntaxError], the
    value [null] (whose property reads throw a [TypeError]), or any other
    value, seen through its fields.

    The join branch puts [data.gamertag] into template literals.  An
    envelope whose gamertag throws when it is converted to a string is
    [ParsedUnprintable]: the gamertag is an object with an own property
    [toString] (which in a JSON text is never a function), or an array that
    holds such an object.  In a [Parsed] envelope the conversion yields a
    string. *)
Inductive parsed : Type :=
  | SyntaxError
  | ParsedNull
  | Parsed (data : Msg.t)
  | ParsedUnprintable (data : Msg.t).

(** Rows of the state endpoints and of the combined update:
    [{gamertag, ...state}]. *)
Module PttRow.
Record t : Type := mk { gamertag : value; isTalking : value; isMuted : value }.
End PttRow.

Module VoiceRow.
Record t : Type := mk { gamertag : value; isTalking : value; volume : value }.
End VoiceRow.

(** ** Outbound messages and effects *)

(** The messages of the server by their [type]; the greeting of a new
    connection, [MsgMinecraftGreeting], has the type [minecraft-update] of
    [MsgMinecraftUpdate] and the field [data] only. *)
Inductive payload : Type :=
  | MsgError (message : string)
  | MsgParticipantsList (list : list value)
  | MsgJoin (gamertag : value)
  | MsgLeave (gamertag : value)
  | MsgPttUpdate (gamertag isTalking isMuted : value)
  | MsgSignal (data : Msg.t)
  | MsgMinecraftGreeting (data : Body.t)
  | MsgMinecraftUpdate (data : Body.t)
      (pttStates : list PttRow.t) (voiceStates : list VoiceRow.t)
  | MsgServerShutdown.

Inductive level : Type := INFO | WARN | ERROR | SUCCESS | DEBUG.

Inductive effect : Type :=
  | Send (ws : conn) (p : payload)
  | Close (ws : conn) (code : Z) (reason : string)
  | Log (l : level) (message : string)
  | Exit (code : Z).

#[global] Instance Client_eq_dec : EqDecision Client.t.
Proof. solve_decision. Defined.
#[global] Instance Ptt_eq_dec : EqDecision Ptt.t.
Proof. solve_decision. Defined.
#[global] Instance Voice_eq_dec : EqDecision Voice.t.
Proof. solve_decision. Defined.
#[global] Instance Limit_eq_dec : EqDecision Limit.t.
Proof. solve_decision. Defined.
#[global] Instance PlayerData_eq_dec : EqDecision PlayerData.t.
Proof. solve_decision. Defined.
#[global] Instance Player_eq_dec : EqDecision Player.t.
Proof. solve_decision. Defined.
#[global] Instance Body_eq_dec : EqDecision Body.t.
Proof. solve_decision. Defined.
#[global] Instance Msg_eq_dec : EqDecision Msg.t.
Proof. solve_decision. Defined.
#[global] Instance PttRow_eq_dec : EqDecision PttRow.t.
Proof. solve_decision. Defined.
#[global] Instance VoiceRow_eq_dec : EqDecision VoiceRow.t.
Proof. solve_decision. Defined.
#[global] Instance payload_eq_dec : EqDecision payload.
Proof. solve_decision. Defined.
#[global] Instance level_eq_dec : EqDecision level.
Proof. solve_decision. Defined.
#[global] Instance effect_eq_dec : EqDecision effect.
Proof. solve_decision. Defined.

(** ** The state manager *)

Record StateManager : Type := mkState {
  minecraftData : option Body.t;
  clients : list (conn * Client.t);
  pttStates : list (value * Ptt.t);
  voiceStates : list (value * Voice.t);
  rateLimits : gmap conn Limit.t;
  lastCleanup : Z
}.

(** [new StateManager()] *)
Definition constructor (now : Z) : StateManager :=
  mkState None JsMap.empty JsMap.empty JsMap.empty ∅ now.

Definition with_clients (s : StateManager) (c : list (conn * Client.t)) :=
  mkState (minecraftData s) c (pttStates s) (voiceStates s) (rateLimits s)
    (lastCleanup s).
Definition with_pttStates (s : StateManager) (p : list (value * Ptt.t)) :=
  mkState (minecraftData s) (clients s) p (voiceStates s) (rateLimits s)
    (lastCleanup s).
Definition with_voiceStates (s : StateManager) (v : list (value * Voice.t)) :=
  mkState (minecraftData s) (clients s) (pttStates s) v (rateLimits s)
    (lastCleanup s).
Definition with_rateLimits (s : StateManager) (r : gmap conn Limit.t) :=
  mkState (minecraftData s) (clients s) (pttStates s) (voiceStates s) r
    (lastCleanup s).
Definition with_minecraftData (s : StateManager) (d : option Body.t) :=
  mkState d (clients s) (pttStates s) (voiceStates s) (rateLimits s)
    (lastCleanup s).
Definition with_lastCleanup (s : StateManager) (t : Z) :=
  mkState (minecraftData s) (clients s) (pttStates s) (voiceStates s)
    (rateLimits s) t.

(** Sockets: [readyState] (1 is OPEN, 2 CLOSING, 3 CLOSED) and the closure
    variable [let gamertag = null] of the connection handler. *)
Module Socket.
Record t : Type := mk { readyState : Z; gamertag : value }.
End Socket.

Definition readyState_of (wss : list (conn * Socket.t)) (ws : conn) : Z :=
  match JsMap.get wss ws with
  | Some sk => Socket.readyState sk
  | None => 3
  end.

(** [CONFIG]: the literal entries. *)
Definition RATE_LIMIT_WINDOW : Z := 1000.
Definition RATE_LIMIT_MAX : Z := 50.
Definition CLIENT_TIMEOUT : Z := 60000.

Section Server.

(** [CONFIG.MAX_CONNECTIONS] is
    [parseInt(process.env.MAX_CONNECTIONS) || 200]: fixed at start-up by the
    environment. *)
Variable MAX_CONNECTIONS : Z.

(** *** StateManager methods *)

Definition isGamertagTaken (s : StateManager) (gamertag : value) : bool :=
  existsb (fun e => strict_eq (Client.gamertag (snd e)) gamertag)
    (JsMap.entries (clients s)).

(** [addClient] throws an [Error]; [inl] carries its message. *)
Definition addClient (s : StateManager) (ws : conn) (gamertag : value)
    (now : Z) : string + StateManager :=
  if bool_decide (Z.of_nat (JsMap.size (clients s)) >= MAX_CONNECTIONS)%Z
  then inl "Server at capacity"
  else if isGamertagTaken s gamertag
  then inl "Gamertag already in use"
  else
    let s1 := with_clients s
                (JsMap.set (clients s) ws (Client.mk gamertag now now 0)) in
    let s2 := with_pttStates s1
                (JsMap.set (pttStates s1) gamertag
                   (Ptt.mk (VBool true) (VBool false))) in
    inr (with_voiceStates s2
           (JsMap.set (voiceStates s2) gamertag
              (Voice.mk (VBool false) (VNum 0)))).

Definition removeClient (s : StateManager) (ws : conn) : StateManager :=
  match JsMap.get (clients s) ws with
  | Some clientData =>
      let s1 := with_pttStates s
                  (JsMap.delete (pttStates s) (Client.gamertag clientData)) in
      let s2 := with_voiceStates s1
                  (JsMap.delete (voiceStates s1) (Client.gamertag clientData)) in
      let s3 := with_rateLimits s2 (delete ws (rateLimits s2)) in
      with_clients s3 (JsMap.delete (clients s3) ws)
  | None => s
  end.

Definition checkRateLimit (s : StateManager) (ws : conn) (now : Z)
    : bool * StateManager :=
  let limit :=
    match rateLimits s !! ws with
    | Some l => l
    | None => Limit.mk 0 (now + RATE_LIMIT_WINDOW)
    end in
  let limit' :=
    if bool_decide (now > Limit.resetAt limit)%Z
    then Limit.mk 1 (now + RATE_LIMIT_WINDOW)
    else Limit.mk (Limit.count limit + 1) (Limit.resetAt limit) in
  (bool_decide (Limit.count limit' <= RATE_LIMIT_MAX)%Z,
   with_rateLimits s (<[ws := limit']> (rateLimits s))).

Definition updateActivity (s : StateManager) (ws : conn) (now : Z)
    : StateManager :=
  match JsMap.get (clients s) ws with
  | Some client =>
      with_clients s
        (JsMap.set (clients s) ws
           (Client.mk (Client.gamertag client) (Client.joinedAt client) now
              (Client.messageCount client + 1)))
  | None => s
  end.

Definition getParticipants (s : StateManager) : list value :=
  map Client.gamertag (JsMap.values (clients s)).

(** [cleanup]: every entry of [clients] whose inactivity exceeds the
    timeout is closed (when open) and removed. *)
Definition cleanup_entry (wss : list (conn * Socket.t)) (now : Z)
    (acc : StateManager * list effect) (e : conn * Client.t)
    : StateManager * list effect :=
  if bool_decide (now - Client.lastActivity (snd e) > CLIENT_TIMEOUT)%Z
  then
    (removeClient (fst acc) (fst e),
     snd acc ++ Log WARN "Client timeout"
       :: (if bool_decide (readyState_of wss (fst e) = 1%Z)
           then [Close (fst e) 1000 "Timeout"] else []))
  else acc.

Definition cleanup (wss : list (conn * Socket.t)) (s : StateManager)
    (now : Z) : StateManager * list effect :=
  let r := fold_left (cleanup_entry wss now) (JsMap.entries (clients s))
             (s, []) in
  (with_lastCleanup (fst r) now, snd r).

(** *** Broadcast helpers *)

Definition broadcast (wss : list (conn * Socket.t)) (senderWs : conn)
    (message : payload) : list effect :=
  flat_map
    (fun client =>
       if bool_decide (fst client <> senderWs)
          && bool_decide (Socket.readyState (snd client) = 1%Z)
       then [Send (fst client) message] else [])
    (JsMap.entries wss).

Definition broadcastToAll (wss : list (conn * Socket.t)) (message : payload)
    : list effect :=
  flat_map
    (fun client =>
       if bool_decide (Socket.readyState (snd client) = 1%Z)
       then [Send (fst client) message] else [])
    (JsMap.entries wss).

(** *** The message handler *)

(** The target lookup of the signaling branch: the first entry of
    [clients] whose gamertag is [to]. *)
Fixpoint findTarget (entries : list (conn * Client.t)) (to : value)
    : option conn :=
  match entries with
  | [] => None
  | (clientWs, clientData) :: rest =>
      if strict_eq (Client.gamertag clientData) to then Some clientWs
      else findTarget rest to
  end.

Definition is_signaling (type : value) : bool :=
  strict_eq type (VStr "offer") || strict_eq type (VStr "answer")
  || strict_eq type (VStr "ice-candidate").

(** The branches on [data.type], after rate limiting, the activity update
    and parsing.  The result is the new state, the new value of the closure
    variable [gamertag] and the effects.  [printable] tells whether
    [data.gamertag] converts to a string.

    In the join branch, when it does not: after [addClient] has registered
    the connection and the closure variable is assigned, the template
    literal of [Logger.success] throws; the inner [catch] throws in the
    template literal of its [Logger.error] before it sends or closes; the
    outer [catch] throws in its own, the closure variable being that
    gamertag now; the exception is uncaught, and the [uncaughtException]
    handler logs and calls [process.exit(1)].  When [addClient] throws, the
    inner [catch] throws in the same way, and the outer one logs, the
    closure variable being what it was. *)
Definition dispatch (printable : bool) (wss : list (conn * Socket.t))
    (s : StateManager) (ws : conn) (gamertag : value) (now : Z)
    (data : Msg.t) : StateManager * value * list effect :=
  if strict_eq (Msg.type data) (VStr "join") then
    match addClient s ws (Msg.gamertag data) now with
    | inr s' =>
        if printable then
          (s', Msg.gamertag data,
           [Log SUCCESS "joined";
            Send ws (MsgParticipantsList (getParticipants s'))]
           ++ broadcast wss ws (MsgJoin (Msg.gamertag data))
           ++ broadcastToAll wss (MsgParticipantsList (getParticipants s')))
        else
          (s', Msg.gamertag data, [Log ERROR "Uncaught Exception"; Exit 1])
    | inl message =>
        if printable then
          (s, gamertag,
           [Log ERROR "Join failed"; Send ws (MsgError message);
            Close ws 1008 message])
        else (s, gamertag, [Log ERROR "Message processing error"])
    end
  else if strict_eq (Msg.type data) (VStr "leave") then
    (removeClient s ws, gamertag,
     Log INFO "left" :: broadcast wss ws (MsgLeave gamertag))
  else if strict_eq (Msg.type data) (VStr "voice-detection") then
    (with_voiceStates s
       (JsMap.set (voiceStates s) (Msg.gamertag data)
          (Voice.mk (Msg.isTalking data) (or_else (Msg.volume data) (VNum 0)))),
     gamertag, [])
  else if strict_eq (Msg.type data) (VStr "ptt-status") then
    (with_pttStates s
       (JsMap.set (pttStates s) (Msg.gamertag data)
          (Ptt.mk (Msg.isTalking data) (Msg.isMuted data))),
     gamertag,
     broadcastToAll wss
       (MsgPttUpdate (Msg.gamertag data) (Msg.isTalking data)
          (Msg.isMuted data)))
  else if is_signaling (Msg.type data) then
    if negb (truthy (Msg.to data)) || negb (truthy (Msg.from data)) then
      (s, gamertag, [Log WARN "Invalid signaling message: missing to/from"])
    else
      match findTarget (JsMap.entries (clients s)) (Msg.to data) with
      | Some targetWs =>
          if bool_decide (readyState_of wss targetWs = 1%Z)
          then (s, gamertag, [Send targetWs (MsgSignal data)])
          else (s, gamertag, [])
      | None => (s, gamertag, [])
      end
  else if strict_eq (Msg.type data) (VStr "heartbeat") then
    (s, gamertag, [])
  else if strict_eq (Msg.type data) (VStr "request-participants") then
    (s, gamertag, [Send ws (MsgParticipantsList (getParticipants s))])
  else (s, gamertag, []).

(** [ws.on("message", ...)]: rate limiting, then the activity update, then
    [JSON.parse]; what [JSON.parse] or a property read of [null] throws is
    caught and logged by the outer [catch]. *)
Definition on_message (wss : list (conn * Socket.t)) (s : StateManager)
    (ws : conn) (gamertag : value) (now : Z) (msg : parsed)
    : StateManager * value * list effect :=
  let r := checkRateLimit s ws now in
  if negb (fst r) then
    (snd r, gamertag,
     [Log WARN "Rate limit exceeded"; Send ws (MsgError "Rate limit exceeded")])
  else
    let s2 := updateActivity (snd r) ws now in
    match msg with
    | SyntaxError | ParsedNull =>
        (s2, gamertag, [Log ERROR "Message processing error"])
    | Parsed data => dispatch true wss s2 ws gamertag now data
    | ParsedUnprintable data => dispatch false wss s2 ws gamertag now data
    end.

(** [ws.on('close', ...)] *)
Definition on_close (wss : list (conn * Socket.t)) (s : StateManager)
    (ws : conn) (gamertag : value) : StateManager * list effect :=
  if truthy gamertag then
    let s' := removeClient s ws in
    (s',
     Log INFO "disconnected"
       :: broadcast wss ws (MsgLeave gamertag)
       ++ broadcastToAll wss (MsgParticipantsList (getParticipants s')))
  else (s, []).

(** *** HTTP endpoints *)

Definition ptt_rows (s : StateManager) : list PttRow.t :=
  map (fun e => PttRow.mk (fst e) (Ptt.isTalking (snd e)) (Ptt.isMuted (snd e)))
    (JsMap.entries (pttStates s)).

Definition voice_rows (s : StateManager) : list VoiceRow.t :=
  map (fun e =>
         VoiceRow.mk (fst e) (Voice.isTalking (snd e)) (Voice.volume (snd e)))
    (JsMap.entries (voiceStates s)).

(** [GET /ptt-states] and [GET /voice-states] *)
Definition get_ptt_states (s : StateManager) : list PttRow.t := ptt_rows s.
Definition get_voice_states (s : StateManager) : list VoiceRow.t :=
  voice_rows s.

(** The body of the loop over [players] in [POST /minecraft-data]. *)
Definition ingest_player (s : StateManager) (player : Player.t)
    : StateManager :=
  let gamertag := Player.name player in
  if negb (truthy gamertag) then s
  else
    let data := default PlayerData.empty (Player.data player) in
    let s1 :=
      with_pttStates s
        (JsMap.set (pttStates s) gamertag
           (Ptt.mk (VBool (truthy (PlayerData.isTalking data)))
              (VBool (truthy (PlayerData.isMuted data))))) in
    with_voiceStates s1
      (JsMap.set (voiceStates s1) gamertag
         (Voice.mk (VBool (truthy (PlayerData.isTalking data)))
            (if is_number (PlayerData.voiceVolume data)
             then PlayerData.voiceVolume data else VNum (-100)))).

Record Response : Type := mkResponse {
  success : bool;
  processed : nat;
  broadcasted : nat
}.

(** [POST /minecraft-data] *)
Definition post_minecraft_data (wss : list (conn * Socket.t))
    (s : StateManager) (body : Body.t)
    : StateManager * list effect * Response :=
  let s0 := with_minecraftData s (Some body) in
  let players := default [] (Body.players body) in
  let s1 := fold_left ingest_player players s0 in
  let sent :=
    broadcastToAll wss (MsgMinecraftUpdate body (ptt_rows s1) (voice_rows s1)) in
  (s1, sent, mkResponse true (length players) (length sent)).

(** ** The server as a transition system *)

Record World : Type := mkWorld {
  stateManager : StateManager;
  wss_clients : list (conn * Socket.t)
}.

Inductive event : Type :=
  | Connection (ws : conn)
  | Message (ws : conn) (now : Z) (msg : parsed)
  | Closing (ws : conn)
  | CloseEvent (ws : conn)
  | PostMinecraftData (body : Body.t)
  | CleanupTick (now : Z).

(** [ws.close(...)] on an open socket moves it to CLOSING at once. *)
Definition close_socket (wss : list (conn * Socket.t)) (ws : conn)
    : list (conn * Socket.t) :=
  match JsMap.get wss ws with
  | Some sk =>
      if bool_decide (Socket.readyState sk = 1%Z)
      then JsMap.set wss ws (Socket.mk 2 (Socket.gamertag sk))
      else wss
  | None => wss
  end.

Definition apply_closes (wss : list (conn * Socket.t)) (effs : list effect)
    : list (conn * Socket.t) :=
  fold_left
    (fun acc e => match e with Close ws _ _ => close_socket acc ws | _ => acc end)
    effs wss.

(** One event of the event loop.  A connection event runs the connection
    handler: it logs the attempt, installs the handlers of the socket with
    the closure variable [null], and sends the stored snapshot, if any.
    [Closing] is the transport moving a socket to CLOSING on its own (the
    peer starts the closing handshake, or the heartbeat terminates the
    socket); no handler runs.  A socket that closes has left [wss.clients]
    before its own close handler runs.  When the effects of an event end in
    [Exit], the world returned is the memory of the process as it exits. *)
Definition handle (w : World) (ev : event) : World * list effect :=
  let s := stateManager w in
  let wss := wss_clients w in
  match ev with
  | Connection ws =>
      (mkWorld s (JsMap.set wss ws (Socket.mk 1 VNull)),
       Log DEBUG "New connection attempt"
         :: match minecraftData s with
            | Some d => [Send ws (MsgMinecraftGreeting d)]
            | None => []
            end)
  | Message ws now msg =>
      match JsMap.get wss ws with
      | Some sk =>
          let r := on_message wss s ws (Socket.gamertag sk) now msg in
          (mkWorld (fst (fst r))
             (apply_closes
                (JsMap.set wss ws (Socket.mk (Socket.readyState sk) (snd (fst r))))
                (snd r)),
           snd r)
      | None => (w, [])
      end
  | Closing ws => (mkWorld s (close_socket wss ws), [])
  | CloseEvent ws =>
      match JsMap.get wss ws with
      | Some sk =>
          let wss' := JsMap.delete wss ws in
          let r := on_close wss' s ws (Socket.gamertag sk) in
          (mkWorld (fst r) wss', snd r)
      | None => (w, [])
      end
  | PostMinecraftData body =>
      let r := post_minecraft_data wss s body in
      (mkWorld (fst (fst r)) wss, snd (fst r))
  | CleanupTick now =>
      let r := cleanup wss s now in
      (mkWorld (fst r) (apply_closes wss (snd r)), snd r)
  end.

(** What the transport can deliver: a connection event brings a new
    WebSocket object, which is no key of any table yet; the other socket
    events concern a socket of [wss.clients]. *)
Definition enabled (w : World) (ev : event) : Prop :=
  match ev with
  | Connection ws =>
      JsMap.get (wss_clients w) ws = None
      /\ JsMap.get (clients (stateManager w)) ws = None
      /\ rateLimits (stateManager w) !! ws = None
  | Message ws _ _ | Closing ws | CloseEvent ws =>
      is_Some (JsMap.get (wss_clients w) ws)
  | PostMinecraftData _ | CleanupTick _ => True
  end.

Fixpoint run (w : World) (evs : list event) : World :=
  match evs with
  | [] => w
  | ev :: rest => run (fst (handle w ev)) rest
  end.

(** A server just started, with no socket. *)
Definition start (now : Z) : World := mkWorld (constructor now) JsMap.empty.

(** The handler ended the process. *)
Definition exits (effs : list effect) : bool :=
  existsb (fun e => match e with Exit _ => true | _ => false end) effs.

(** The states of a running server: an event that ends the process leads
    to no state. *)
Inductive reachable : World -> Prop :=
  | reachable_start (now : Z) : reachable (start now)
  | reachable_step (w : World) (ev : event) :
      reachable w -> enabled w ev -> exits (snd (handle w ev)) = false ->
      reachable (fst (handle w ev)).

(** ** Specification-level definitions *)

(** The rate window as the specification words it: on the first message, or
    once [now] has passed [resetAt], the window restarts with count 1;
    otherwise the count is incremented. *)
Definition spec_window (old : option Limit.t) (now : Z) : Limit.t :=
  match old with
  | None => Limit.mk 1 (now + RATE_LIMIT_WINDOW)
  | Some l =>
      if bool_decide (now > Limit.resetAt l)%Z
      then Limit.mk 1 (now + RATE_LIMIT_WINDOW)
      else Limit.mk (Limit.count l + 1) (Limit.resetAt l)
  end.

Definition checkAndConsume (s : StateManager) (ws : conn) (now : Z)
    : bool * StateManager :=
  let l := spec_window (rateLimits s !! ws) now in
  (bool_decide (Limit.count l <= RATE_LIMIT_MAX)%Z,
   with_rateLimits s (<[ws := l]> (rateLimits s))).

(** A message at [now] opens a window: it is the connection's first
    message, or [now] has passed the [resetAt] of its window. *)
Definition opens_window (s : StateManager) (ws : conn) (now : Z) : Prop :=
  match rateLimits s !! ws with
  | None => True
  | Some l => (now > Limit.resetAt l)%Z
  end.

(** The answers of the rate limiter to messages of one connection arriving
    at the given times, and the state they leave. *)
Fixpoint rate_answers (s : StateManager) (ws : conn) (times : list Z)
    : list bool :=
  match times with
  | [] => []
  | now :: rest =>
      fst (checkRateLimit s ws now)
        :: rate_answers (snd (checkRateLimit s ws now)) ws rest
  end.

Fixpoint rate_state (s : StateManager) (ws : conn) (times : list Z)
    : StateManager :=
  match times with
  | [] => s
  | now :: rest => rate_state (snd (checkRateLimit s ws now)) ws rest
  end.

(** Answers to [n] further messages inside a window whose count is
    [count]. *)
Fixpoint in_window_answers (count : Z) (n : nat) : list bool :=
  match n with
  | O => []
  | S n' =>
      bool_decide (count + 1 <= RATE_LIMIT_MAX)%Z
        :: in_window_answers (count + 1) n'
  end.

(** No two registered participants share an identity. *)
Definition unique_identities (s : StateManager) : Prop :=
  NoDup (getParticipants s).

(** The closure variable of a registered connection holds its registered
    identity. *)
Definition closure_agrees (w : World) : Prop :=
  forall ws cd sk,
    JsMap.get (clients (stateManager w)) ws = Some cd ->
    JsMap.get (wss_clients w) ws = Some sk ->
    Socket.gamertag sk = Client.gamertag cd.

(** The tables of a state manager have distinct keys, and so have the
    identities of the registry. *)
Definition state_ok (s : StateManager) : Prop :=
  unique_identities s
  /\ JsMap.wf (clients s)
  /\ JsMap.wf (pttStates s)
  /\ JsMap.wf (voiceStates s).

Definition world_ok (w : World) : Prop :=
  state_ok (stateManager w) /\ closure_agrees w.

(** The open sockets other than [ws], and all open sockets, in the order of
    [wss.clients]. *)
Definition open_sockets (wss : list (conn * Socket.t)) : list conn :=
  map fst (List.filter (fun c => bool_decide (Socket.readyState (snd c) = 1%Z)) wss).

Definition other_open_sockets (wss : list (conn * Socket.t)) (ws : conn)
    : list conn :=
  List.filter (fun c => bool_decide (c <> ws)) (open_sockets wss).

(** The messages of a trace, with their recipients. *)
Definition sends (effs : list effect) : list (conn * payload) :=
  flat_map (fun e => match e with Send c p => [(c, p)] | _ => [] end) effs.

Definition is_participants_list (p : payload) : bool :=
  match p with MsgParticipantsList _ => true | _ => false end.

(** ** The dispatcher as the specification describes it *)

(** The [leave] row of the dispatch table: deregister, a leave event to
    the others, then the updated identity list to all. *)
Definition leave_as_specified (wss : list (conn * Socket.t))
    (s : StateManager) (ws : conn) (gamertag : value) (now : Z)
    (data : Msg.t) : Prop :=
  let r := on_message wss s ws gamertag now (Parsed data) in
  JsMap.get (clients (fst (fst r))) ws = None
  /\ sends (snd r)
     = map (fun c => (c, MsgLeave gamertag)) (other_open_sockets wss ws)
       ++ map (fun c => (c, MsgParticipantsList (getParticipants (fst (fst r)))))
            (open_sockets wss).

(** The [request-participants] row: the list to the requester, then the
    list to all. *)
Definition request_participants_as_specified (wss : list (conn * Socket.t))
    (s : StateManager) (ws : conn) (gamertag : value) (now : Z)
    (data : Msg.t) : Prop :=
  let r := on_message wss s ws gamertag now (Parsed data) in
  sends (snd r)
  = (ws, MsgParticipantsList (getParticipants s))
    :: map (fun c => (c, MsgParticipantsList (getParticipants s)))
         (open_sockets wss).

(** Parsing first: a body that fails to parse changes no state and is not
    answered. *)
Definition parse_failure_as_specified (wss : list (conn * Socket.t))
    (s : StateManager) (ws : conn) (gamertag : value) (now : Z) : Prop :=
  let r := on_message wss s ws gamertag now SyntaxError in
  fst (fst r) = s /\ sends (snd r) = [].

(** A leave followed by the close of the same socket: the close handler
    announces the leave to the remaining sockets once more and then sends
    them the identity list, without changing the state. *)
Definition second_leave_on_close (w : World) (ws : conn) (g : value)
    (now : Z) (data : Msg.t) : Prop :=
  let w1 := fst (handle w (Message ws now (Parsed data))) in
  let r := handle w1 (CloseEvent ws) in
  let remaining := JsMap.delete (wss_clients w1) ws in
  sends (snd r)
  = map (fun c => (c, MsgLeave g)) (other_open_sockets remaining ws)
    ++ map (fun c =>
              (c, MsgParticipantsList (getParticipants (stateManager w1))))
         (open_sockets remaining)
  /\ stateManager (fst r) = stateManager w1.

(** The socket whose handlers an event runs. *)
Definition event_socket (ev : event) : option conn :=
  match ev with
  | Connection ws | Message ws _ _ | CloseEvent ws => Some ws
  | Closing _ | PostMinecraftData _ | CleanupTick _ => None
  end.

(** ** Snapshot ingestion, record by record *)

(** The state entries a player record gives rise to. *)
Definition ptt_of_record (p : Player.t) : Ptt.t :=
  let d := default PlayerData.empty (Player.data p) in
  Ptt.mk (VBool (truthy (PlayerData.isTalking d)))
    (VBool (truthy (PlayerData.isMuted d))).

Definition voice_of_record (p : Player.t) : Voice.t :=
  let d := default PlayerData.empty (Player.data p) in
  Voice.mk (VBool (truthy (PlayerData.isTalking d)))
    (match PlayerData.voiceVolume d with
     | VNum n => VNum n
     | _ => VNum (-100)
     end).

(** The last record of a snapshot that names the identity [g], among the
    records with a non-empty (truthy) identity. *)
Fixpoint last_record (ps : list Player.t) (g : value) : option Player.t :=
  match ps with
  | [] => None
  | p :: rest =>
      match last_record rest g with
      | Some q => Some q
      | None =>
          if truthy (Player.name p) && strict_eq (Player.name p) g
          then Some p else None
      end
  end.

Definition alice_snapshot : Body.t :=
  Body.mk
    (Some [Player.mk (VStr "Alice")
             (Some (PlayerData.mk (VBool false) (VBool true) (VNum (-30))))]).

(** Every event of a run is one the transport can deliver, and leaves the
    server running. *)
Fixpoint all_enabled (w : World) (evs : list event) : Prop :=
  match evs with
  | [] => True
  | ev :: rest =>
      enabled w ev /\ exits (snd (handle w ev)) = false
      /\ all_enabled (fst (handle w ev)) rest
  end.

(** After the second join of a connection, no later deregistration of the
    connection removes the state entries of its old identity: whatever the
    server handles next, [removeClient] on the connection leaves them as
    they are. *)
Definition old_entries_never_removed (w : World) (ws : conn) (now : Z)
    (data : Msg.t) (old : value) : Prop :=
  forall evs,
    all_enabled (fst (handle w (Message ws now (Parsed data)))) evs ->
    let t :=
      stateManager (run (fst (handle w (Message ws now (Parsed data)))) evs) in
    JsMap.get (pttStates (removeClient t ws)) old
    = JsMap.get (pttStates t) old
    /\ JsMap.get (voiceStates (removeClient t ws)) old
       = JsMap.get (voiceStates t) old.

(** ** Envelopes used in examples *)

Definition bare_msg (type : string) : Msg.t :=
  Msg.mk (VStr type) VUndefined VUndefined VUndefined VUndefined VUndefined
    VUndefined.

Definition join_msg (gamertag : value) : Msg.t :=
  Msg.mk (VStr "join") gamertag VUndefined VUndefined VUndefined VUndefined
    VUndefined.

Definition leave_msg : Msg.t := bare_msg "leave".

Definition ptt_status_msg (gamertag isTalking isMuted : value) : Msg.t :=
  Msg.mk (VStr "ptt-status") gamertag isTalking isMuted VUndefined VUndefined
    VUndefined.

Definition voice_detection_msg (gamertag isTalking volume : value) : Msg.t :=
  Msg.mk (VStr "voice-detection") gamertag isTalking VUndefined volume
    VUndefined VUndefined.

(** The sockets a trace closes, in order. *)
Definition closes (effs : list effect) : list conn :=
  flat_map (fun e => match e with Close c _ _ => [c] | _ => [] end) effs.

(** ** Example states *)

Definition alice : Client.t := Client.mk (VStr "Alice") 0 0 0.
Definition bob : Client.t := Client.mk (VStr "Bob") 0 0 0.

(** One socket has connected and joined as "Alice". *)
Definition alice_alone : World :=
  mkWorld
    (mkState None
       [(1, alice)]
       [(VStr "Alice", Ptt.mk (VBool true) (VBool false))]
       [(VStr "Alice", Voice.mk (VBool false) (VNum 0))]
       (<[1 := Limit.mk 1 1000]> ∅)
       0)
    [(1, Socket.mk 1 (VStr "Alice"))].

(** Two sockets have connected and joined, as "Alice" and as "Bob". *)
Definition alice_bob : World :=
  mkWorld
    (mkState None
       [(1, alice); (2, bob)]
       [(VStr "Alice", Ptt.mk (VBool true) (VBool false));
        (VStr "Bob", Ptt.mk (VBool true) (VBool false))]
       [(VStr "Alice", Voice.mk (VBool false) (VNum 0));
        (VStr "Bob", Voice.mk (VBool false) (VNum 0))]
       (<[2 := Limit.mk 1 1000]> (<[1 := Limit.mk 1 1000]> ∅))
       0)
    [(1, Socket.mk 1 (VStr "Alice")); (2, Socket.mk 1 (VStr "Bob"))].

(** As [alice_bob], with a third socket that has connected and not
    joined. *)
Definition alice_bob_visitor : World :=
  mkWorld (stateManager alice_bob)
    [(1, Socket.mk 1 (VStr "Alice")); (2, Socket.mk 1 (VStr "Bob"));
     (3, Socket.mk 1 VNull)].

(** As [alice_bob], the first socket having joined under the empty
    string. *)
Definition nameless_bob : World :=
  mkWorld
    (mkState None
       [(1, Client.mk (VStr "") 0 0 0); (2, bob)]
       [(VStr "", Ptt.mk (VBool true) (VBool false));
        (VStr "Bob", Ptt.mk (VBool true) (VBool false))]
       [(VStr "", Voice.mk (VBool false) (VNum 0));
        (VStr "Bob", Voice.mk (VBool false) (VNum 0))]
       (<[2 := Limit.mk 1 1000]> (<[1 := Limit.mk 1 1000]> ∅))
       0)
    [(1, Socket.mk 1 (VStr "")); (2, Socket.mk 1 (VStr "Bob"))].

(** ** Further parts of the server *)

(** [getStats], without the process figures [memoryUsage] and [uptime]. *)
Record Stats : Type := mkStats {
  totalClients : nat;
  pttActive : nat;
  voiceActive : nat
}.

Definition getStats (s : StateManager) : Stats :=
  mkStats (JsMap.size (clients s)) (JsMap.size (pttStates s))
    (JsMap.size (voiceStates s)).

(** [gracefulShutdown(signal)]: the notice to the open sockets, then
    [close(1001)] on every socket of [wss.clients].  Closing the HTTP server
    and the exit timer are outside the model. *)
Definition gracefulShutdown (wss : list (conn * Socket.t)) : list effect :=
  Log WARN "received. Starting graceful shutdown..."
    :: broadcastToAll wss MsgServerShutdown
    ++ map (fun client => Close (fst client) 1001 "Server shutting down")
         (JsMap.entries wss).

(** The heartbeat of one connection: the variable [isAlive], the interval
    callback and the pong handler. *)
Inductive heartbeat_effect : Type :=
  | HbWarn
  | HbClearInterval
  | HbTerminate
  | HbPing.

Inductive timer : Type := Running | Cleared.

(** The callback of [setInterval(..., WS_PING_INTERVAL)]: the new value of
    [isAlive], whether the interval still runs, and the effects. *)
Definition ping_interval (isAlive : bool)
    : bool * timer * list heartbeat_effect :=
  if negb isAlive
  then (isAlive, Cleared, [HbWarn; HbClearInterval; HbTerminate])
  else (false, Running, [HbPing]).

(** [ws.on('pong', ...)] *)
Definition on_pong (isAlive : bool) : bool := true.

Inductive heartbeat_event : Type := Tick | Pong.

(** What the heartbeat does along a sequence of timer ticks and pongs; once
    the interval is cleared no later tick runs. *)
Fixpoint heartbeat (isAlive : bool) (evs : list heartbeat_event)
    : list heartbeat_effect :=
  match evs with
  | [] => []
  | Pong :: rest => heartbeat (on_pong isAlive) rest
  | Tick :: rest =>
      match snd (fst (ping_interval isAlive)) with
      | Cleared => snd (ping_interval isAlive)
      | Running =>
          snd (ping_interval isAlive)
          ++ heartbeat (fst (fst (ping_interval isAlive))) rest
      end
  end.

(** The test of the sweep on a registry entry. *)
Definition timed_out (now : Z) (cd : Client.t) : bool :=
  bool_decide (now - Client.lastActivity cd > CLIENT_TIMEOUT)%Z.

(** Every registered identity has an entry in both state tables. *)
Definition participants_have_states (s : StateManager) : Prop :=
  forall ws cd,
    JsMap.get (clients s) ws = Some cd ->
    is_Some (JsMap.get (pttStates s) (Client.gamertag cd))
    /\ is_Some (JsMap.get (voiceStates s) (Client.gamertag cd)).

(** The registry holds no more than [MAX_CONNECTIONS] entries. *)
Definition within_capacity (s : StateManager) : Prop :=
  (Z.of_nat (JsMap.size (clients s)) <= Z.max 0 MAX_CONNECTIONS)%Z.

(** Two requests never share an object: each body is parsed on its own.
    What two parses of one text have in common is that their primitive
    values are equal and that an object stands where an object stands. *)
Definition is_object (v : value) : bool :=
  match v with VObj _ => true | _ => false end.

Definition same_text (v w : value) : bool :=
  match v, w with
  | VObj _, VObj _ => true
  | _, _ => bool_decide (v = w)
  end.

Definition same_text_data (d e : option PlayerData.t) : bool :=
  match d, e with
  | None, None => true
  | Some d, Some e =>
      same_text (PlayerData.isTalking d) (PlayerData.isTalking e)
      && same_text (PlayerData.isMuted d) (PlayerData.isMuted e)
      && same_text (PlayerData.voiceVolume d) (PlayerData.voiceVolume e)
  | _, _ => false
  end.

Definition same_text_player (p q : Player.t) : bool :=
  same_text (Player.name p) (Player.name q)
  && same_text_data (Player.data p) (Player.data q).

(** [again] is a body that a later request with the text of [body] can
    carry. *)
Definition posted_again (body again : Body.t) : Prop :=
  match Body.players body, Body.players again with
  | None, None => True
  | Some ps, Some qs => Forall2 (fun p q => same_text_player p q = true) ps qs
  | _, _ => False
  end.

(** A signaling envelope. *)
Definition signal_msg (type : string) (to from : value) : Msg.t :=
  Msg.mk (VStr type) VUndefined VUndefined VUndefined VUndefined to from.

(** The message types the dispatcher knows. *)
Definition known_types : list value :=
  [VStr "join"; VStr "leave"; VStr "voice-detection"; VStr "ptt-status";
   VStr "offer"; VStr "answer"; VStr "ice-candidate"; VStr "heartbeat";
   VStr "request-participants"].

(** ** Facts about insertion-ordered maps *)

Section JsMapFacts.
Context {K V : Type} `{EqDecision K}.
Implicit Types (m : list (K * V)) (k : K) (v : V).

Lemma get_set_eq m k v : JsMap.get (JsMap.set m k v) k = Some v.
Proof.
  induction m as [|[k' v'] m IH]; simpl.
  - by rewrite decide_True.
  - destruct (decide (k' = k)) as [->|Hne]; simpl.
    + by rewrite decide_True.
    + by rewrite decide_False.
Qed.

Lemma get_set_ne m k k' v :
  k <> k' -> JsMap.get (JsMap.set m k v) k' = JsMap.get m k'.
Proof.
  intros Hne. induction m as [|[k0 v0] m IH]; simpl.
  - by rewrite decide_False.
  - destruct (decide (k0 = k)) as [->|Hk]; simpl.
    + by rewrite !decide_False.
    + by rewrite IH.
Qed.

Lemma get_delete_eq m k : JsMap.get (JsMap.delete m k) k = None.
Proof.
  induction m as [|[k' v'] m IH]; simpl; [done|].
  destruct (decide (k' = k)) as [->|Hne]; simpl; [done|].
  by rewrite decide_False.
Qed.

Lemma get_delete_ne m k k' :
  k <> k' -> JsMap.get (JsMap.delete m k) k' = JsMap.get m k'.
Proof.
  intros Hne. induction m as [|[k0 v0] m IH]; simpl; [done|].
  destruct (decide (k0 = k)) as [->|Hk]; simpl.
  - by rewrite decide_False.
  - by rewrite IH.
Qed.

Lemma get_None_keys m k : JsMap.get m k = None <-> k ∉ JsMap.keys m.
Proof.
  induction m as [|[k' v'] m IH]; simpl.
  - split; [intros _; apply not_elem_of_nil | done].
  - rewrite not_elem_of_cons. destruct (decide (k' = k)) as [->|Hne].
    + split; [done | intros [? _]; done].
    + rewrite IH. split; [intros ?; split; [congruence | done] | by intros [_ ?]].
Qed.

Lemma delete_absent m k : JsMap.get m k = None -> JsMap.delete m k = m.
Proof.
  induction m as [|[k' v'] m IH]; simpl; [done|].
  destruct (decide (k' = k)); [done|]. intros Hg. by rewrite IH.
Qed.

(** Overwriting the value of a present key keeps every position. *)
Lemma map_set_present {B} (f : K * V -> B) m k v v' :
  JsMap.get m k = Some v -> f (k, v') = f (k, v) ->
  map f (JsMap.set m k v') = map f m.
Proof.
  induction m as [|[k0 v0] m IH]; simpl; [done|].
  destruct (decide (k0 = k)) as [->|Hne]; simpl.
  - intros [= ->] Hf. by rewrite Hf.
  - intros Hg Hf. by rewrite IH.
Qed.

Lemma set_absent m k v : JsMap.get m k = None -> JsMap.set m k v = m ++ [(k, v)].
Proof.
  induction m as [|[k0 v0] m IH]; simpl; [done|].
  destruct (decide (k0 = k)); [done|]. intros Hg. by rewrite IH.
Qed.

Lemma length_set_present m k v v' :
  JsMap.get m k = Some v -> length (JsMap.set m k v') = length m.
Proof.
  induction m as [|[k0 v0] m IH]; simpl; [done|].
  destruct (decide (k0 = k)); simpl; [done|]. intros Hg. by rewrite IH.
Qed.

Lemma map_delete_sublist {B} (f : K * V -> B) m k :
  sublist (map f (JsMap.delete m k)) (map f m).
Proof.
  induction m as [|[k0 v0] m IH]; simpl; [done|].
  destruct (decide (k0 = k)); simpl; [by apply sublist_cons | by apply sublist_skip].
Qed.

Lemma wf_set m k v : JsMap.wf m -> JsMap.wf (JsMap.set m k v).
Proof.
  unfold JsMap.wf, JsMap.keys. intros Hwf.
  destruct (JsMap.get m k) as [v0|] eqn:Hg.
  - by rewrite (map_set_present fst m k v0 v).
  - rewrite (set_absent m k v Hg), map_app. simpl.
    apply NoDup_app. split; [done|]. split; [|apply NoDup_singleton].
    intros x Hx ->%list_elem_of_singleton. by apply get_None_keys in Hg.
Qed.

Lemma wf_delete m k : JsMap.wf m -> JsMap.wf (JsMap.delete m k).
Proof.
  unfold JsMap.wf, JsMap.keys. intros Hwf.
  eapply sublist_NoDup; [exact Hwf | apply map_delete_sublist].
Qed.
End JsMapFacts.

(** ** The rate limiter *)

Lemma checkRateLimit_refines (s : StateManager) (ws : conn) (now : Z) :
  checkRateLimit s ws now = checkAndConsume s ws now.
Proof.
  unfold checkRateLimit, checkAndConsume, spec_window.
  destruct (rateLimits s !! ws) as [l|]; [done|]. simpl.
  unfold RATE_LIMIT_WINDOW.
  by rewrite (bool_decide_false (now > now + 1000)%Z) by lia.
Qed.

Lemma checkRateLimit_lookup (s : StateManager) (ws : conn) (now : Z) :
  rateLimits (snd (checkRateLimit s ws now)) !! ws
  = Some (spec_window (rateLimits s !! ws) now).
Proof.
  rewrite checkRateLimit_refines. unfold checkAndConsume. simpl.
  apply lookup_insert_eq.
Qed.

Lemma checkRateLimit_answer (s : StateManager) (ws : conn) (now : Z) :
  fst (checkRateLimit s ws now)
  = bool_decide (Limit.count (spec_window (rateLimits s !! ws) now)
                 <= RATE_LIMIT_MAX)%Z.
Proof. by rewrite checkRateLimit_refines. Qed.

Lemma rate_answers_in_window (ts : list Z) :
  forall (s : StateManager) (ws : conn) (c r : Z),
    rateLimits s !! ws = Some (Limit.mk c r) ->
    Forall (fun t => t <= r)%Z ts ->
    rate_answers s ws ts = in_window_answers c (length ts)
    /\ rateLimits (rate_state s ws ts) !! ws
       = Some (Limit.mk (c + Z.of_nat (length ts)) r).
Proof.
  induction ts as [|t ts IH]; intros s ws c r Hl Hts.
  - simpl. split; [done|]. rewrite Hl. do 2 f_equal. lia.
  - apply Forall_cons in Hts as [Ht Hts].
    assert (Hstep : rateLimits (snd (checkRateLimit s ws t)) !! ws
                    = Some (Limit.mk (c + 1) r)).
    { rewrite checkRateLimit_lookup, Hl. simpl.
      by rewrite bool_decide_false by lia. }
    destruct (IH _ ws _ _ Hstep Hts) as [IHa IHs].
    cbn [rate_answers rate_state length in_window_answers]. split.
    + rewrite IHa. f_equal.
      rewrite checkRateLimit_answer, Hl. simpl.
      by rewrite (bool_decide_false (t > r)%Z) by lia.
    + rewrite IHs. do 2 f_equal. lia.
Qed.

(** C2.  [checkRateLimit] is the window counter of the specification: it
    agrees with [checkAndConsume] on every state, connection and instant.
    Consequently, when a message opens a window (50 per 1000 ms) and 50
    more follow inside that window, the first 50 of the 51 are allowed and
    the 51st is rejected, and a message arriving after the window has
    elapsed is allowed and restarts the window with count 1. *)
Theorem checkRateLimit_window_counter :
  (forall (s : StateManager) (ws : conn) (now : Z),
     checkRateLimit s ws now = checkAndConsume s ws now)
  /\ (forall (s : StateManager) (ws : conn) (t1 : Z) (ts : list Z) (t' : Z),
        opens_window s ws t1 ->
        length ts = 50%nat ->
        Forall (fun t => t <= t1 + RATE_LIMIT_WINDOW)%Z ts ->
        (t' > t1 + RATE_LIMIT_WINDOW)%Z ->
        rate_answers s ws (t1 :: ts) = replicate 50 true ++ [false]
        /\ fst (checkRateLimit (rate_state s ws (t1 :: ts)) ws t') = true
        /\ rateLimits (snd (checkRateLimit (rate_state s ws (t1 :: ts)) ws t'))
             !! ws
           = Some (Limit.mk 1 (t' + RATE_LIMIT_WINDOW))).
Proof.
  split; [apply checkRateLimit_refines|].
  intros s ws t1 ts t' Hnew Hlen Hts Hlate.
  assert (Hw : spec_window (rateLimits s !! ws) t1
               = Limit.mk 1 (t1 + RATE_LIMIT_WINDOW)).
  { unfold opens_window in Hnew. unfold spec_window.
    destruct (rateLimits s !! ws) as [l|]; [|done].
    by rewrite bool_decide_true by done. }
  assert (Hfirst : rateLimits (snd (checkRateLimit s ws t1)) !! ws
                   = Some (Limit.mk 1 (t1 + RATE_LIMIT_WINDOW))).
  { by rewrite checkRateLimit_lookup, Hw. }
  destruct (rate_answers_in_window ts _ ws _ _ Hfirst Hts) as [Ha Hs].
  cbn [rate_answers rate_state]. rewrite Ha, Hlen.
  rewrite !checkRateLimit_answer, !checkRateLimit_lookup, Hw, Hs, Hlen.
  cbn [spec_window Limit.resetAt Limit.count].
  rewrite (bool_decide_true (t' > t1 + RATE_LIMIT_WINDOW)%Z) by lia.
  split; [by vm_compute|]. split; [by vm_compute | done].
Qed.

(** ** The registry *)

Lemma isGamertagTaken_spec (s : StateManager) (g : value) :
  isGamertagTaken s g = true <-> g ∈ getParticipants s.
Proof.
  unfold isGamertagTaken, getParticipants, JsMap.entries, JsMap.values, strict_eq.
  induction (clients s) as [|[c cd] m IH]; simpl.
  - split; [done | by intros ?%elem_of_nil].
  - rewrite orb_true_iff, IH, elem_of_cons, bool_decide_eq_true.
    split; (intros [?|?]; [by left | by right]).
Qed.

Lemma isGamertagTaken_false (s : StateManager) (g : value) :
  isGamertagTaken s g = false <-> g ∉ getParticipants s.
Proof.
  rewrite <- isGamertagTaken_spec. by destruct (isGamertagTaken s g).
Qed.

Lemma participant_of_get (s : StateManager) (ws : conn) (cd : Client.t) :
  JsMap.get (clients s) ws = Some cd -> Client.gamertag cd ∈ getParticipants s.
Proof.
  unfold getParticipants, JsMap.values.
  induction (clients s) as [|[c cd'] m IH]; simpl; [done|].
  destruct (decide (c = ws)).
  - intros [= ->]. apply elem_of_cons; by left.
  - intros Hg. apply elem_of_cons; right; by apply IH.
Qed.

Lemma findTarget_absent (m : list (conn * Client.t)) (g : value) :
  g ∉ map Client.gamertag (JsMap.values m) -> findTarget m g = None.
Proof.
  unfold JsMap.values.
  induction m as [|[c cd] m IH]; simpl; [done|].
  rewrite not_elem_of_cons. intros [Hne Hnin]. unfold strict_eq.
  rewrite bool_decide_false by congruence. by apply IH.
Qed.

Lemma participants_delete_subset (m : list (conn * Client.t)) (ws : conn) (g : value) :
  g ∈ map Client.gamertag (JsMap.values (JsMap.delete m ws)) ->
  g ∈ map Client.gamertag (JsMap.values m).
Proof.
  unfold JsMap.values.
  induction m as [|[c cd] m IH]; simpl; [done|].
  destruct (decide (c = ws)); simpl.
  - intros ?%IH. apply elem_of_cons; by right.
  - rewrite !elem_of_cons. intros [->|?%IH]; [by left | by right].
Qed.

Lemma findTarget_delete (m : list (conn * Client.t)) (ws : conn) (cd : Client.t) :
  NoDup (map Client.gamertag (JsMap.values m)) ->
  JsMap.get m ws = Some cd ->
  findTarget (JsMap.delete m ws) (Client.gamertag cd) = None.
Proof.
  unfold JsMap.values.
  induction m as [|[c cd0] m IH]; simpl; [done|].
  rewrite NoDup_cons. intros [Hnin Hnd].
  destruct (decide (c = ws)) as [->|Hne].
  - intros [= ->]. apply findTarget_absent.
    intros Hin%participants_delete_subset. by apply Hnin.
  - intros Hg. simpl. unfold strict_eq. rewrite bool_decide_false.
    + by apply IH.
    + intros Heq. apply Hnin. rewrite Heq.
      clear -Hg. induction m as [|[c1 cd1] m IH]; simpl in *; [done|].
      destruct (decide (c1 = ws)).
      * injection Hg as ->. apply elem_of_cons; by left.
      * apply elem_of_cons; right; by apply IH.
Qed.

Lemma removeClient_unregistered (s : StateManager) (ws : conn) :
  JsMap.get (clients s) ws = None -> removeClient s ws = s.
Proof. unfold removeClient. by intros ->. Qed.

Lemma removeClient_clients (s : StateManager) (ws : conn) :
  clients (removeClient s ws) = JsMap.delete (clients s) ws.
Proof.
  unfold removeClient. destruct (JsMap.get (clients s) ws) eqn:Hg; [done|].
  by rewrite delete_absent.
Qed.

Lemma removeClient_idempotent (s : StateManager) (ws : conn) :
  removeClient (removeClient s ws) ws = removeClient s ws.
Proof.
  apply removeClient_unregistered.
  rewrite removeClient_clients. apply get_delete_eq.
Qed.

(** C4.  [removeClient] on a registered connection removes its entry of
    [clients], the [pttStates] and [voiceStates] entries of its identity and
    its rate window, and leaves every other connection and identity as it
    was; on an unregistered connection it changes nothing; a second call
    changes nothing; it is a total function (nothing is thrown); and, the
    identities being unique, the target lookup of that identity then finds
    no connection. *)
Theorem removeClient_deregisters (s : StateManager) (ws : conn) :
  unique_identities s ->
  match JsMap.get (clients s) ws with
  | Some clientData =>
      let s' := removeClient s ws in
      let g := Client.gamertag clientData in
      JsMap.get (clients s') ws = None
      /\ JsMap.get (pttStates s') g = None
      /\ JsMap.get (voiceStates s') g = None
      /\ rateLimits s' !! ws = None
      /\ findTarget (JsMap.entries (clients s')) g = None
      /\ (forall c, c <> ws ->
            JsMap.get (clients s') c = JsMap.get (clients s) c
            /\ rateLimits s' !! c = rateLimits s !! c)
      /\ (forall g', g' <> g ->
            JsMap.get (pttStates s') g' = JsMap.get (pttStates s) g'
            /\ JsMap.get (voiceStates s') g' = JsMap.get (voiceStates s) g')
  | None => removeClient s ws = s
  end
  /\ removeClient (removeClient s ws) ws = removeClient s ws.
Proof.
  intros Huniq. split; [|apply removeClient_idempotent].
  destruct (JsMap.get (clients s) ws) as [cd|] eqn:Hg;
    [|by apply removeClient_unregistered].
  cbv zeta. rewrite removeClient_clients.
  unfold removeClient. rewrite Hg. simpl.
  split; [apply get_delete_eq|].
  split; [apply get_delete_eq|].
  split; [apply get_delete_eq|].
  split; [apply lookup_delete_eq|].
  split; [by apply findTarget_delete|].
  split.
  - intros c Hc. split; [by apply get_delete_ne | by apply lookup_delete_ne].
  - intros g' Hg'. split; by apply get_delete_ne.
Qed.

Lemma updateActivity_identity (s : StateManager) (ws c : conn) (now : Z) :
  option_map Client.gamertag (JsMap.get (clients (updateActivity s ws now)) c)
  = option_map Client.gamertag (JsMap.get (clients s) c).
Proof.
  unfold updateActivity. destruct (JsMap.get (clients s) ws) as [cd|] eqn:Hg; [|done].
  simpl. destruct (decide (ws = c)) as [<-|Hne].
  - by rewrite get_set_eq, Hg.
  - by rewrite get_set_ne.
Qed.

Lemma updateActivity_other (s : StateManager) (ws c : conn) (now : Z) :
  c <> ws ->
  JsMap.get (clients (updateActivity s ws now)) c = JsMap.get (clients s) c.
Proof.
  intros Hne. unfold updateActivity.
  destruct (JsMap.get (clients s) ws) as [cd|] eqn:Hg; [|done].
  simpl. by rewrite get_set_ne.
Qed.

Lemma updateActivity_participants (s : StateManager) (ws : conn) (now : Z) :
  getParticipants (updateActivity s ws now) = getParticipants s.
Proof.
  unfold updateActivity, getParticipants, JsMap.values.
  destruct (JsMap.get (clients s) ws) as [cd|] eqn:Hg; [|done].
  simpl. rewrite !map_map. by apply map_set_present with (v := cd).
Qed.

Lemma updateActivity_size (s : StateManager) (ws : conn) (now : Z) :
  JsMap.size (clients (updateActivity s ws now)) = JsMap.size (clients s).
Proof.
  unfold updateActivity, JsMap.size.
  destruct (JsMap.get (clients s) ws) as [cd|] eqn:Hg; [|done].
  simpl. by apply length_set_present with (v := cd).
Qed.

Lemma updateActivity_taken (s : StateManager) (ws : conn) (now : Z) (g : value) :
  isGamertagTaken (updateActivity s ws now) g = isGamertagTaken s g.
Proof.
  destruct (isGamertagTaken s g) eqn:Ht.
  - apply isGamertagTaken_spec. rewrite updateActivity_participants.
    by apply isGamertagTaken_spec.
  - apply isGamertagTaken_false. rewrite updateActivity_participants.
    by apply isGamertagTaken_false.
Qed.

Lemma addClient_taken (s : StateManager) (ws : conn) (g : value) (now : Z) :
  isGamertagTaken s g = true ->
  exists message, addClient s ws g now = inl message.
Proof.
  intros Ht. unfold addClient. case_bool_decide; [by eexists|].
  rewrite Ht. by eexists.
Qed.

Lemma broadcast_spec (wss : list (conn * Socket.t)) (ws : conn) (p : payload) :
  broadcast wss ws p = map (fun c => Send c p) (other_open_sockets wss ws).
Proof.
  unfold broadcast, other_open_sockets, open_sockets, JsMap.entries.
  induction wss as [|[c sk] wss IH]; simpl; [done|].
  destruct (bool_decide (Socket.readyState sk = 1%Z)); simpl.
  - destruct (bool_decide (c <> ws)); simpl; by rewrite IH.
  - rewrite andb_false_r. simpl. by rewrite IH.
Qed.

Lemma broadcastToAll_spec (wss : list (conn * Socket.t)) (p : payload) :
  broadcastToAll wss p = map (fun c => Send c p) (open_sockets wss).
Proof.
  unfold broadcastToAll, open_sockets, JsMap.entries.
  induction wss as [|[c sk] wss IH]; simpl; [done|].
  destruct (bool_decide (Socket.readyState sk = 1%Z)); simpl; by rewrite IH.
Qed.

(** What [on_message] does with a message that the rate limiter admits. *)
Lemma on_message_admitted (wss : list (conn * Socket.t)) (s : StateManager)
    (ws : conn) (gamertag : value) (now : Z) (data : Msg.t) :
  fst (checkRateLimit s ws now) = true ->
  on_message wss s ws gamertag now (Parsed data)
  = dispatch true wss (updateActivity (snd (checkRateLimit s ws now)) ws now)
      ws gamertag now data.
Proof. unfold on_message. by intros ->. Qed.

(** C1.  While a connection [a] is registered under an identity, a join
    for that identity arriving on another connection [b] fails:
    [addClient] throws, the registry keeps the same identity for every
    connection ([a]'s entry and the identity list are as before, as are
    [pttStates] and [voiceStates]), and [b] is sent the error message and
    closed.  The registration check is exact equality of the identity with
    a registered one. *)
Theorem duplicate_join_rejected (wss : list (conn * Socket.t))
    (s : StateManager) (a b : conn) (cd : Client.t) (gamertag_b : value)
    (now : Z) (data : Msg.t) :
  JsMap.get (clients s) a = Some cd ->
  b <> a ->
  Msg.type data = VStr "join" ->
  Msg.gamertag data = Client.gamertag cd ->
  fst (checkRateLimit s b now) = true ->
  let r := on_message wss s b gamertag_b now (Parsed data) in
  let s' := fst (fst r) in
  (exists message,
     addClient s b (Client.gamertag cd) now = inl message)
  /\ (exists message,
        addClient s' b (Client.gamertag cd) now = inl message
        /\ snd r = [Log ERROR "Join failed"; Send b (MsgError message);
                    Close b 1008 message])
  /\ JsMap.get (clients s') a = Some cd
  /\ getParticipants s' = getParticipants s
  /\ (forall c,
        option_map Client.gamertag (JsMap.get (clients s') c)
        = option_map Client.gamertag (JsMap.get (clients s) c))
  /\ pttStates s' = pttStates s
  /\ voiceStates s' = voiceStates s
  /\ snd (fst r) = gamertag_b
  /\ (forall g, isGamertagTaken s g = true <-> g ∈ getParticipants s).
Proof.
  intros Ha Hne Htype Hg Hrate r s'.
  assert (Htaken : isGamertagTaken s (Client.gamertag cd) = true).
  { apply isGamertagTaken_spec. by eapply participant_of_get. }
  set (s2 := updateActivity (snd (checkRateLimit s b now)) b now).
  assert (Htaken2 : isGamertagTaken s2 (Client.gamertag cd) = true).
  { unfold s2. by rewrite updateActivity_taken. }
  destruct (addClient_taken s2 b _ now Htaken2) as [m Hm].
  assert (Hr : r = (s2, gamertag_b,
                    [Log ERROR "Join failed"; Send b (MsgError m);
                     Close b 1008 m])).
  { unfold r. rewrite on_message_admitted by done. fold s2.
    unfold dispatch. rewrite Htype, Hg. unfold strict_eq at 1.
    rewrite bool_decide_true by done. by rewrite Hm. }
  assert (Hs' : s' = s2) by (unfold s'; by rewrite Hr).
  rewrite Hs', Hr. cbn [fst snd].
  split; [by apply addClient_taken|].
  split; [by exists m|].
  split; [unfold s2; by rewrite updateActivity_other|].
  split; [unfold s2; by rewrite updateActivity_participants|].
  split; [intros c; unfold s2; by rewrite updateActivity_identity|].
  split; [unfold s2, updateActivity; by destruct (JsMap.get _ b)|].
  split; [unfold s2, updateActivity; by destruct (JsMap.get _ b)|].
  split; [done|]. apply isGamertagTaken_spec.
Qed.

Lemma findTarget_None (m : list (conn * Client.t)) (g : value) :
  findTarget m g = None -> g ∉ map Client.gamertag (JsMap.values m).
Proof.
  unfold JsMap.values.
  induction m as [|[c cd] m IH]; simpl; [intros _; apply not_elem_of_nil|].
  unfold strict_eq. case_bool_decide as Hg; [done|].
  intros Hf. apply not_elem_of_cons. split; [congruence | by apply IH].
Qed.

Lemma removeClient_participant_gone (s : StateManager) (ws : conn) (cd : Client.t) :
  unique_identities s ->
  JsMap.get (clients s) ws = Some cd ->
  Client.gamertag cd ∉ getParticipants (removeClient s ws).
Proof.
  intros Hu Hg. unfold getParticipants. rewrite removeClient_clients.
  apply findTarget_None. by apply findTarget_delete.
Qed.

Lemma sends_broadcast (l : list conn) (p : payload) :
  sends (map (fun c => Send c p) l) = map (fun c => (c, p)) l.
Proof. induction l as [|c l IH]; simpl; [done|]. by rewrite <- IH. Qed.

Lemma dispatch_leave (p : bool) (wss : list (conn * Socket.t)) (s : StateManager)
    (ws : conn) (gamertag : value) (now : Z) (data : Msg.t) :
  Msg.type data = VStr "leave" ->
  dispatch p wss s ws gamertag now data
  = (removeClient s ws, gamertag,
     Log INFO "left" :: broadcast wss ws (MsgLeave gamertag)).
Proof. intros Ht. unfold dispatch. by rewrite Ht. Qed.

Lemma dispatch_request_participants (p : bool) (wss : list (conn * Socket.t))
    (s : StateManager) (ws : conn) (gamertag : value) (now : Z) (data : Msg.t) :
  Msg.type data = VStr "request-participants" ->
  dispatch p wss s ws gamertag now data
  = (s, gamertag, [Send ws (MsgParticipantsList (getParticipants s))]).
Proof. intros Ht. unfold dispatch. by rewrite Ht. Qed.

Lemma dispatch_voice_detection (p : bool) (wss : list (conn * Socket.t))
    (s : StateManager) (ws : conn) (gamertag : value) (now : Z) (data : Msg.t) :
  Msg.type data = VStr "voice-detection" ->
  dispatch p wss s ws gamertag now data
  = (with_voiceStates s
       (JsMap.set (voiceStates s) (Msg.gamertag data)
          (Voice.mk (Msg.isTalking data) (or_else (Msg.volume data) (VNum 0)))),
     gamertag, []).
Proof. intros Ht. unfold dispatch. by rewrite Ht. Qed.

Lemma dispatch_ptt_status (p : bool) (wss : list (conn * Socket.t))
    (s : StateManager) (ws : conn) (gamertag : value) (now : Z) (data : Msg.t) :
  Msg.type data = VStr "ptt-status" ->
  dispatch p wss s ws gamertag now data
  = (with_pttStates s
       (JsMap.set (pttStates s) (Msg.gamertag data)
          (Ptt.mk (Msg.isTalking data) (Msg.isMuted data))),
     gamertag,
     broadcastToAll wss
       (MsgPttUpdate (Msg.gamertag data) (Msg.isTalking data)
          (Msg.isMuted data))).
Proof. intros Ht. unfold dispatch. by rewrite Ht. Qed.

Lemma dispatch_join (wss : list (conn * Socket.t))
    (s : StateManager) (ws : conn) (gamertag : value) (now : Z) (data : Msg.t) :
  Msg.type data = VStr "join" ->
  dispatch true wss s ws gamertag now data
  = match addClient s ws (Msg.gamertag data) now with
    | inr s' =>
        (s', Msg.gamertag data,
         [Log SUCCESS "joined";
          Send ws (MsgParticipantsList (getParticipants s'))]
         ++ broadcast wss ws (MsgJoin (Msg.gamertag data))
         ++ broadcastToAll wss (MsgParticipantsList (getParticipants s')))
    | inl message =>
        (s, gamertag,
         [Log ERROR "Join failed"; Send ws (MsgError message);
          Close ws 1008 message])
    end.
Proof. intros Ht. unfold dispatch. by rewrite Ht. Qed.

(** The join branch on a gamertag that does not convert to a string. *)
Lemma dispatch_join_unprintable (wss : list (conn * Socket.t))
    (s : StateManager) (ws : conn) (gamertag : value) (now : Z) (data : Msg.t) :
  Msg.type data = VStr "join" ->
  dispatch false wss s ws gamertag now data
  = match addClient s ws (Msg.gamertag data) now with
    | inr s' =>
        (s', Msg.gamertag data, [Log ERROR "Uncaught Exception"; Exit 1])
    | inl message => (s, gamertag, [Log ERROR "Message processing error"])
    end.
Proof. intros Ht. unfold dispatch. by rewrite Ht. Qed.

(** Outside the join branch no template literal reads the envelope. *)
Lemma dispatch_not_join (p : bool) (wss : list (conn * Socket.t))
    (s : StateManager) (ws : conn) (gamertag : value) (now : Z) (data : Msg.t) :
  Msg.type data <> VStr "join" ->
  dispatch p wss s ws gamertag now data
  = dispatch true wss s ws gamertag now data.
Proof.
  intros Ht. unfold dispatch, strict_eq. by rewrite bool_decide_false.
Qed.

Lemma on_message_admitted_unprintable (wss : list (conn * Socket.t))
    (s : StateManager) (ws : conn) (gamertag : value) (now : Z) (data : Msg.t) :
  fst (checkRateLimit s ws now) = true ->
  on_message wss s ws gamertag now (ParsedUnprintable data)
  = dispatch false wss (updateActivity (snd (checkRateLimit s ws now)) ws now)
      ws gamertag now data.
Proof. unfold on_message. by intros ->. Qed.

Lemma updateActivity_unique (s : StateManager) (ws : conn) (now : Z) :
  unique_identities s -> unique_identities (updateActivity s ws now).
Proof. unfold unique_identities. by rewrite updateActivity_participants. Qed.

(** C3, as the code has it.  A [leave] message that the rate limiter
    admits on a registered connection deregisters the connection, after
    which the identity list no longer contains its identity, and sends a
    leave event carrying the handler's recorded identity to every other
    open socket and to nobody else; the leave branch sends no identity
    list. *)
Theorem leave_deregisters_and_notifies (wss : list (conn * Socket.t))
    (s : StateManager) (ws : conn) (gamertag : value) (now : Z)
    (data : Msg.t) (cd : Client.t) :
  JsMap.get (clients s) ws = Some cd ->
  unique_identities s ->
  Msg.type data = VStr "leave" ->
  fst (checkRateLimit s ws now) = true ->
  let r := on_message wss s ws gamertag now (Parsed data) in
  let s' := fst (fst r) in
  JsMap.get (clients s') ws = None
  /\ (Client.gamertag cd ∉ getParticipants s')
  /\ snd r = (Log INFO "left"
              :: map (fun c => Send c (MsgLeave gamertag))
                   (other_open_sockets wss ws))
  /\ sends (snd r)
     = map (fun c => (c, MsgLeave gamertag)) (other_open_sockets wss ws)
  /\ (forall c p, (c, p) ∈ sends (snd r) -> is_participants_list p = false)
  /\ snd (fst r) = gamertag.
Proof.
  intros Hreg Hu Htype Hrate r s'.
  set (s2 := updateActivity (snd (checkRateLimit s ws now)) ws now).
  assert (Hr : r = (removeClient s2 ws, gamertag,
                    Log INFO "left"
                      :: map (fun c => Send c (MsgLeave gamertag))
                           (other_open_sockets wss ws))).
  { unfold r. rewrite on_message_admitted by done. fold s2.
    by rewrite dispatch_leave, broadcast_spec. }
  assert (Hs' : s' = removeClient s2 ws) by (unfold s'; by rewrite Hr).
  assert (Hid : option_map Client.gamertag (JsMap.get (clients s2) ws)
                = Some (Client.gamertag cd)).
  { unfold s2. rewrite updateActivity_identity. simpl. by rewrite Hreg. }
  destruct (JsMap.get (clients s2) ws) as [cd2|] eqn:Hreg2; [|done].
  injection Hid as Hid.
  rewrite Hs', Hr. cbn [fst snd].
  split; [rewrite removeClient_clients; apply get_delete_eq|].
  split.
  { rewrite <- Hid. apply removeClient_participant_gone; [|done].
    unfold s2. by apply updateActivity_unique. }
  split; [done|].
  assert (Hsends : sends (Log INFO "left"
                     :: map (fun c => Send c (MsgLeave gamertag))
                          (other_open_sockets wss ws))
                   = map (fun c => (c, MsgLeave gamertag))
                       (other_open_sockets wss ws)).
  { change (sends (Log INFO "left" :: ?l)) with (sends l).
    apply sends_broadcast. }
  split; [done|]. split; [|done].
  intros c p. rewrite Hsends, list_elem_of_In, in_map_iff.
  by intros (c' & [= _ <-] & _).
Qed.

Lemma updateActivity_pttStates (s : StateManager) (ws : conn) (now : Z) :
  pttStates (updateActivity s ws now) = pttStates s.
Proof. unfold updateActivity. by destruct (JsMap.get _ ws). Qed.

Lemma updateActivity_voiceStates (s : StateManager) (ws : conn) (now : Z) :
  voiceStates (updateActivity s ws now) = voiceStates s.
Proof. unfold updateActivity. by destruct (JsMap.get _ ws). Qed.

Lemma updateActivity_rateLimits (s : StateManager) (ws : conn) (now : Z) :
  rateLimits (updateActivity s ws now) = rateLimits s.
Proof. unfold updateActivity. by destruct (JsMap.get _ ws). Qed.

Lemma updateActivity_registered (s : StateManager) (ws : conn) (now : Z)
    (cd : Client.t) :
  JsMap.get (clients s) ws = Some cd ->
  JsMap.get (clients (updateActivity s ws now)) ws
  = Some (Client.mk (Client.gamertag cd) (Client.joinedAt cd) now
            (Client.messageCount cd + 1)).
Proof. intros Hg. unfold updateActivity. rewrite Hg. simpl. apply get_set_eq. Qed.

(** C5, as the code has it.  The rate-limit check comes first and the
    activity update second; only then is the body parsed.  A body that
    fails to parse has therefore consumed the sender's rate window, and,
    when admitted, has updated the [lastActivity] and [messageCount] of a
    registered sender; it is logged and not answered, and the identity
    list, [pttStates] and [voiceStates] are unchanged.  A message that the
    rate limiter rejects is answered with the rate-limit error without
    being parsed, whatever its body. *)
Theorem parse_failure_after_rate_limit (wss : list (conn * Socket.t))
    (s : StateManager) (ws : conn) (gamertag : value) (now : Z) :
  let r := on_message wss s ws gamertag now SyntaxError in
  let s' := fst (fst r) in
  let s1 := snd (checkRateLimit s ws now) in
  (if fst (checkRateLimit s ws now)
   then r = (updateActivity s1 ws now, gamertag,
             [Log ERROR "Message processing error"])
        /\ (forall cd, JsMap.get (clients s) ws = Some cd ->
              JsMap.get (clients s') ws
              = Some (Client.mk (Client.gamertag cd) (Client.joinedAt cd) now
                        (Client.messageCount cd + 1)))
   else forall msg,
          on_message wss s ws gamertag now msg
          = (s1, gamertag,
             [Log WARN "Rate limit exceeded";
              Send ws (MsgError "Rate limit exceeded")]))
  /\ rateLimits s' !! ws = Some (spec_window (rateLimits s !! ws) now)
  /\ getParticipants s' = getParticipants s
  /\ pttStates s' = pttStates s
  /\ voiceStates s' = voiceStates s
  /\ snd (fst r) = gamertag.
Proof.
  intros r s' s1. unfold s', r, on_message. fold s1.
  pose proof (checkRateLimit_lookup s ws now) as Hl. fold s1 in Hl.
  destruct (fst (checkRateLimit s ws now)) eqn:Hrate; cbn [negb fst snd].
  - split.
    + split; [done|]. intros cd Hcd. by apply updateActivity_registered.
    + rewrite updateActivity_rateLimits, updateActivity_participants,
        updateActivity_pttStates, updateActivity_voiceStates. done.
  - done.
Qed.

(** C6, as the code has it.  A [request-participants] message that the
    rate limiter admits is answered with the current identity list, sent to
    the requester only; nothing is broadcast and, apart from the rate
    window and the sender's activity, no state changes. *)
Theorem request_participants_replies_to_requester
    (wss : list (conn * Socket.t)) (s : StateManager) (ws : conn)
    (gamertag : value) (now : Z) (data : Msg.t) :
  Msg.type data = VStr "request-participants" ->
  fst (checkRateLimit s ws now) = true ->
  on_message wss s ws gamertag now (Parsed data)
  = (updateActivity (snd (checkRateLimit s ws now)) ws now, gamertag,
     [Send ws (MsgParticipantsList (getParticipants s))]).
Proof.
  intros Htype Hrate. rewrite on_message_admitted by done.
  rewrite dispatch_request_participants by done.
  by rewrite updateActivity_participants.
Qed.

(** ** Snapshot ingestion *)

Lemma ingest_player_ptt (s : StateManager) (p : Player.t) (g : value) :
  JsMap.get (pttStates (ingest_player s p)) g
  = if truthy (Player.name p) && strict_eq (Player.name p) g
    then Some (ptt_of_record p) else JsMap.get (pttStates s) g.
Proof.
  unfold ingest_player, strict_eq.
  destruct (truthy (Player.name p)); simpl; [|done].
  case_bool_decide as Hg.
  - subst g. apply get_set_eq.
  - by apply get_set_ne.
Qed.

Lemma voice_of_record_eq (p : Player.t) :
  voice_of_record p
  = let d := default PlayerData.empty (Player.data p) in
    Voice.mk (VBool (truthy (PlayerData.isTalking d)))
      (if is_number (PlayerData.voiceVolume d)
       then PlayerData.voiceVolume d else VNum (-100)).
Proof.
  unfold voice_of_record. simpl.
  by destruct (PlayerData.voiceVolume (default PlayerData.empty (Player.data p))).
Qed.

Lemma ingest_player_voice (s : StateManager) (p : Player.t) (g : value) :
  JsMap.get (voiceStates (ingest_player s p)) g
  = if truthy (Player.name p) && strict_eq (Player.name p) g
    then Some (voice_of_record p) else JsMap.get (voiceStates s) g.
Proof.
  rewrite voice_of_record_eq. unfold ingest_player, strict_eq.
  destruct (truthy (Player.name p)); simpl; [|done].
  case_bool_decide as Hg.
  - subst g. apply get_set_eq.
  - by apply get_set_ne.
Qed.

Lemma ingest_player_clients (s : StateManager) (p : Player.t) :
  clients (ingest_player s p) = clients s.
Proof. unfold ingest_player. by destruct (truthy (Player.name p)). Qed.

Lemma ingest_players_lookup (ps : list Player.t) :
  forall (s : StateManager) (g : value),
    JsMap.get (pttStates (fold_left ingest_player ps s)) g
    = match last_record ps g with
      | Some p => Some (ptt_of_record p)
      | None => JsMap.get (pttStates s) g
      end
    /\ JsMap.get (voiceStates (fold_left ingest_player ps s)) g
       = match last_record ps g with
         | Some p => Some (voice_of_record p)
         | None => JsMap.get (voiceStates s) g
         end
    /\ clients (fold_left ingest_player ps s) = clients s.
Proof.
  induction ps as [|p ps IH]; intros s g; [done|].
  cbn [fold_left last_record].
  destruct (IH (ingest_player s p) g) as (Hp & Hv & Hc).
  rewrite Hp, Hv, Hc, ingest_player_ptt, ingest_player_voice,
    ingest_player_clients.
  destruct (last_record ps g); [done|].
  by destruct (truthy (Player.name p) && strict_eq (Player.name p) g).
Qed.

(** A table with distinct keys that holds no key but [k] has, after
    [set], exactly the one entry. *)
Lemma set_only_key {V : Type} (m : list (value * V)) (k : value) (v : V) :
  JsMap.wf m -> (forall k', k' ∈ JsMap.keys m -> k' = k) ->
  JsMap.set m k v = [(k, v)].
Proof.
  unfold JsMap.wf, JsMap.keys.
  destruct m as [|[k1 v1] m]; [done|]. simpl.
  intros [Hnin _]%NoDup_cons Hall.
  assert (k1 = k) as -> by (apply Hall, elem_of_cons; by left).
  rewrite decide_True by done.
  destruct m as [|[k2 v2] m]; [done|]. exfalso. apply Hnin.
  assert (k2 = k) as -> by (apply Hall; simpl; rewrite !elem_of_cons; auto).
  simpl. apply elem_of_cons; by left.
Qed.

(** C7.  [POST /minecraft-data] upserts, for every identity named by a
    record with a non-empty identity, the [pttStates] and [voiceStates]
    entries from the last such record, and leaves every other identity's
    entries and the registry as they were; a missing or non-numeric
    [voiceVolume] is stored as -100.  In particular, when the tables hold no
    identity other than "Alice", after the snapshot with the single player
    Alice (muted, not talking, volume -30) the PTT endpoint returns exactly
    the row (Alice, false, true) and the voice endpoint exactly the row
    (Alice, false, -30). *)
Theorem snapshot_ingestion_upserts :
  (forall (wss : list (conn * Socket.t)) (s : StateManager) (body : Body.t)
          (ps : list Player.t) (g : value),
     Body.players body = Some ps ->
     let s' := fst (fst (post_minecraft_data wss s body)) in
     JsMap.get (pttStates s') g
     = match last_record ps g with
       | Some p => Some (ptt_of_record p)
       | None => JsMap.get (pttStates s) g
       end
     /\ JsMap.get (voiceStates s') g
        = match last_record ps g with
          | Some p => Some (voice_of_record p)
          | None => JsMap.get (voiceStates s) g
          end
     /\ clients s' = clients s)
  /\ (forall (p : Player.t),
        Voice.volume (voice_of_record p)
        = match Player.data p with
          | Some d =>
              if is_number (PlayerData.voiceVolume d)
              then PlayerData.voiceVolume d else VNum (-100)
          | None => VNum (-100)
          end)
  /\ (forall (wss : list (conn * Socket.t)) (s : StateManager),
        JsMap.wf (pttStates s) -> JsMap.wf (voiceStates s) ->
        (forall g, g ∈ JsMap.keys (pttStates s) -> g = VStr "Alice") ->
        (forall g, g ∈ JsMap.keys (voiceStates s) -> g = VStr "Alice") ->
        let s' := fst (fst (post_minecraft_data wss s alice_snapshot)) in
        get_ptt_states s'
        = [PttRow.mk (VStr "Alice") (VBool false) (VBool true)]
        /\ get_voice_states s'
           = [VoiceRow.mk (VStr "Alice") (VBool false) (VNum (-30))]).
Proof.
  split; [|split].
  - intros wss s body ps g Hps s'. unfold s', post_minecraft_data.
    rewrite Hps. cbn [fst snd default].
    apply (ingest_players_lookup ps (with_minecraftData s (Some body)) g).
  - intros p. rewrite voice_of_record_eq. by destruct (Player.data p).
  - intros wss s Hwp Hwv Hp Hv s'.
    unfold s', post_minecraft_data, alice_snapshot, get_ptt_states,
      get_voice_states, ptt_rows, voice_rows, ingest_player, JsMap.entries.
    cbn. by rewrite !set_only_key.
Qed.

(** ** Re-registration and unchecked state updates *)

Lemma addClient_success (s : StateManager) (ws : conn) (g : value) (now : Z) :
  (Z.of_nat (JsMap.size (clients s)) < MAX_CONNECTIONS)%Z ->
  isGamertagTaken s g = false ->
  addClient s ws g now
  = inr (mkState (minecraftData s)
           (JsMap.set (clients s) ws (Client.mk g now now 0))
           (JsMap.set (pttStates s) g (Ptt.mk (VBool true) (VBool false)))
           (JsMap.set (voiceStates s) g (Voice.mk (VBool false) (VNum 0)))
           (rateLimits s) (lastCleanup s)).
Proof.
  intros Hcap Hfree. unfold addClient.
  rewrite bool_decide_false by lia. by rewrite Hfree.
Qed.

Lemma removeClient_keeps_other_identity (t : StateManager) (ws : conn)
    (g : value) :
  (forall q, JsMap.get (clients t) ws = Some q -> Client.gamertag q <> g) ->
  JsMap.get (pttStates (removeClient t ws)) g = JsMap.get (pttStates t) g
  /\ JsMap.get (voiceStates (removeClient t ws)) g
     = JsMap.get (voiceStates t) g.
Proof.
  intros Hcur. unfold removeClient.
  destruct (JsMap.get (clients t) ws) as [q|]; [|done]. simpl.
  split; apply get_delete_ne; by apply Hcur.
Qed.

(** C8, as the code has it.  A second [join] from a registered
    connection, naming a different identity that is free while the registry
    is below capacity, overwrites the connection's registry entry with the
    new identity (the registry does not grow); the [pttStates] and
    [voiceStates] entries of the old identity stay as they were.
    [removeClient] on that connection deletes the entries of the
    connection's current identity only: it leaves those of the old identity
    in place, now and in any later state in which the connection's current
    identity is not the old one, and it deletes them in any later state in
    which the connection is registered under the old identity again. *)
Theorem rejoin_keeps_old_identity_states (wss : list (conn * Socket.t))
    (s : StateManager) (ws : conn) (gamertag : value) (now : Z)
    (data : Msg.t) (cd : Client.t) :
  JsMap.get (clients s) ws = Some cd ->
  Msg.type data = VStr "join" ->
  Msg.gamertag data <> Client.gamertag cd ->
  isGamertagTaken s (Msg.gamertag data) = false ->
  (Z.of_nat (JsMap.size (clients s)) < MAX_CONNECTIONS)%Z ->
  fst (checkRateLimit s ws now) = true ->
  let r := on_message wss s ws gamertag now (Parsed data) in
  let s' := fst (fst r) in
  let old := Client.gamertag cd in
  JsMap.get (clients s') ws = Some (Client.mk (Msg.gamertag data) now now 0)
  /\ snd (fst r) = Msg.gamertag data
  /\ JsMap.size (clients s') = JsMap.size (clients s)
  /\ JsMap.get (pttStates s') old = JsMap.get (pttStates s) old
  /\ JsMap.get (voiceStates s') old = JsMap.get (voiceStates s) old
  /\ JsMap.get (pttStates (removeClient s' ws)) old
     = JsMap.get (pttStates s) old
  /\ JsMap.get (voiceStates (removeClient s' ws)) old
     = JsMap.get (voiceStates s) old
  /\ (forall t,
        (forall q, JsMap.get (clients t) ws = Some q -> Client.gamertag q <> old) ->
        JsMap.get (pttStates (removeClient t ws)) old
        = JsMap.get (pttStates t) old
        /\ JsMap.get (voiceStates (removeClient t ws)) old
           = JsMap.get (voiceStates t) old)
  /\ (forall t q,
        JsMap.get (clients t) ws = Some q -> Client.gamertag q = old ->
        JsMap.get (pttStates (removeClient t ws)) old = None
        /\ JsMap.get (voiceStates (removeClient t ws)) old = None).
Proof.
  intros Hreg Htype Hne Hfree Hcap Hrate r s' old.
  set (s2 := updateActivity (snd (checkRateLimit s ws now)) ws now).
  assert (Hadd : addClient s2 ws (Msg.gamertag data) now
                 = inr (mkState (minecraftData s2)
                          (JsMap.set (clients s2) ws
                             (Client.mk (Msg.gamertag data) now now 0))
                          (JsMap.set (pttStates s2) (Msg.gamertag data)
                             (Ptt.mk (VBool true) (VBool false)))
                          (JsMap.set (voiceStates s2) (Msg.gamertag data)
                             (Voice.mk (VBool false) (VNum 0)))
                          (rateLimits s2) (lastCleanup s2))).
  { apply addClient_success.
    - unfold s2. by rewrite updateActivity_size.
    - unfold s2. by rewrite updateActivity_taken. }
  assert (Hreg2 : exists cd2, JsMap.get (clients s2) ws = Some cd2).
  { unfold s2. erewrite updateActivity_registered by exact Hreg. by eexists. }
  destruct Hreg2 as [cd2 Hreg2].
  assert (Hptt2 : pttStates s2 = pttStates s)
    by (unfold s2; by rewrite updateActivity_pttStates).
  assert (Hvoice2 : voiceStates s2 = voiceStates s)
    by (unfold s2; by rewrite updateActivity_voiceStates).
  assert (Hs' : s' = mkState (minecraftData s2)
                       (JsMap.set (clients s2) ws
                          (Client.mk (Msg.gamertag data) now now 0))
                       (JsMap.set (pttStates s2) (Msg.gamertag data)
                          (Ptt.mk (VBool true) (VBool false)))
                       (JsMap.set (voiceStates s2) (Msg.gamertag data)
                          (Voice.mk (VBool false) (VNum 0)))
                       (rateLimits s2) (lastCleanup s2)
                /\ snd (fst r) = Msg.gamertag data).
  { unfold s', r. rewrite on_message_admitted by done. fold s2.
    rewrite dispatch_join by done. by rewrite Hadd. }
  destruct Hs' as [Hs' Hvar].
  assert (Hcur : forall q, JsMap.get (clients s') ws = Some q ->
                        Client.gamertag q <> old).
  { intros q. rewrite Hs'. cbn [clients]. rewrite get_set_eq.
    by intros [= <-]. }
  split; [rewrite Hs'; cbn [clients]; apply get_set_eq|].
  split; [done|].
  split.
  { rewrite Hs'. cbn [clients]. unfold JsMap.size.
    rewrite (length_set_present _ _ cd2) by done.
    apply updateActivity_size. }
  assert (Hp : JsMap.get (pttStates s') old = JsMap.get (pttStates s) old).
  { rewrite Hs'. cbn [pttStates]. rewrite get_set_ne by done. by rewrite Hptt2. }
  assert (Hv : JsMap.get (voiceStates s') old = JsMap.get (voiceStates s) old).
  { rewrite Hs'. cbn [voiceStates]. rewrite get_set_ne by done.
    by rewrite Hvoice2. }
  split; [done|]. split; [done|].
  destruct (removeClient_keeps_other_identity s' ws old Hcur) as [Hrp Hrv].
  split; [by rewrite Hrp|]. split; [by rewrite Hrv|].
  split; [intros t Ht; by apply removeClient_keeps_other_identity|].
  intros t q Hq <-. unfold removeClient. rewrite Hq.
  cbn [pttStates voiceStates with_clients with_rateLimits with_voiceStates
         with_pttStates].
  split; apply get_delete_eq.
Qed.

Lemma reachable_run (evs : list event) :
  forall w, reachable w -> all_enabled w evs -> reachable (run w evs).
Proof.
  induction evs as [|ev evs IH]; intros w Hw Hen; [done|].
  destruct Hen as (Hev & Hex & Hrest). simpl. apply IH; [|done].
  by apply reachable_step.
Qed.

(** C9.  A [voice-detection] message upserts the [voiceStates] entry, and
    a [ptt-status] message the [pttStates] entry, of whatever identity the
    message names: for every state, every sending connection (registered or
    not, under that identity or another) and every named identity.  The
    registry is not consulted and not changed.  Hence an entry can exist
    for an identity that no participant holds: a reachable state has
    entries in both tables and an empty registry. *)
Theorem state_updates_are_unchecked :
  (forall (wss : list (conn * Socket.t)) (s : StateManager) (ws : conn)
          (gamertag : value) (now : Z) (data : Msg.t),
     Msg.type data = VStr "voice-detection" ->
     fst (checkRateLimit s ws now) = true ->
     let r := on_message wss s ws gamertag now (Parsed data) in
     let s' := fst (fst r) in
     let entry :=
       Voice.mk (Msg.isTalking data) (or_else (Msg.volume data) (VNum 0)) in
     voiceStates s' = JsMap.set (voiceStates s) (Msg.gamertag data) entry
     /\ JsMap.get (voiceStates s') (Msg.gamertag data) = Some entry
     /\ pttStates s' = pttStates s
     /\ getParticipants s' = getParticipants s
     /\ snd r = [])
  /\ (forall (wss : list (conn * Socket.t)) (s : StateManager) (ws : conn)
             (gamertag : value) (now : Z) (data : Msg.t),
        Msg.type data = VStr "ptt-status" ->
        fst (checkRateLimit s ws now) = true ->
        let r := on_message wss s ws gamertag now (Parsed data) in
        let s' := fst (fst r) in
        let entry := Ptt.mk (Msg.isTalking data) (Msg.isMuted data) in
        pttStates s' = JsMap.set (pttStates s) (Msg.gamertag data) entry
        /\ JsMap.get (pttStates s') (Msg.gamertag data) = Some entry
        /\ voiceStates s' = voiceStates s
        /\ getParticipants s' = getParticipants s
        /\ snd r
           = map (fun c =>
                    Send c (MsgPttUpdate (Msg.gamertag data)
                              (Msg.isTalking data) (Msg.isMuted data)))
               (open_sockets wss))
  /\ (exists (w : World) (g : value),
        reachable w
        /\ getParticipants (stateManager w) = []
        /\ is_Some (JsMap.get (pttStates (stateManager w)) g)
        /\ is_Some (JsMap.get (voiceStates (stateManager w)) g)).
Proof.
  split; [|split].
  - intros wss s ws gamertag now data Htype Hrate r s' entry.
    unfold s', r. rewrite on_message_admitted by done.
    rewrite dispatch_voice_detection by done. cbn [fst snd voiceStates
      with_voiceStates pttStates].
    rewrite updateActivity_voiceStates, updateActivity_pttStates.
    split; [done|]. split; [apply get_set_eq|]. split; [done|].
    split; [|done].
    unfold getParticipants. cbn [clients].
    apply updateActivity_participants.
  - intros wss s ws gamertag now data Htype Hrate r s' entry.
    unfold s', r. rewrite on_message_admitted by done.
    rewrite dispatch_ptt_status by done. cbn [fst snd voiceStates
      with_pttStates pttStates].
    rewrite updateActivity_voiceStates, updateActivity_pttStates.
    split; [done|]. split; [apply get_set_eq|]. split; [done|].
    split; [|apply broadcastToAll_spec].
    unfold getParticipants. cbn [clients].
    apply updateActivity_participants.
  - exists (run (start 0)
              [Connection 1;
               Message 1 0
                 (Parsed (ptt_status_msg (VStr "Ghost") (VBool true) (VBool false)));
               Message 1 1
                 (Parsed (voice_detection_msg (VStr "Ghost") (VBool true) (VNum (-20))))]),
      (VStr "Ghost").
    split.
    + apply reachable_run; [apply reachable_start|].
      cbn. repeat split; by eexists.
    + split; [done|]. split; by eexists.
Qed.

(** ** Sockets and traces *)

Lemma closes_sends (l : list conn) (p : payload) :
  closes (map (fun c => Send c p) l) = [].
Proof. by induction l. Qed.

Lemma apply_closes_closes (effs : list effect) :
  forall wss, apply_closes wss effs = fold_left close_socket (closes effs) wss.
Proof.
  unfold apply_closes.
  induction effs as [|e effs IH]; intros wss; [done|].
  destruct e; simpl; by rewrite IH.
Qed.

Lemma close_socket_gamertag (wss : list (conn * Socket.t)) (c ws : conn) :
  option_map Socket.gamertag (JsMap.get (close_socket wss c) ws)
  = option_map Socket.gamertag (JsMap.get wss ws).
Proof.
  unfold close_socket.
  destruct (JsMap.get wss c) as [sk|] eqn:Hc; [|done].
  case_bool_decide; [|done].
  destruct (decide (c = ws)) as [<-|Hne].
  - by rewrite get_set_eq, Hc.
  - by rewrite get_set_ne.
Qed.

Lemma fold_close_gamertag (cs : list conn) (ws : conn) :
  forall wss,
    option_map Socket.gamertag (JsMap.get (fold_left close_socket cs wss) ws)
    = option_map Socket.gamertag (JsMap.get wss ws).
Proof.
  induction cs as [|c cs IH]; intros wss; [done|].
  simpl. rewrite IH. apply close_socket_gamertag.
Qed.

Lemma addClient_inr (s s' : StateManager) (ws : conn) (g : value) (now : Z) :
  addClient s ws g now = inr s' ->
  isGamertagTaken s g = false
  /\ s' = mkState (minecraftData s)
            (JsMap.set (clients s) ws (Client.mk g now now 0))
            (JsMap.set (pttStates s) g (Ptt.mk (VBool true) (VBool false)))
            (JsMap.set (voiceStates s) g (Voice.mk (VBool false) (VNum 0)))
            (rateLimits s) (lastCleanup s).
Proof.
  unfold addClient. case_bool_decide; [done|].
  destruct (isGamertagTaken s g); [done|]. by intros [= <-].
Qed.

Lemma get_delete_None {K V : Type} `{EqDecision K} (m : list (K * V)) (k k' : K) :
  JsMap.get m k' = None -> JsMap.get (JsMap.delete m k) k' = None.
Proof.
  intros Hn. destruct (decide (k = k')) as [->|Hne].
  - apply get_delete_eq.
  - by rewrite get_delete_ne.
Qed.

(** The handler of a socket touches no registry entry but its own. *)
Lemma dispatch_clients_other (p : bool) (wss : list (conn * Socket.t)) (s : StateManager)
    (c ws : conn) (g : value) (now : Z) (data : Msg.t) :
  c <> ws ->
  JsMap.get (clients (fst (fst (dispatch p wss s c g now data)))) ws
  = JsMap.get (clients s) ws.
Proof.
  intros Hne. unfold dispatch.
  repeat case_match; cbn [fst snd clients with_voiceStates with_pttStates];
    try done.
  all: try (match goal with H : addClient _ _ _ _ = inr _ |- _ =>
              apply addClient_inr in H as [_ ->] end;
            cbn [clients]; by apply get_set_ne).
  rewrite removeClient_clients. by apply get_delete_ne.
Qed.

Lemma on_message_clients_other (wss : list (conn * Socket.t)) (s : StateManager)
    (c ws : conn) (g : value) (now : Z) (msg : parsed) :
  c <> ws ->
  JsMap.get (clients (fst (fst (on_message wss s c g now msg)))) ws
  = JsMap.get (clients s) ws.
Proof.
  intros Hne. unfold on_message.
  destruct (fst (checkRateLimit s c now)); cbn [negb]; [|done].
  destruct msg as [| |data|data]; cbn [fst snd].
  - by rewrite updateActivity_other.
  - by rewrite updateActivity_other.
  - rewrite dispatch_clients_other by done. by rewrite updateActivity_other.
  - rewrite dispatch_clients_other by done. by rewrite updateActivity_other.
Qed.

Lemma removeClient_clients_None (s : StateManager) (c ws : conn) :
  JsMap.get (clients s) ws = None ->
  JsMap.get (clients (removeClient s c)) ws = None.
Proof. intros Hn. rewrite removeClient_clients. by apply get_delete_None. Qed.

Lemma cleanup_fold_clients_None (wss : list (conn * Socket.t)) (now : Z)
    (ws : conn) (l : list (conn * Client.t)) :
  forall acc,
    JsMap.get (clients (fst acc)) ws = None ->
    JsMap.get (clients (fst (fold_left (cleanup_entry wss now) l acc))) ws
    = None.
Proof.
  induction l as [|e l IH]; intros acc Hn; [done|].
  simpl. apply IH. unfold cleanup_entry.
  case_bool_decide; [|done]. cbn [fst]. by apply removeClient_clients_None.
Qed.

Lemma post_minecraft_data_clients (wss : list (conn * Socket.t))
    (s : StateManager) (body : Body.t) :
  clients (fst (fst (post_minecraft_data wss s body))) = clients s.
Proof.
  unfold post_minecraft_data. cbn [fst].
  by destruct (ingest_players_lookup (default [] (Body.players body))
                 (with_minecraftData s (Some body)) VNull) as (_ & _ & ->).
Qed.

(** Events of other sockets, snapshots and sweeps neither register a
    deregistered connection nor touch the closure variable of its
    handlers. *)
Lemma handle_other_preserves (w : World) (ev : event) (ws : conn) (g : value) :
  event_socket ev <> Some ws ->
  JsMap.get (clients (stateManager w)) ws = None ->
  option_map Socket.gamertag (JsMap.get (wss_clients w) ws) = Some g ->
  JsMap.get (clients (stateManager (fst (handle w ev)))) ws = None
  /\ option_map Socket.gamertag (JsMap.get (wss_clients (fst (handle w ev))) ws)
     = Some g.
Proof.
  intros Hev Hun Hsk. destruct ev as [c|c now msg|c|c|body|now];
    cbn [handle event_socket] in *.
  - assert (c <> ws) by congruence. cbn [fst stateManager wss_clients].
    split; [done|]. by rewrite get_set_ne.
  - assert (Hne : c <> ws) by congruence.
    destruct (JsMap.get (wss_clients w) c) as [sk|] eqn:Hc; [|done].
    cbn [fst stateManager wss_clients]. split.
    + by rewrite on_message_clients_other.
    + rewrite apply_closes_closes, fold_close_gamertag.
      by rewrite get_set_ne.
  - cbn [fst stateManager wss_clients]. split; [done|].
    by rewrite close_socket_gamertag.
  - assert (Hne : c <> ws) by congruence.
    destruct (JsMap.get (wss_clients w) c) as [sk|] eqn:Hc; [|done].
    cbn [fst stateManager wss_clients]. split.
    + unfold on_close. destruct (truthy (Socket.gamertag sk)); cbn [fst]; [|done].
      by apply removeClient_clients_None.
    + by rewrite get_delete_ne.
  - cbn [fst stateManager wss_clients]. split; [|done].
    by rewrite post_minecraft_data_clients.
  - cbn [fst stateManager wss_clients]. split.
    + unfold cleanup. cbn [fst clients with_lastCleanup].
      by apply cleanup_fold_clients_None.
    + by rewrite apply_closes_closes, fold_close_gamertag.
Qed.

Lemma run_others_preserves (evs : list event) (ws : conn) (g : value) :
  Forall (fun ev => event_socket ev <> Some ws) evs ->
  forall w,
    JsMap.get (clients (stateManager w)) ws = None ->
    option_map Socket.gamertag (JsMap.get (wss_clients w) ws) = Some g ->
    JsMap.get (clients (stateManager (run w evs))) ws = None
    /\ option_map Socket.gamertag (JsMap.get (wss_clients (run w evs)) ws)
       = Some g.
Proof.
  induction 1 as [|ev evs Hev _ IH]; intros w Hun Hsk; [done|].
  destruct (handle_other_preserves w ev ws g Hev Hun Hsk) as [Hun' Hsk'].
  simpl. by apply IH.
Qed.

(** C10, as the code has it.  The [leave] branch leaves the handler's
    recorded identity in place, and events of other sockets, snapshots and
    sweeps do not change it.  When the socket later closes, the close
    handler tests that identity: if it is truthy (a non-empty string, for
    one), the handler sends a second leave event for it to the remaining
    open sockets and then the identity list to all of them; if it is falsy
    (the empty string, for one), the handler does nothing.  In both cases
    the state manager is unchanged by the close, the connection having been
    deregistered by the leave. *)
Theorem close_after_leave (w : World) (ws : conn) (sk : Socket.t)
    (cd : Client.t) (now : Z) (data : Msg.t) (evs : list event) :
  JsMap.get (wss_clients w) ws = Some sk ->
  JsMap.get (clients (stateManager w)) ws = Some cd ->
  Socket.gamertag sk = Client.gamertag cd ->
  Msg.type data = VStr "leave" ->
  fst (checkRateLimit (stateManager w) ws now) = true ->
  Forall (fun ev => event_socket ev <> Some ws) evs ->
  let g := Client.gamertag cd in
  let first := handle w (Message ws now (Parsed data)) in
  let w2 := run (fst first) evs in
  let r := handle w2 (CloseEvent ws) in
  let remaining := JsMap.delete (wss_clients w2) ws in
  JsMap.get (clients (stateManager (fst first))) ws = None
  /\ snd first
     = (Log INFO "left"
        :: map (fun c => Send c (MsgLeave g))
             (other_open_sockets (wss_clients w) ws))
  /\ option_map Socket.gamertag (JsMap.get (wss_clients w2) ws) = Some g
  /\ stateManager (fst r) = stateManager w2
  /\ snd r
     = if truthy g
       then Log INFO "disconnected"
            :: map (fun c => Send c (MsgLeave g))
                 (other_open_sockets remaining ws)
            ++ map (fun c =>
                      Send c (MsgParticipantsList
                                (getParticipants (stateManager w2))))
                 (open_sockets remaining)
       else [].
Proof.
  intros Hsk Hreg Hlink Htype Hrate Hevs g first w2 r remaining.
  set (s := stateManager w) in *. set (wss := wss_clients w) in *.
  set (s2 := updateActivity (snd (checkRateLimit s ws now)) ws now).
  assert (Hmsg : on_message wss s ws (Socket.gamertag sk) now (Parsed data)
                 = (removeClient s2 ws, g,
                    Log INFO "left"
                      :: map (fun c => Send c (MsgLeave g))
                           (other_open_sockets wss ws))).
  { rewrite on_message_admitted by done. fold s2.
    by rewrite dispatch_leave, broadcast_spec, Hlink. }
  assert (Hfirst : first
                   = (mkWorld (removeClient s2 ws)
                        (JsMap.set wss ws (Socket.mk (Socket.readyState sk) g)),
                      Log INFO "left"
                        :: map (fun c => Send c (MsgLeave g))
                             (other_open_sockets wss ws))).
  { unfold first, handle. fold s wss. rewrite Hsk, Hmsg. cbn [fst snd].
    rewrite apply_closes_closes.
    change (closes (Log INFO "left" :: ?l)) with (closes l).
    by rewrite closes_sends. }
  assert (Hun1 : JsMap.get (clients (stateManager (fst first))) ws = None).
  { rewrite Hfirst. cbn [fst stateManager].
    rewrite removeClient_clients. apply get_delete_eq. }
  assert (Hvar1 : option_map Socket.gamertag
                    (JsMap.get (wss_clients (fst first)) ws) = Some g).
  { rewrite Hfirst. cbn [fst wss_clients]. by rewrite get_set_eq. }
  destruct (run_others_preserves evs ws g Hevs (fst first) Hun1 Hvar1)
    as [Hun2 Hvar2].
  fold w2 in Hun2, Hvar2.
  split; [done|]. split; [by rewrite Hfirst|]. split; [done|].
  destruct (JsMap.get (wss_clients w2) ws) as [sk2|] eqn:Hsk2; [|done].
  injection Hvar2 as Hvar2.
  unfold r, handle. rewrite Hsk2, Hvar2. fold remaining.
  unfold on_close. destruct (truthy g); cbn [fst snd stateManager]; [|done].
  rewrite removeClient_unregistered by done.
  by rewrite broadcast_spec, broadcastToAll_spec.
Qed.

(** ** Invariants of the reachable states *)

Lemma elem_map_set {K V B : Type} `{EqDecision K} (f : K * V -> B)
    (m : list (K * V)) (k : K) (v : V) (x : B) :
  x ∈ map f (JsMap.set m k v) -> x ∈ map f m \/ x = f (k, v).
Proof.
  induction m as [|[k0 v0] m IH]; simpl.
  - intros ->%list_elem_of_singleton. by right.
  - destruct (decide (k0 = k)) as [->|Hne]; simpl; rewrite !elem_of_cons.
    + intros [->|Hx]; [by right | left; by right].
    + intros [->|Hx]; [left; by left|].
      destruct (IH Hx) as [?|?]; [left; by right | by right].
Qed.

Lemma NoDup_map_set {K V B : Type} `{EqDecision K} (f : K * V -> B)
    (m : list (K * V)) (k : K) (v : V) :
  NoDup (map f m) -> f (k, v) ∉ map f m -> NoDup (map f (JsMap.set m k v)).
Proof.
  induction m as [|[k0 v0] m IH]; simpl.
  - intros _ _. apply NoDup_singleton.
  - rewrite NoDup_cons, not_elem_of_cons. intros [Hnin Hnd] [Hne Hfresh].
    destruct (decide (k0 = k)) as [->|Hk]; simpl; apply NoDup_cons.
    + done.
    + split; [|by apply IH].
      intros [Hx|Hx]%elem_map_set; [done | congruence].
Qed.

Lemma state_ok_removeClient (s : StateManager) (ws : conn) :
  state_ok s -> state_ok (removeClient s ws).
Proof.
  intros (Hu & Hc & Hp & Hv). unfold state_ok, unique_identities, getParticipants.
  rewrite removeClient_clients.
  split; [|split; [by apply wf_delete|]].
  - unfold JsMap.values. rewrite map_map.
    eapply sublist_NoDup; [|apply map_delete_sublist].
    unfold unique_identities, getParticipants, JsMap.values in Hu.
    by rewrite map_map in Hu.
  - unfold removeClient. destruct (JsMap.get (clients s) ws); [|done].
    simpl. split; by apply wf_delete.
Qed.

Lemma state_ok_updateActivity (s : StateManager) (ws : conn) (now : Z) :
  state_ok s -> state_ok (updateActivity s ws now).
Proof.
  intros (Hu & Hc & Hp & Hv).
  split; [by apply updateActivity_unique|].
  rewrite updateActivity_pttStates, updateActivity_voiceStates.
  split; [|done]. unfold updateActivity.
  destruct (JsMap.get (clients s) ws); [|done]. by apply wf_set.
Qed.

Lemma state_ok_addClient (s s' : StateManager) (ws : conn) (g : value) (now : Z) :
  addClient s ws g now = inr s' -> state_ok s -> state_ok s'.
Proof.
  intros [Hfree ->]%addClient_inr (Hu & Hc & Hp & Hv).
  unfold state_ok, unique_identities, getParticipants. cbn [clients pttStates voiceStates].
  split; [|split; [|split]]; try by apply wf_set.
  unfold JsMap.values. rewrite map_map.
  apply (NoDup_map_set (fun e => Client.gamertag (snd e))).
  - unfold unique_identities, getParticipants, JsMap.values in Hu.
    by rewrite map_map in Hu.
  - apply isGamertagTaken_false in Hfree.
    unfold getParticipants, JsMap.values in Hfree. by rewrite map_map in Hfree.
Qed.

Lemma state_ok_dispatch (p : bool) (wss : list (conn * Socket.t)) (s : StateManager)
    (c : conn) (g : value) (now : Z) (data : Msg.t) :
  state_ok s -> state_ok (fst (fst (dispatch p wss s c g now data))).
Proof.
  intros Hok. unfold dispatch.
  repeat case_match; cbn [fst snd]; try done.
  all: try by eapply state_ok_addClient.
  - by apply state_ok_removeClient.
  - destruct Hok as (Hu & Hc & Hp & Hv).
    split; [done|]. split; [done|]. split; [done|]. by apply wf_set.
  - destruct Hok as (Hu & Hc & Hp & Hv).
    split; [done|]. split; [done|]. split; [by apply wf_set | done].
Qed.

Lemma state_ok_on_message (wss : list (conn * Socket.t)) (s : StateManager)
    (c : conn) (g : value) (now : Z) (msg : parsed) :
  state_ok s -> state_ok (fst (fst (on_message wss s c g now msg))).
Proof.
  intros Hok. unfold on_message.
  destruct (fst (checkRateLimit s c now)); cbn [negb fst snd]; [|done].
  destruct msg as [| |data|data]; cbn [fst snd];
    [by apply state_ok_updateActivity..| |];
    by apply state_ok_dispatch, state_ok_updateActivity.
Qed.

Lemma state_ok_on_close (wss : list (conn * Socket.t)) (s : StateManager)
    (c : conn) (g : value) :
  state_ok s -> state_ok (fst (on_close wss s c g)).
Proof.
  intros Hok. unfold on_close. destruct (truthy g); cbn [fst]; [|done].
  by apply state_ok_removeClient.
Qed.

Lemma state_ok_ingest_player (s : StateManager) (p : Player.t) :
  state_ok s -> state_ok (ingest_player s p).
Proof.
  intros (Hu & Hc & Hp & Hv). unfold ingest_player.
  destruct (truthy (Player.name p)); cbn [negb]; [|done].
  split; [done|]. split; [done|]. split; by apply wf_set.
Qed.

Lemma state_ok_post (wss : list (conn * Socket.t)) (s : StateManager)
    (body : Body.t) :
  state_ok s -> state_ok (fst (fst (post_minecraft_data wss s body))).
Proof.
  intros Hok. unfold post_minecraft_data. cbn [fst].
  assert (Hok0 : state_ok (with_minecraftData s (Some body))) by done.
  revert Hok0. generalize (with_minecraftData s (Some body)).
  induction (default [] (Body.players body)) as [|p ps IH]; intros s0 Hok0;
    [done|].
  simpl. by apply IH, state_ok_ingest_player.
Qed.

Lemma state_ok_cleanup (wss : list (conn * Socket.t)) (s : StateManager)
    (now : Z) :
  state_ok s -> state_ok (fst (cleanup wss s now)).
Proof.
  intros Hok. unfold cleanup. cbn [fst].
  assert (Hfold : forall l acc, state_ok (fst acc) ->
            state_ok (fst (fold_left (cleanup_entry wss now) l acc))).
  { induction l as [|e l IH]; intros acc Hacc; [done|].
    simpl. apply IH. unfold cleanup_entry. case_bool_decide; [|done].
    cbn [fst]. by apply state_ok_removeClient. }
  by apply (Hfold _ (s, [])).
Qed.

Lemma dispatch_closure (p : bool) (wss : list (conn * Socket.t)) (s : StateManager)
    (c : conn) (g : value) (now : Z) (data : Msg.t) :
  (forall cd0, JsMap.get (clients s) c = Some cd0 -> g = Client.gamertag cd0) ->
  forall cd,
    JsMap.get (clients (fst (fst (dispatch p wss s c g now data)))) c = Some cd ->
    snd (fst (dispatch p wss s c g now data)) = Client.gamertag cd.
Proof.
  intros Hold cd. unfold dispatch.
  repeat case_match; cbn [fst snd clients with_voiceStates with_pttStates];
    try (by apply Hold).
  all: try (match goal with H : addClient _ _ _ _ = inr _ |- _ =>
              apply addClient_inr in H as [_ ->] end;
            cbn [clients]; rewrite get_set_eq; by intros [= <-]).
  rewrite removeClient_clients, get_delete_eq. done.
Qed.

Lemma on_message_closure (wss : list (conn * Socket.t)) (s : StateManager)
    (c : conn) (g : value) (now : Z) (msg : parsed) :
  (forall cd0, JsMap.get (clients s) c = Some cd0 -> g = Client.gamertag cd0) ->
  forall cd,
    JsMap.get (clients (fst (fst (on_message wss s c g now msg)))) c = Some cd ->
    snd (fst (on_message wss s c g now msg)) = Client.gamertag cd.
Proof.
  intros Hold cd. unfold on_message.
  assert (Hold2 : forall cd0,
            JsMap.get (clients (updateActivity (snd (checkRateLimit s c now)) c now)) c
            = Some cd0 -> g = Client.gamertag cd0).
  { intros cd0 Hcd0.
    pose proof (updateActivity_identity (snd (checkRateLimit s c now)) c c now) as Hid.
    rewrite Hcd0 in Hid. cbn [clients checkRateLimit snd with_rateLimits] in Hid.
    destruct (JsMap.get (clients s) c) as [cd1|] eqn:Hc1; [|done].
    injection Hid as Hid. rewrite Hid. by apply Hold. }
  destruct (fst (checkRateLimit s c now)); cbn [negb fst snd];
    [|by apply Hold].
  destruct msg as [| |data|data]; cbn [fst snd]; [by apply Hold2..| |];
    by apply dispatch_closure.
Qed.

Lemma removeClient_get_Some (s : StateManager) (c ws : conn) (cd : Client.t) :
  JsMap.get (clients (removeClient s c)) ws = Some cd ->
  JsMap.get (clients s) ws = Some cd.
Proof.
  rewrite removeClient_clients. destruct (decide (c = ws)) as [->|Hne].
  - by rewrite get_delete_eq.
  - by rewrite get_delete_ne.
Qed.

Lemma cleanup_fold_get_Some (wss : list (conn * Socket.t)) (now : Z)
    (ws : conn) (cd : Client.t) (l : list (conn * Client.t)) :
  forall acc,
    JsMap.get (clients (fst (fold_left (cleanup_entry wss now) l acc))) ws
    = Some cd ->
    JsMap.get (clients (fst acc)) ws = Some cd.
Proof.
  induction l as [|e l IH]; intros acc Hg; [done|].
  simpl in Hg. apply IH in Hg. unfold cleanup_entry in Hg.
  case_bool_decide; [|done]. cbn [fst] in Hg. by eapply removeClient_get_Some.
Qed.

Lemma world_ok_handle (w : World) (ev : event) :
  world_ok w -> enabled w ev -> world_ok (fst (handle w ev)).
Proof.
  intros [Hok Hcl] Hen. destruct ev as [c|c now msg|c|c|body|now];
    cbn [handle enabled] in *.
  - destruct Hen as (Hfresh & Hunreg & _). split; [done|].
    intros ws cd sk. cbn [fst stateManager wss_clients].
    destruct (decide (c = ws)) as [<-|Hne]; [by rewrite Hunreg|].
    rewrite get_set_ne by done. apply Hcl.
  - destruct (JsMap.get (wss_clients w) c) as [skc|] eqn:Hc; [|done].
    cbn [fst stateManager wss_clients]. split; [by apply state_ok_on_message|].
    intros ws cd sk Hcd Hsk.
    pose proof (fold_close_gamertag
                  (closes (snd (on_message (wss_clients w) (stateManager w) c
                                  (Socket.gamertag skc) now msg)))
                  ws
                  (JsMap.set (wss_clients w) c
                     (Socket.mk (Socket.readyState skc)
                        (snd (fst (on_message (wss_clients w) (stateManager w) c
                                     (Socket.gamertag skc) now msg))))))
      as Hvar.
    cbn [fst stateManager wss_clients] in Hcd, Hsk.
    rewrite <- apply_closes_closes, Hsk in Hvar. cbn [option_map] in Hvar.
    destruct (decide (c = ws)) as [<-|Hne].
    + rewrite get_set_eq in Hvar. injection Hvar as ->. cbn [Socket.gamertag].
      eapply on_message_closure; [|exact Hcd].
      intros cd0 Hcd0. by eapply Hcl.
    + rewrite get_set_ne in Hvar by done.
      rewrite on_message_clients_other in Hcd by done.
      destruct (JsMap.get (wss_clients w) ws) as [sk0|] eqn:Hsk0; [|done].
      injection Hvar as ->. by eapply Hcl.
  - cbn [fst stateManager wss_clients]. split; [done|].
    intros ws cd sk Hcd Hsk. cbn [fst stateManager wss_clients] in Hcd, Hsk.
    pose proof (close_socket_gamertag (wss_clients w) c ws) as Hvar.
    rewrite Hsk in Hvar. cbn [option_map] in Hvar.
    destruct (JsMap.get (wss_clients w) ws) as [sk0|] eqn:Hsk0; [|done].
    injection Hvar as ->. by eapply Hcl.
  - destruct (JsMap.get (wss_clients w) c) as [skc|] eqn:Hc; [|done].
    cbn [fst stateManager wss_clients]. split; [by apply state_ok_on_close|].
    intros ws cd sk Hcd Hsk. cbn [fst stateManager wss_clients] in Hcd, Hsk.
    destruct (decide (c = ws)) as [<-|Hne]; [by rewrite get_delete_eq in Hsk|].
    rewrite get_delete_ne in Hsk by done.
    eapply Hcl; [|exact Hsk].
    unfold on_close in Hcd. destruct (truthy (Socket.gamertag skc));
      cbn [fst] in Hcd; [|done].
    by eapply removeClient_get_Some.
  - cbn [fst stateManager wss_clients]. split; [by apply state_ok_post|].
    intros ws cd sk Hcd Hsk. cbn [fst stateManager wss_clients] in Hcd, Hsk.
    rewrite post_minecraft_data_clients in Hcd. by eapply Hcl.
  - cbn [fst stateManager wss_clients]. split; [by apply state_ok_cleanup|].
    intros ws cd sk Hcd Hsk. cbn [fst stateManager wss_clients] in Hcd, Hsk.
    unfold cleanup in Hcd. cbn [fst clients with_lastCleanup] in Hcd.
    apply cleanup_fold_get_Some in Hcd. cbn [fst] in Hcd.
    pose proof (fold_close_gamertag
                  (closes (snd (cleanup (wss_clients w) (stateManager w) now)))
                  ws (wss_clients w)) as Hvar.
    rewrite <- apply_closes_closes, Hsk in Hvar. cbn [option_map] in Hvar.
    destruct (JsMap.get (wss_clients w) ws) as [sk0|] eqn:Hsk0; [|done].
    injection Hvar as ->. by eapply Hcl.
Qed.

Lemma world_ok_start (now : Z) : world_ok (start now).
Proof.
  split; [|by intros ws cd sk].
  unfold state_ok, unique_identities, JsMap.wf. cbn. repeat split; apply NoDup_nil_2.
Qed.

(** Every reachable state has unique identities, tables with distinct
    keys, and closure variables that agree with the registry. *)
Lemma reachable_world_ok (w : World) : reachable w -> world_ok w.
Proof.
  induction 1 as [now|w ev _ IH Hen].
  - apply world_ok_start.
  - by apply world_ok_handle.
Qed.


Lemma reachable_unique_identities (w : World) :
  reachable w -> unique_identities (stateManager w).
Proof. by intros [(Hu & _) _]%reachable_world_ok. Qed.

Lemma reachable_closure_agrees (w : World) : reachable w -> closure_agrees w.
Proof. by intros [_ Hc]%reachable_world_ok. Qed.

Lemma reachable_tables_wf (w : World) :
  reachable w ->
  JsMap.wf (clients (stateManager w))
  /\ JsMap.wf (pttStates (stateManager w))
  /\ JsMap.wf (voiceStates (stateManager w)).
Proof. by intros [(_ & Hc & Hp & Hv) _]%reachable_world_ok. Qed.


(** ** Further properties of the code *)

Lemma updateActivity_absent (s : StateManager) (ws : conn) (now : Z) :
  JsMap.get (clients s) ws = None -> updateActivity s ws now = s.
Proof. unfold updateActivity. by intros ->. Qed.

Lemma length_set_le {K V : Type} `{EqDecision K} (m : list (K * V)) (k : K)
    (v : V) :
  length (JsMap.set m k v) <= S (length m).
Proof.
  induction m as [|[k0 v0] m IH]; simpl; [lia|].
  destruct (decide (k0 = k)); simpl; lia.
Qed.

Lemma length_delete_le {K V : Type} `{EqDecision K} (m : list (K * V)) (k : K) :
  length (JsMap.delete m k) <= length m.
Proof.
  induction m as [|[k0 v0] m IH]; simpl; [lia|].
  destruct (decide (k0 = k)); simpl; lia.
Qed.

Lemma is_Some_get_set {K V : Type} `{EqDecision K} (m : list (K * V))
    (k k' : K) (v : V) :
  is_Some (JsMap.get m k') -> is_Some (JsMap.get (JsMap.set m k v) k').
Proof.
  intros Hs. destruct (decide (k = k')) as [->|Hne].
  - rewrite get_set_eq. by eexists.
  - by rewrite get_set_ne.
Qed.

Lemma unique_get (m : list (conn * Client.t)) (a b : conn) (x y : Client.t) :
  NoDup (map Client.gamertag (JsMap.values m)) ->
  JsMap.get m a = Some x -> JsMap.get m b = Some y ->
  Client.gamertag x = Client.gamertag y -> a = b.
Proof.
  intros Hnd Ha Hb Hxy. destruct (decide (a = b)) as [|Hne]; [done|].
  exfalso.
  pose proof (findTarget_delete m a x Hnd Ha) as Hf.
  apply findTarget_None in Hf. apply Hf. rewrite Hxy.
  assert (Hb' : JsMap.get (JsMap.delete m a) b = Some y)
    by (by rewrite get_delete_ne).
  clear -Hb'. unfold JsMap.values.
  induction (JsMap.delete m a) as [|[c cd] l IH]; simpl in *; [done|].
  destruct (decide (c = b)).
  - injection Hb' as ->. apply elem_of_cons; by left.
  - apply elem_of_cons; right; by apply IH.
Qed.

Lemma addClient_inr_capacity (s s' : StateManager) (ws : conn) (g : value)
    (now : Z) :
  addClient s ws g now = inr s' ->
  (Z.of_nat (JsMap.size (clients s)) < MAX_CONNECTIONS)%Z.
Proof. unfold addClient. case_bool_decide; [done|]. intros _. lia. Qed.

(** A property of the state manager that every handler keeps holds in
    every reachable state. *)
Lemma reachable_state_invariant (P : StateManager -> Prop) :
  (forall now, P (constructor now)) ->
  (forall wss s c g now msg,
     state_ok s -> P s -> P (fst (fst (on_message wss s c g now msg)))) ->
  (forall wss s c g, state_ok s -> P s -> P (fst (on_close wss s c g))) ->
  (forall wss s body,
     state_ok s -> P s -> P (fst (fst (post_minecraft_data wss s body)))) ->
  (forall wss s now, state_ok s -> P s -> P (fst (cleanup wss s now))) ->
  forall w, reachable w -> P (stateManager w).
Proof.
  intros Hstart Hmsg Hclose Hpost Hsweep w Hw.
  induction Hw as [now|w ev Hw IH Hen]; [apply Hstart|].
  destruct (reachable_world_ok w Hw) as [Hok _].
  destruct ev as [c|c now msg|c|c|body|now]; cbn [handle]; try done.
  - destruct (JsMap.get (wss_clients w) c); [|done]. by apply Hmsg.
  - destruct (JsMap.get (wss_clients w) c); [|done]. by apply Hclose.
  - by apply Hpost.
  - by apply Hsweep.
Qed.

(** X1.  A [join] that the rate limiter admits, from a connection that
    is not registered, for a free identity while the registry is below
    capacity: the connection is registered at the end of the identity list
    with both activity stamps [now] and a message count of 0, the state
    entries of the identity are set to their defaults, and the handler
    records the identity.  When the identity converts to a string
    ([Parsed]), the trace is: the identity list to the joiner, the join
    event to the other open sockets, the identity list to all open sockets
    (the joiner, when open, receives the list twice).  When it does not
    ([ParsedUnprintable], the identity being an object), the registration
    has happened all the same, but
    nothing is sent to anybody: the log call throws, both [catch] blocks
    throw in turn, and the process exits. *)
Theorem join_registers_and_announces (wss : list (conn * Socket.t))
    (s : StateManager) (ws : conn) (gamertag : value) (now : Z)
    (data : Msg.t) :
  JsMap.get (clients s) ws = None ->
  Msg.type data = VStr "join" ->
  isGamertagTaken s (Msg.gamertag data) = false ->
  (Z.of_nat (JsMap.size (clients s)) < MAX_CONNECTIONS)%Z ->
  fst (checkRateLimit s ws now) = true ->
  let r := on_message wss s ws gamertag now (Parsed data) in
  let s' := fst (fst r) in
  let g := Msg.gamertag data in
  JsMap.get (clients s') ws = Some (Client.mk g now now 0)
  /\ getParticipants s' = getParticipants s ++ [g]
  /\ JsMap.get (pttStates s') g = Some (Ptt.mk (VBool true) (VBool false))
  /\ JsMap.get (voiceStates s') g = Some (Voice.mk (VBool false) (VNum 0))
  /\ snd (fst r) = g
  /\ snd r
     = [Log SUCCESS "joined"; Send ws (MsgParticipantsList (getParticipants s'))]
       ++ map (fun c => Send c (MsgJoin g)) (other_open_sockets wss ws)
       ++ map (fun c => Send c (MsgParticipantsList (getParticipants s')))
            (open_sockets wss)
  /\ (is_object g = true ->
      on_message wss s ws gamertag now (ParsedUnprintable data)
      = (s', g, [Log ERROR "Uncaught Exception"; Exit 1])).
Proof.
  intros Hun Htype Hfree Hcap Hrate r s' g.
  set (s1 := snd (checkRateLimit s ws now)).
  assert (Hs2 : updateActivity s1 ws now = s1)
    by (by apply updateActivity_absent).
  assert (Hadd : addClient s1 ws g now
                 = inr (mkState (minecraftData s1)
                          (JsMap.set (clients s1) ws (Client.mk g now now 0))
                          (JsMap.set (pttStates s1) g
                             (Ptt.mk (VBool true) (VBool false)))
                          (JsMap.set (voiceStates s1) g
                             (Voice.mk (VBool false) (VNum 0)))
                          (rateLimits s1) (lastCleanup s1)))
    by (by apply addClient_success).
  set (S := mkState (minecraftData s1)
              (JsMap.set (clients s1) ws (Client.mk g now now 0))
              (JsMap.set (pttStates s1) g (Ptt.mk (VBool true) (VBool false)))
              (JsMap.set (voiceStates s1) g (Voice.mk (VBool false) (VNum 0)))
              (rateLimits s1) (lastCleanup s1)) in *.
  assert (Hr : r = (S, g,
                    [Log SUCCESS "joined";
                     Send ws (MsgParticipantsList (getParticipants S))]
                    ++ map (fun c => Send c (MsgJoin g))
                         (other_open_sockets wss ws)
                    ++ map (fun c =>
                              Send c (MsgParticipantsList (getParticipants S)))
                         (open_sockets wss))).
  { unfold r. rewrite on_message_admitted by done. fold s1.
    rewrite Hs2, dispatch_join by done. fold g. rewrite Hadd.
    by rewrite broadcast_spec, broadcastToAll_spec. }
  assert (Hu : on_message wss s ws gamertag now (ParsedUnprintable data)
               = (S, g, [Log ERROR "Uncaught Exception"; Exit 1])).
  { rewrite on_message_admitted_unprintable by done. fold s1.
    rewrite Hs2, dispatch_join_unprintable by done. fold g. by rewrite Hadd. }
  unfold s'. rewrite Hr, Hu. cbn [fst snd].
  split; [unfold S; cbn [clients]; apply get_set_eq|].
  split.
  { unfold getParticipants, JsMap.values, S. cbn [clients].
    change (clients s1) with (clients s).
    rewrite (set_absent _ _ _ Hun), !map_app. done. }
  split; [unfold S; cbn [pttStates]; apply get_set_eq|].
  split; [unfold S; cbn [voiceStates]; apply get_set_eq|].
  done.
Qed.

(** X2.  At capacity ([clients.size >= MAX_CONNECTIONS]) every admitted
    [join] fails with "Server at capacity", whatever the identity: the
    capacity test comes before the duplicate test, and it also rejects the
    re-join of a connection that is registered already.  The registry keeps
    every identity.  When the identity of the message converts to a string
    ([Parsed]), the sender gets the error and [close(1008)].  When it does
    not ([ParsedUnprintable], the identity being an object), the inner
    [catch] throws before it sends or
    closes, and the outer one logs: the sender gets no reply and stays
    connected. *)
Theorem join_at_capacity_rejected (wss : list (conn * Socket.t))
    (s : StateManager) (ws : conn) (gamertag : value) (now : Z)
    (data : Msg.t) :
  (Z.of_nat (JsMap.size (clients s)) >= MAX_CONNECTIONS)%Z ->
  Msg.type data = VStr "join" ->
  fst (checkRateLimit s ws now) = true ->
  let r := on_message wss s ws gamertag now (Parsed data) in
  snd r = [Log ERROR "Join failed"; Send ws (MsgError "Server at capacity");
           Close ws 1008 "Server at capacity"]
  /\ snd (fst r) = gamertag
  /\ getParticipants (fst (fst r)) = getParticipants s
  /\ pttStates (fst (fst r)) = pttStates s
  /\ voiceStates (fst (fst r)) = voiceStates s
  /\ (is_object (Msg.gamertag data) = true ->
      on_message wss s ws gamertag now (ParsedUnprintable data)
      = (fst (fst r), gamertag, [Log ERROR "Message processing error"])).
Proof.
  intros Hcap Htype Hrate r.
  set (s2 := updateActivity (snd (checkRateLimit s ws now)) ws now).
  assert (Hadd : addClient s2 ws (Msg.gamertag data) now
                 = inl "Server at capacity").
  { unfold addClient. rewrite bool_decide_true; [done|].
    unfold s2. rewrite updateActivity_size. cbn [clients checkRateLimit snd
      with_rateLimits]. lia. }
  assert (Hr : r = (s2, gamertag,
                    [Log ERROR "Join failed";
                     Send ws (MsgError "Server at capacity");
                     Close ws 1008 "Server at capacity"])).
  { unfold r. rewrite on_message_admitted by done. fold s2.
    rewrite dispatch_join by done. by rewrite Hadd. }
  assert (Hu : on_message wss s ws gamertag now (ParsedUnprintable data)
               = (s2, gamertag, [Log ERROR "Message processing error"])).
  { rewrite on_message_admitted_unprintable by done. fold s2.
    rewrite dispatch_join_unprintable by done. by rewrite Hadd. }
  rewrite Hr, Hu. cbn [fst snd]. unfold s2.
  rewrite updateActivity_participants, updateActivity_pttStates,
    updateActivity_voiceStates. done.
Qed.


Lemma within_capacity_removeClient (s : StateManager) (ws : conn) :
  within_capacity s -> within_capacity (removeClient s ws).
Proof.
  unfold within_capacity, JsMap.size. rewrite removeClient_clients.
  pose proof (length_delete_le (clients s) ws). lia.
Qed.

Lemma within_capacity_dispatch (p : bool) (wss : list (conn * Socket.t)) (s : StateManager)
    (c : conn) (g : value) (now : Z) (data : Msg.t) :
  within_capacity s -> within_capacity (fst (fst (dispatch p wss s c g now data))).
Proof.
  intros Hcap. unfold dispatch.
  repeat case_match; cbn [fst snd]; try done.
  all: try (match goal with H : addClient _ _ _ _ = inr _ |- _ =>
              pose proof (addClient_inr_capacity _ _ _ _ _ H) as Hlt;
              apply addClient_inr in H as [_ ->] end;
            unfold within_capacity, JsMap.size in *; cbn [clients];
            pose proof (length_set_le (clients s) c
                          (Client.mk (Msg.gamertag data) now now 0));
            lia).
  by apply within_capacity_removeClient.
Qed.

Lemma within_capacity_on_message (wss : list (conn * Socket.t))
    (s : StateManager) (c : conn) (g : value) (now : Z) (msg : parsed) :
  within_capacity s ->
  within_capacity (fst (fst (on_message wss s c g now msg))).
Proof.
  intros Hcap.
  assert (Hcap2 : within_capacity
                    (updateActivity (snd (checkRateLimit s c now)) c now)).
  { unfold within_capacity. by rewrite updateActivity_size. }
  unfold on_message.
  destruct (fst (checkRateLimit s c now)); cbn [negb fst snd]; [|done].
  destruct msg as [| |data|data]; cbn [fst snd]; [done..| |];
    by apply within_capacity_dispatch.
Qed.

Lemma within_capacity_cleanup (wss : list (conn * Socket.t)) (s : StateManager)
    (now : Z) :
  within_capacity s -> within_capacity (fst (cleanup wss s now)).
Proof.
  intros Hcap. unfold cleanup. cbn [fst].
  assert (Hfold : forall l acc, within_capacity (fst acc) ->
            within_capacity (fst (fold_left (cleanup_entry wss now) l acc))).
  { induction l as [|e l IH]; intros acc Hacc; [done|].
    simpl. apply IH. unfold cleanup_entry. case_bool_decide; [|done].
    cbn [fst]. by apply within_capacity_removeClient. }
  by apply (Hfold _ (s, [])).
Qed.

(** X3.  In every reachable state the registry holds at most
    [MAX_CONNECTIONS] participants (none when the limit is not positive),
    however many sockets are connected. *)
Theorem registry_within_capacity (w : World) :
  reachable w ->
  (Z.of_nat (JsMap.size (clients (stateManager w))) <= Z.max 0 MAX_CONNECTIONS)%Z.
Proof.
  apply (reachable_state_invariant within_capacity).
  - intros now. unfold within_capacity. cbn. lia.
  - intros wss s c g now msg _. apply within_capacity_on_message.
  - intros wss s c g _ Hcap. unfold on_close.
    destruct (truthy g); cbn [fst]; [|done].
    by apply within_capacity_removeClient.
  - intros wss s body _ Hcap. unfold within_capacity.
    by rewrite post_minecraft_data_clients.
  - intros wss s now _. apply within_capacity_cleanup.
Qed.

(** X4.  In every reachable state no two connections are registered
    under the same identity. *)
Theorem registered_identities_unique (w : World) (a b : conn)
    (cda cdb : Client.t) :
  reachable w ->
  JsMap.get (clients (stateManager w)) a = Some cda ->
  JsMap.get (clients (stateManager w)) b = Some cdb ->
  Client.gamertag cda = Client.gamertag cdb ->
  a = b.
Proof.
  intros [(Hu & _) _]%reachable_world_ok Ha Hb Hg.
  by eapply unique_get.
Qed.

Lemma phs_removeClient (s : StateManager) (ws : conn) :
  state_ok s -> participants_have_states s ->
  participants_have_states (removeClient s ws).
Proof.
  intros (Hu & _) Hphs c cd Hc.
  pose proof (removeClient_get_Some s ws c cd Hc) as Hc0.
  destruct (Hphs c cd Hc0) as [Hp Hv].
  unfold removeClient in *.
  destruct (JsMap.get (clients s) ws) as [cdw|] eqn:Hw; [|done].
  cbn [clients pttStates voiceStates with_clients with_rateLimits
         with_voiceStates with_pttStates] in *.
  assert (Hne : Client.gamertag cdw <> Client.gamertag cd).
  { intros Heq. assert (ws = c) as -> by (by eapply unique_get).
    by rewrite get_delete_eq in Hc. }
  by rewrite !get_delete_ne.
Qed.

Lemma phs_dispatch (p : bool) (wss : list (conn * Socket.t)) (s : StateManager)
    (c : conn) (g : value) (now : Z) (data : Msg.t) :
  state_ok s -> participants_have_states s ->
  participants_have_states (fst (fst (dispatch p wss s c g now data))).
Proof.
  intros Hok Hphs. unfold dispatch.
  repeat case_match; cbn [fst snd]; try done.
  all: try (match goal with H : addClient _ _ _ _ = inr _ |- _ =>
              apply addClient_inr in H as [_ ->] end;
            intros ws cd; cbn [clients pttStates voiceStates];
            destruct (decide (c = ws)) as [<-|Hne];
            [ rewrite get_set_eq; intros [= <-]; cbn [Client.gamertag];
              rewrite !get_set_eq; split; by eexists
            | rewrite get_set_ne by done; intros Hcd;
              destruct (Hphs ws cd Hcd); split; by apply is_Some_get_set ]).
  - by apply phs_removeClient.
  - intros ws cd Hcd. cbn [clients pttStates voiceStates with_voiceStates] in *.
    destruct (Hphs ws cd Hcd). split; [done | by apply is_Some_get_set].
  - intros ws cd Hcd. cbn [clients pttStates voiceStates with_pttStates] in *.
    destruct (Hphs ws cd Hcd). split; [by apply is_Some_get_set | done].
Qed.

Lemma phs_updateActivity (s : StateManager) (ws : conn) (now : Z) :
  participants_have_states s ->
  participants_have_states (updateActivity s ws now).
Proof.
  intros Hphs c cd Hc.
  rewrite updateActivity_pttStates, updateActivity_voiceStates.
  pose proof (updateActivity_identity s ws c now) as Hid.
  rewrite Hc in Hid. cbn [option_map] in Hid.
  destruct (JsMap.get (clients s) c) as [cd0|] eqn:Hc0; [|done].
  injection Hid as ->. by eapply Hphs.
Qed.

Lemma phs_ingest_player (s : StateManager) (p : Player.t) :
  participants_have_states s -> participants_have_states (ingest_player s p).
Proof.
  intros Hphs ws cd. unfold ingest_player.
  destruct (truthy (Player.name p)); cbn [negb]; [|by apply Hphs].
  cbn [clients pttStates voiceStates with_voiceStates with_pttStates].
  intros Hcd. destruct (Hphs ws cd Hcd). split; by apply is_Some_get_set.
Qed.

Lemma reachable_participants_have_states (w : World) :
  reachable w -> participants_have_states (stateManager w).
Proof.
  apply (reachable_state_invariant participants_have_states).
  - by intros now ws cd.
  - intros wss s c g now msg Hok Hphs. unfold on_message.
    destruct (fst (checkRateLimit s c now)); cbn [negb fst snd]; [|done].
    assert (Hphs2 : participants_have_states
                      (updateActivity (snd (checkRateLimit s c now)) c now))
      by (by apply phs_updateActivity).
    destruct msg as [| |data|data]; cbn [fst snd]; [done..| |];
      (apply phs_dispatch; [|done]); by apply state_ok_updateActivity.
  - intros wss s c g Hok Hphs. unfold on_close.
    destruct (truthy g); cbn [fst]; [|done]. by apply phs_removeClient.
  - intros wss s body _ Hphs. unfold post_minecraft_data. cbn [fst].
    assert (H0 : participants_have_states (with_minecraftData s (Some body)))
      by done.
    revert H0. generalize (with_minecraftData s (Some body)).
    induction (default [] (Body.players body)) as [|p ps IH]; intros s0 H0;
      [done|].
    simpl. by apply IH, phs_ingest_player.
  - intros wss s now Hok Hphs. unfold cleanup. cbn [fst].
    assert (Hfold : forall l acc,
              state_ok (fst acc) -> participants_have_states (fst acc) ->
              participants_have_states
                (fst (fold_left (cleanup_entry wss now) l acc))).
    { induction l as [|e l IH]; intros acc Hacc Hp; [done|].
      simpl. apply IH; unfold cleanup_entry; case_bool_decide; cbn [fst];
        [by apply state_ok_removeClient | done
        | by apply phs_removeClient | done]. }
    by apply (Hfold _ (s, [])).
Qed.

Lemma get_Some_keys {K V : Type} `{EqDecision K} (m : list (K * V)) (k : K) :
  is_Some (JsMap.get m k) -> k ∈ JsMap.keys m.
Proof.
  intros Hs. destruct (decide (k ∈ JsMap.keys m)) as [|Hn]; [done|].
  apply get_None_keys in Hn. rewrite Hn in Hs. by destruct Hs.
Qed.

Lemma elem_get_wf {K V : Type} `{EqDecision K} (m : list (K * V)) (k : K)
    (v : V) :
  JsMap.wf m -> (k, v) ∈ m -> JsMap.get m k = Some v.
Proof.
  unfold JsMap.wf, JsMap.keys.
  induction m as [|[k0 v0] m IH]; simpl; [by intros _ ?%elem_of_nil|].
  rewrite NoDup_cons. intros [Hnin Hnd] [[= -> ->]|Hin]%elem_of_cons.
  - by rewrite decide_True.
  - rewrite decide_False; [by apply IH|].
    intros ->. apply Hnin.
    clear -Hin. induction m as [|[k1 v1] m IH]; [by apply elem_of_nil in Hin|].
    apply elem_of_cons in Hin as [[= -> ->]|Hin]; simpl.
    + apply elem_of_cons; by left.
    + apply elem_of_cons; right; by apply IH.
Qed.

(** X5.  In every reachable state each registered identity has an entry
    in [pttStates] and in [voiceStates]; hence [getStats] never reports more
    clients than PTT entries or voice entries. *)
Theorem registered_identities_have_states (w : World) :
  reachable w ->
  participants_have_states (stateManager w)
  /\ totalClients (getStats (stateManager w))
     <= pttActive (getStats (stateManager w))
  /\ totalClients (getStats (stateManager w))
     <= voiceActive (getStats (stateManager w)).
Proof.
  intros Hw. pose proof (reachable_participants_have_states w Hw) as Hphs.
  destruct (reachable_world_ok w Hw) as [(Hu & Hwc & _) _].
  split; [done|].
  assert (Hin : forall g, g ∈ getParticipants (stateManager w) ->
            g ∈ JsMap.keys (pttStates (stateManager w))
            /\ g ∈ JsMap.keys (voiceStates (stateManager w))).
  { intros g. unfold getParticipants, JsMap.values. rewrite map_map.
    rewrite list_elem_of_In, in_map_iff.
    intros ([c cd] & <- & Hcd%list_elem_of_In). cbn [snd].
    apply elem_get_wf in Hcd; [|done].
    destruct (Hphs c cd Hcd). split; by apply get_Some_keys. }
  assert (Hlen : totalClients (getStats (stateManager w))
                 = length (getParticipants (stateManager w))).
  { unfold getStats, getParticipants, JsMap.values, JsMap.size.
    cbn [totalClients]. by rewrite !length_map. }
  rewrite Hlen. unfold getStats, JsMap.size. cbn [pttActive voiceActive].
  split.
  - rewrite <- (length_map fst (pttStates (stateManager w))).
    apply submseteq_length, NoDup_submseteq; [done|].
    intros g Hg. by apply Hin.
  - rewrite <- (length_map fst (voiceStates (stateManager w))).
    apply submseteq_length, NoDup_submseteq; [done|].
    intros g Hg. by apply Hin.
Qed.


Lemma findTarget_found (m : list (conn * Client.t)) (t : conn) (cd : Client.t) :
  NoDup (map Client.gamertag (JsMap.values m)) ->
  JsMap.get m t = Some cd ->
  findTarget m (Client.gamertag cd) = Some t.
Proof.
  unfold JsMap.values.
  induction m as [|[c cd0] m IH]; simpl; [done|].
  rewrite NoDup_cons. intros [Hnin Hnd].
  destruct (decide (c = t)) as [->|Hne].
  - intros [= ->]. unfold strict_eq. by rewrite bool_decide_true.
  - intros Hg. unfold strict_eq. rewrite bool_decide_false; [by apply IH|].
    intros Heq. apply Hnin. rewrite Heq.
    clear -Hg. induction m as [|[c1 cd1] m IH]; simpl in *; [done|].
    destruct (decide (c1 = t)).
    + injection Hg as ->. apply elem_of_cons; by left.
    + apply elem_of_cons; right; by apply IH.
Qed.

Lemma dispatch_signaling (p : bool) (wss : list (conn * Socket.t)) (s : StateManager)
    (ws : conn) (gamertag : value) (now : Z) (data : Msg.t) :
  is_signaling (Msg.type data) = true ->
  dispatch p wss s ws gamertag now data
  = if negb (truthy (Msg.to data)) || negb (truthy (Msg.from data))
    then (s, gamertag, [Log WARN "Invalid signaling message: missing to/from"])
    else
      match findTarget (JsMap.entries (clients s)) (Msg.to data) with
      | Some targetWs =>
          if bool_decide (readyState_of wss targetWs = 1%Z)
          then (s, gamertag, [Send targetWs (MsgSignal data)])
          else (s, gamertag, [])
      | None => (s, gamertag, [])
      end.
Proof.
  unfold is_signaling, strict_eq. rewrite !orb_true_iff, !bool_decide_eq_true.
  intros [[Ht|Ht]|Ht]; unfold dispatch; by rewrite Ht.
Qed.

(** X6.  An [offer], [answer] or [ice-candidate] message that the rate
    limiter admits, carrying a truthy [to] and [from], whose [to] is the
    identity of a registered connection with an open socket, is forwarded
    unchanged to that socket, and nothing else is sent.  Neither the
    sender's registration nor the [from] field is checked against the
    sender. *)
Theorem signaling_relayed_to_target (wss : list (conn * Socket.t))
    (s : StateManager) (ws target : conn) (gamertag : value) (now : Z)
    (data : Msg.t) (cd : Client.t) :
  is_signaling (Msg.type data) = true ->
  truthy (Msg.to data) = true ->
  truthy (Msg.from data) = true ->
  unique_identities s ->
  JsMap.get (clients s) target = Some cd ->
  Client.gamertag cd = Msg.to data ->
  readyState_of wss target = 1%Z ->
  fst (checkRateLimit s ws now) = true ->
  on_message wss s ws gamertag now (Parsed data)
  = (updateActivity (snd (checkRateLimit s ws now)) ws now, gamertag,
     [Send target (MsgSignal data)]).
Proof.
  intros Hsig Hto Hfrom Hu Hreg Hg Hopen Hrate.
  rewrite on_message_admitted by done.
  set (s2 := updateActivity (snd (checkRateLimit s ws now)) ws now).
  rewrite dispatch_signaling by done. rewrite Hto, Hfrom. cbn [negb orb].
  assert (Hid : option_map Client.gamertag (JsMap.get (clients s2) target)
                = Some (Client.gamertag cd)).
  { unfold s2. rewrite updateActivity_identity. cbn [clients checkRateLimit
      snd with_rateLimits]. by rewrite Hreg. }
  destruct (JsMap.get (clients s2) target) as [cd2|] eqn:Hreg2; [|done].
  injection Hid as Hid.
  assert (Hf : findTarget (JsMap.entries (clients s2)) (Msg.to data)
               = Some target).
  { rewrite <- Hg, <- Hid. apply findTarget_found; [|done].
    unfold s2. apply updateActivity_unique. exact Hu. }
  rewrite Hf. by rewrite bool_decide_true.
Qed.

(** X7.  A signaling message is dropped without any message to anybody,
    the sender included, when [to] or [from] is missing (falsy), when no
    registered connection has the identity [to], or when the connection
    registered under [to] has no open socket; only the first case is
    logged. *)
Theorem signaling_dropped_silently (wss : list (conn * Socket.t))
    (s : StateManager) (ws : conn) (gamertag : value) (now : Z)
    (data : Msg.t) :
  is_signaling (Msg.type data) = true ->
  fst (checkRateLimit s ws now) = true ->
  let r := on_message wss s ws gamertag now (Parsed data) in
  let s2 := updateActivity (snd (checkRateLimit s ws now)) ws now in
  (truthy (Msg.to data) = false \/ truthy (Msg.from data) = false ->
   r = (s2, gamertag,
        [Log WARN "Invalid signaling message: missing to/from"]))
  /\ (truthy (Msg.to data) = true -> truthy (Msg.from data) = true ->
      Msg.to data ∉ getParticipants s -> r = (s2, gamertag, []))
  /\ (forall target cd,
        truthy (Msg.to data) = true -> truthy (Msg.from data) = true ->
        unique_identities s ->
        JsMap.get (clients s) target = Some cd ->
        Client.gamertag cd = Msg.to data ->
        readyState_of wss target <> 1%Z ->
        r = (s2, gamertag, [])).
Proof.
  intros Hsig Hrate r s2. unfold r.
  rewrite on_message_admitted by done. fold s2.
  rewrite dispatch_signaling by done.
  split; [|split].
  - intros [->| ->]; [done|]. by rewrite orb_true_r.
  - intros -> -> Hnin. cbn [negb orb].
    rewrite findTarget_absent; [done|].
    change (map Client.gamertag (JsMap.values (JsMap.entries (clients s2))))
      with (getParticipants s2).
    unfold s2. by rewrite updateActivity_participants.
  - intros target cd -> -> Hu Hreg Hg Hclosed. cbn [negb orb].
    assert (Hid : option_map Client.gamertag (JsMap.get (clients s2) target)
                  = Some (Client.gamertag cd)).
    { unfold s2. rewrite updateActivity_identity. cbn [clients checkRateLimit
        snd with_rateLimits]. by rewrite Hreg. }
    destruct (JsMap.get (clients s2) target) as [cd2|] eqn:Hreg2; [|done].
    injection Hid as Hid.
    assert (Hf : findTarget (JsMap.entries (clients s2)) (Msg.to data)
                 = Some target).
    { rewrite <- Hg, <- Hid. apply findTarget_found; [|done].
      unfold s2. apply updateActivity_unique. exact Hu. }
    rewrite Hf. by rewrite bool_decide_false.
Qed.

(** X8.  A [heartbeat] message, and every parsed message whose [type] is
    none of the nine the dispatcher knows (a missing type included),
    changes nothing beyond the sender's rate window and activity stamp and
    produces no reply, no broadcast and no log entry. *)
Theorem unknown_and_heartbeat_ignored (wss : list (conn * Socket.t))
    (s : StateManager) (ws : conn) (gamertag : value) (now : Z)
    (data : Msg.t) :
  Msg.type data = VStr "heartbeat" \/ Msg.type data ∉ known_types ->
  fst (checkRateLimit s ws now) = true ->
  on_message wss s ws gamertag now (Parsed data)
  = (updateActivity (snd (checkRateLimit s ws now)) ws now, gamertag, []).
Proof.
  intros Htype Hrate. rewrite on_message_admitted by done.
  destruct Htype as [Ht|Hnin].
  - unfold dispatch. by rewrite Ht.
  - unfold known_types in Hnin. rewrite !not_elem_of_cons in Hnin.
    destruct Hnin as (H1 & H2 & H3 & H4 & H5 & H6 & H7 & H8 & H9 & _).
    unfold dispatch, is_signaling, strict_eq.
    by rewrite !bool_decide_false.
Qed.

(** X9.  The [leave] branch does not test registration: a [leave] that
    the rate limiter admits from a connection that is not registered still
    sends a leave event, carrying the handler's recorded identity ([null]
    for a connection that never joined), to every other open socket; the
    registry and the state tables are unchanged. *)
Theorem leave_without_registration_announced (wss : list (conn * Socket.t))
    (s : StateManager) (ws : conn) (gamertag : value) (now : Z)
    (data : Msg.t) :
  JsMap.get (clients s) ws = None ->
  Msg.type data = VStr "leave" ->
  fst (checkRateLimit s ws now) = true ->
  on_message wss s ws gamertag now (Parsed data)
  = (snd (checkRateLimit s ws now), gamertag,
     Log INFO "left"
       :: map (fun c => Send c (MsgLeave gamertag)) (other_open_sockets wss ws)).
Proof.
  intros Hun Htype Hrate. rewrite on_message_admitted by done.
  rewrite updateActivity_absent by done.
  rewrite dispatch_leave, broadcast_spec by done.
  by rewrite removeClient_unregistered.
Qed.


Lemma removeClient_rateLimits_other (s : StateManager) (c ws : conn) :
  c <> ws -> rateLimits (removeClient s c) !! ws = rateLimits s !! ws.
Proof.
  intros Hne. unfold removeClient.
  destruct (JsMap.get (clients s) c); [|done]. simpl.
  by apply lookup_delete_ne.
Qed.

Lemma dispatch_rateLimits_other (p : bool) (wss : list (conn * Socket.t))
    (s : StateManager) (c ws : conn) (g : value) (now : Z) (data : Msg.t) :
  c <> ws ->
  rateLimits (fst (fst (dispatch p wss s c g now data))) !! ws
  = rateLimits s !! ws.
Proof.
  intros Hne. unfold dispatch.
  repeat case_match; cbn [fst snd rateLimits with_voiceStates with_pttStates];
    try done.
  all: try (match goal with H : addClient _ _ _ _ = inr _ |- _ =>
              apply addClient_inr in H as [_ ->] end; done).
  by apply removeClient_rateLimits_other.
Qed.

Lemma on_message_rateLimits_other (wss : list (conn * Socket.t))
    (s : StateManager) (c ws : conn) (g : value) (now : Z) (msg : parsed) :
  c <> ws ->
  rateLimits (fst (fst (on_message wss s c g now msg))) !! ws
  = rateLimits s !! ws.
Proof.
  intros Hne.
  assert (H1 : rateLimits (snd (checkRateLimit s c now)) !! ws
               = rateLimits s !! ws).
  { unfold checkRateLimit. cbn [snd rateLimits with_rateLimits].
    by apply lookup_insert_ne. }
  unfold on_message.
  destruct (fst (checkRateLimit s c now)); cbn [negb fst snd]; [|done].
  destruct msg as [| |data|data]; cbn [fst snd];
    rewrite ?dispatch_rateLimits_other by done;
    by rewrite updateActivity_rateLimits.
Qed.

(** X10.  Rate windows are per connection: a message of one connection,
    whatever it is and whether admitted or not, leaves the window of every
    other connection as it was, and so does the close of another
    connection. *)
Theorem rate_windows_are_independent (wss : list (conn * Socket.t))
    (s : StateManager) (c ws : conn) (g : value) (now : Z) (msg : parsed) :
  c <> ws ->
  rateLimits (fst (fst (on_message wss s c g now msg))) !! ws
  = rateLimits s !! ws
  /\ rateLimits (fst (on_close wss s c g)) !! ws = rateLimits s !! ws.
Proof.
  intros Hne. split; [by apply on_message_rateLimits_other|].
  unfold on_close. destruct (truthy g); cbn [fst]; [|done].
  by apply removeClient_rateLimits_other.
Qed.

Lemma in_window_answers_rejected (n : nat) :
  forall c, (RATE_LIMIT_MAX <= c)%Z ->
            in_window_answers c n = replicate n false.
Proof.
  induction n as [|n IH]; intros c Hc; [done|].
  simpl. rewrite bool_decide_false by lia. f_equal. apply IH. lia.
Qed.

(** X11.  Once a window has counted [RATE_LIMIT_MAX] messages, every
    further message that arrives before [resetAt] is rejected; each one
    still increments the count, none of them moves [resetAt], and the first
    message after [resetAt] is admitted, however many were rejected. *)
Theorem flood_is_rejected_until_reset (s : StateManager) (ws : conn)
    (c r : Z) (ts : list Z) (t' : Z) :
  rateLimits s !! ws = Some (Limit.mk c r) ->
  (RATE_LIMIT_MAX <= c)%Z ->
  Forall (fun t => t <= r)%Z ts ->
  (t' > r)%Z ->
  rate_answers s ws ts = replicate (length ts) false
  /\ rateLimits (rate_state s ws ts) !! ws
     = Some (Limit.mk (c + Z.of_nat (length ts)) r)
  /\ fst (checkRateLimit (rate_state s ws ts) ws t') = true.
Proof.
  intros Hl Hc Hts Hlate.
  destruct (rate_answers_in_window ts s ws c r Hl Hts) as [Ha Hs].
  split; [rewrite Ha; by apply in_window_answers_rejected|].
  split; [done|].
  rewrite checkRateLimit_answer, Hs. cbn [spec_window Limit.resetAt].
  rewrite (bool_decide_true (t' > r)%Z) by done. done.
Qed.

Lemma post_minecraft_data_rateLimits (wss : list (conn * Socket.t))
    (s : StateManager) (body : Body.t) :
  rateLimits (fst (fst (post_minecraft_data wss s body))) = rateLimits s.
Proof.
  unfold post_minecraft_data. cbn [fst].
  change (rateLimits s) with (rateLimits (with_minecraftData s (Some body))).
  generalize (with_minecraftData s (Some body)).
  induction (default [] (Body.players body)) as [|p ps IH]; intros s0; [done|].
  simpl. rewrite IH. unfold ingest_player.
  by destruct (truthy (Player.name p)).
Qed.

Lemma cleanup_fold_rateLimits_other (wss : list (conn * Socket.t)) (now : Z)
    (ws : conn) (l : list (conn * Client.t)) :
  ws ∉ map fst l ->
  forall acc,
    rateLimits (fst (fold_left (cleanup_entry wss now) l acc)) !! ws
    = rateLimits (fst acc) !! ws.
Proof.
  induction l as [|e l IH]; intros Hnin acc; [done|].
  simpl in Hnin. apply not_elem_of_cons in Hnin as [Hne Hnin].
  simpl. rewrite IH by done. unfold cleanup_entry.
  case_bool_decide; [|done]. cbn [fst].
  by apply removeClient_rateLimits_other.
Qed.

Lemma option_map_None {A B : Type} (f : A -> B) (x y : option A) :
  option_map f x = option_map f y -> y = None -> x = None.
Proof. intros Heq ->. by destruct x. Qed.

(** What stays true of a socket that closed while unregistered. *)
Lemma closed_unregistered_preserved (w : World) (ev : event) (ws : conn)
    (l : Limit.t) :
  enabled w ev ->
  JsMap.get (wss_clients w) ws = None ->
  JsMap.get (clients (stateManager w)) ws = None ->
  rateLimits (stateManager w) !! ws = Some l ->
  JsMap.get (wss_clients (fst (handle w ev))) ws = None
  /\ JsMap.get (clients (stateManager (fst (handle w ev)))) ws = None
  /\ rateLimits (stateManager (fst (handle w ev))) !! ws = Some l.
Proof.
  intros Hen Hsk Hun Hl.
  destruct ev as [c|c now msg|c|c|body|now]; cbn [handle enabled] in *.
  - destruct Hen as (_ & _ & Hfresh).
    assert (c <> ws) by congruence.
    cbn [fst stateManager wss_clients]. by rewrite get_set_ne.
  - destruct (JsMap.get (wss_clients w) c) as [sk|] eqn:Hc; [|done].
    assert (Hne : c <> ws) by congruence.
    cbn [fst stateManager wss_clients]. split; [|split].
    + eapply option_map_None;
        [rewrite apply_closes_closes; apply fold_close_gamertag|].
      by rewrite get_set_ne.
    + by rewrite on_message_clients_other.
    + by rewrite on_message_rateLimits_other.
  - cbn [fst stateManager wss_clients]. split; [|done].
    eapply option_map_None; [apply close_socket_gamertag | done].
  - destruct (JsMap.get (wss_clients w) c) as [sk|] eqn:Hc; [|done].
    assert (Hne : c <> ws) by congruence.
    cbn [fst stateManager wss_clients].
    split; [by apply get_delete_None|].
    unfold on_close. destruct (truthy (Socket.gamertag sk)); cbn [fst];
      [|done].
    split; [by apply removeClient_clients_None|].
    by rewrite removeClient_rateLimits_other.
  - cbn [fst stateManager wss_clients]. split; [done|].
    by rewrite post_minecraft_data_clients, post_minecraft_data_rateLimits.
  - cbn [fst stateManager wss_clients]. split; [|split].
    + eapply option_map_None;
        [rewrite apply_closes_closes; apply fold_close_gamertag | done].
    + unfold cleanup. cbn [fst clients with_lastCleanup].
      by apply cleanup_fold_clients_None.
    + unfold cleanup. cbn [fst rateLimits with_lastCleanup].
      rewrite cleanup_fold_rateLimits_other; [done|].
      by apply get_None_keys.
Qed.

(** X12.  The rate window of a connection that closes while it is not
    registered is never deleted: the close handler removes nothing for it,
    the sweep only visits registered connections, and no later event of the
    server touches the entry. *)
Theorem unregistered_rate_window_is_kept (w : World) (ws : conn)
    (sk : Socket.t) (l : Limit.t) (evs : list event) :
  JsMap.get (wss_clients w) ws = Some sk ->
  JsMap.get (clients (stateManager w)) ws = None ->
  rateLimits (stateManager w) !! ws = Some l ->
  all_enabled (fst (handle w (CloseEvent ws))) evs ->
  rateLimits (stateManager (run (fst (handle w (CloseEvent ws))) evs)) !! ws
  = Some l.
Proof.
  intros Hsk Hun Hl.
  assert (Hstart : JsMap.get (wss_clients (fst (handle w (CloseEvent ws)))) ws
                   = None
                   /\ JsMap.get
                        (clients (stateManager (fst (handle w (CloseEvent ws)))))
                        ws = None
                   /\ rateLimits (stateManager (fst (handle w (CloseEvent ws))))
                        !! ws = Some l).
  { cbn [handle]. rewrite Hsk. cbn [fst stateManager wss_clients].
    split; [apply get_delete_eq|].
    unfold on_close. destruct (truthy (Socket.gamertag sk)); cbn [fst];
      [|done].
    by rewrite removeClient_unregistered. }
  revert Hstart. generalize (fst (handle w (CloseEvent ws))).
  induction evs as [|ev evs IH]; intros w1 (H1 & H2 & H3) Hen; [done|].
  destruct Hen as (Hev & _ & Hrest). simpl. apply IH; [|done].
  by apply closed_unregistered_preserved.
Qed.


(** *** The sweep *)

Lemma sends_append (e1 e2 : list effect) : sends (e1 ++ e2) = sends e1 ++ sends e2.
Proof.
  unfold sends. induction e1 as [|e e1 IH]; simpl; [done|].
  by rewrite IH, app_assoc.
Qed.

Lemma closes_append (e1 e2 : list effect) :
  closes (e1 ++ e2) = closes e1 ++ closes e2.
Proof.
  unfold closes. induction e1 as [|e e1 IH]; simpl; [done|].
  by rewrite IH, app_assoc.
Qed.

Lemma cleanup_fold_effects (wss : list (conn * Socket.t)) (now : Z)
    (l : list (conn * Client.t)) :
  forall acc,
    sends (snd (fold_left (cleanup_entry wss now) l acc)) = sends (snd acc)
    /\ closes (snd (fold_left (cleanup_entry wss now) l acc))
       = closes (snd acc)
         ++ map fst
              (List.filter
                 (fun e => timed_out now (snd e)
                           && bool_decide (readyState_of wss (fst e) = 1%Z))
                 l).
Proof.
  induction l as [|e l IH]; intros acc.
  - simpl. by rewrite app_nil_r.
  - simpl. destruct (IH (cleanup_entry wss now acc e)) as [Hs Hc].
    rewrite Hs, Hc. unfold cleanup_entry, timed_out.
    case_bool_decide; cbn [andb snd]; [|done].
    rewrite sends_append, closes_append.
    case_bool_decide; cbn; by rewrite ?app_nil_r, <- ?app_assoc.
Qed.

Lemma removeClient_keeps_None (s : StateManager) (c ws : conn) (g : value) :
  (JsMap.get (pttStates s) g = None ->
   JsMap.get (pttStates (removeClient s c)) g = None)
  /\ (JsMap.get (voiceStates s) g = None ->
      JsMap.get (voiceStates (removeClient s c)) g = None)
  /\ (rateLimits s !! ws = None -> rateLimits (removeClient s c) !! ws = None).
Proof.
  unfold removeClient. destruct (JsMap.get (clients s) c) as [cd|]; [|done].
  simpl. split; [by apply get_delete_None|].
  split; [by apply get_delete_None|].
  intros Hn. destruct (decide (c = ws)) as [->|Hne].
  - apply lookup_delete_eq.
  - by rewrite lookup_delete_ne.
Qed.

Lemma cleanup_fold_keeps_None (wss : list (conn * Socket.t)) (now : Z)
    (ws : conn) (g : value) (l : list (conn * Client.t)) :
  forall acc,
    (JsMap.get (pttStates (fst acc)) g = None ->
     JsMap.get (pttStates (fst (fold_left (cleanup_entry wss now) l acc))) g
     = None)
    /\ (JsMap.get (voiceStates (fst acc)) g = None ->
        JsMap.get (voiceStates (fst (fold_left (cleanup_entry wss now) l acc))) g
        = None)
    /\ (rateLimits (fst acc) !! ws = None ->
        rateLimits (fst (fold_left (cleanup_entry wss now) l acc)) !! ws
        = None).
Proof.
  induction l as [|e l IH]; intros acc; [done|].
  simpl. destruct (IH (cleanup_entry wss now acc e)) as (Hp & Hv & Hr).
  unfold cleanup_entry in *. case_bool_decide; [|done].
  cbn [fst] in *.
  destruct (removeClient_keeps_None (fst acc) (fst e) ws g) as (Hp1 & Hv1 & Hr1).
  split; [intros ?; by apply Hp, Hp1|].
  split; [intros ?; by apply Hv, Hv1 | intros ?; by apply Hr, Hr1].
Qed.

Lemma existsb_key_absent {V : Type} (P : V -> bool) (m : list (conn * V))
    (ws : conn) :
  ws ∉ map fst m ->
  existsb (fun e => bool_decide (fst e = ws) && P (snd e)) m = false.
Proof.
  induction m as [|[k v] m IH]; simpl; [done|].
  rewrite not_elem_of_cons. intros [Hne Hnin].
  rewrite bool_decide_false by congruence. by apply IH.
Qed.

Lemma existsb_key_wf {V : Type} (P : V -> bool) (m : list (conn * V))
    (ws : conn) :
  JsMap.wf m ->
  existsb (fun e => bool_decide (fst e = ws) && P (snd e)) m
  = match JsMap.get m ws with Some v => P v | None => false end.
Proof.
  unfold JsMap.wf, JsMap.keys.
  induction m as [|[k v] m IH]; simpl; [done|].
  rewrite NoDup_cons. intros [Hnin Hnd].
  destruct (decide (k = ws)) as [->|Hne].
  - rewrite bool_decide_true by done. cbn [andb].
    rewrite existsb_key_absent by done. by rewrite orb_false_r.
  - rewrite bool_decide_false by done. by apply IH.
Qed.

Lemma get_Some_elem_of {K V : Type} `{EqDecision K} (m : list (K * V)) (k : K)
    (v : V) :
  JsMap.get m k = Some v -> (k, v) ∈ m.
Proof.
  induction m as [|[k0 v0] m IH]; simpl; [done|].
  destruct (decide (k0 = k)) as [->|Hne].
  - intros [= ->]. apply elem_of_cons; by left.
  - intros Hg. apply elem_of_cons; right; by apply IH.
Qed.

(** The sweep over the entries [l] still to visit, all of them in the
    registry of the accumulated state. *)
Lemma cleanup_fold_spec (wss : list (conn * Socket.t)) (now : Z)
    (l : list (conn * Client.t)) :
  forall acc,
    NoDup (map fst l) ->
    (forall e, e ∈ l -> JsMap.get (clients (fst acc)) (fst e) = Some (snd e)) ->
    let res := fst (fold_left (cleanup_entry wss now) l acc) in
    (forall ws,
       JsMap.get (clients res) ws
       = if existsb (fun e => bool_decide (fst e = ws) && timed_out now (snd e)) l
         then None else JsMap.get (clients (fst acc)) ws)
    /\ (forall ws,
          existsb (fun e => bool_decide (fst e = ws) && timed_out now (snd e)) l
          = false ->
          rateLimits res !! ws = rateLimits (fst acc) !! ws)
    /\ (forall g,
          (forall e, e ∈ l -> timed_out now (snd e) = true ->
                     Client.gamertag (snd e) <> g) ->
          JsMap.get (pttStates res) g = JsMap.get (pttStates (fst acc)) g
          /\ JsMap.get (voiceStates res) g
             = JsMap.get (voiceStates (fst acc)) g)
    /\ (forall e, e ∈ l -> timed_out now (snd e) = true ->
          JsMap.get (pttStates res) (Client.gamertag (snd e)) = None
          /\ JsMap.get (voiceStates res) (Client.gamertag (snd e)) = None
          /\ rateLimits res !! fst e = None).
Proof.
  induction l as [|e l IH]; intros acc Hnd Hin res.
  - subst res. simpl. split; [done|]. split; [done|]. split; [done|].
    by intros e0 ?%elem_of_nil.
  - simpl in Hnd. apply NoDup_cons in Hnd as [Hnin Hnd].
    assert (He : JsMap.get (clients (fst acc)) (fst e) = Some (snd e))
      by (apply Hin, elem_of_cons; by left).
    set (acc' := cleanup_entry wss now acc e).
    assert (Hin' : forall e', e' ∈ l ->
              JsMap.get (clients (fst acc')) (fst e') = Some (snd e')).
    { intros e' He'.
      assert (Hne : fst e <> fst e').
      { intros Heq. apply Hnin. rewrite Heq.
        apply list_elem_of_In, in_map, list_elem_of_In. exact He'. }
      unfold acc', cleanup_entry. case_bool_decide; cbn [fst].
      - rewrite removeClient_clients, get_delete_ne by done.
        apply Hin, elem_of_cons. by right.
      - apply Hin, elem_of_cons. by right. }
    destruct (IH acc' Hnd Hin') as (Ha & Hb & Hc & Hd).
    subst res. cbn [fold_left]. fold acc'.
    assert (Hstep : fst acc'
                    = if timed_out now (snd e)
                      then removeClient (fst acc) (fst e) else fst acc).
    { unfold acc', cleanup_entry, timed_out. by case_bool_decide. }
    split; [|split; [|split]].
    + intros ws. rewrite Ha. cbn [existsb].
      destruct (existsb _ l) eqn:Hex; [by rewrite orb_true_r|].
      rewrite orb_false_r, Hstep.
      destruct (timed_out now (snd e)); [|by rewrite andb_false_r].
      rewrite andb_true_r, removeClient_clients.
      case_bool_decide as Hk.
      * rewrite Hk. apply get_delete_eq.
      * by apply get_delete_ne.
    + intros ws. cbn [existsb]. rewrite orb_false_iff. intros [Hhd Htl].
      rewrite Hb, Hstep by done.
      destruct (timed_out now (snd e)); [|done].
      rewrite andb_true_r in Hhd. apply bool_decide_eq_false in Hhd.
      by apply removeClient_rateLimits_other.
    + intros g Hg.
      destruct (Hc g) as [Hp Hv].
      { intros e' He'. apply Hg, elem_of_cons. by right. }
      rewrite Hp, Hv, Hstep.
      destruct (timed_out now (snd e)) eqn:Hto; [|done].
      apply removeClient_keeps_other_identity.
      intros q. rewrite He. intros [= <-].
      apply Hg; [apply elem_of_cons; by left | done].
    + intros e' [->|He']%elem_of_cons Hto.
      * destruct (cleanup_fold_keeps_None wss now (fst e)
                    (Client.gamertag (snd e)) l acc') as (Hp & Hv & Hr).
        rewrite Hstep, Hto in Hp, Hv, Hr.
        unfold removeClient in Hp, Hv, Hr. rewrite He in Hp, Hv, Hr.
        cbn [pttStates voiceStates rateLimits with_clients with_rateLimits
               with_voiceStates with_pttStates] in Hp, Hv, Hr.
        split; [apply Hp, get_delete_eq|].
        split; [apply Hv, get_delete_eq | apply Hr, lookup_delete_eq].
      * by apply Hd.
Qed.

(** X13.  The sweep at [now], on a registry with distinct keys, removes
    exactly the connections whose [lastActivity] is more than
    [CLIENT_TIMEOUT] ms old and leaves every other entry as it was.  For
    each removed connection the state entries of its identity and its rate
    window are gone; identities of no removed connection keep their
    entries.  It calls [close(1000)] on the removed connections whose
    socket is open, in registry order, and sends no message at all: no
    leave event and no identity list. *)
Theorem cleanup_evicts_exactly_timed_out (wss : list (conn * Socket.t))
    (s : StateManager) (now : Z) :
  JsMap.wf (clients s) ->
  let r := cleanup wss s now in
  (forall ws,
     JsMap.get (clients (fst r)) ws
     = match JsMap.get (clients s) ws with
       | Some cd => if timed_out now cd then None else Some cd
       | None => None
       end)
  /\ (forall ws cd,
        JsMap.get (clients s) ws = Some cd -> timed_out now cd = true ->
        JsMap.get (pttStates (fst r)) (Client.gamertag cd) = None
        /\ JsMap.get (voiceStates (fst r)) (Client.gamertag cd) = None
        /\ rateLimits (fst r) !! ws = None)
  /\ (forall g,
        (forall ws cd, JsMap.get (clients s) ws = Some cd ->
                       timed_out now cd = true -> Client.gamertag cd <> g) ->
        JsMap.get (pttStates (fst r)) g = JsMap.get (pttStates s) g
        /\ JsMap.get (voiceStates (fst r)) g = JsMap.get (voiceStates s) g)
  /\ sends (snd r) = []
  /\ closes (snd r)
     = map fst
         (List.filter
            (fun e => timed_out now (snd e)
                      && bool_decide (readyState_of wss (fst e) = 1%Z))
            (JsMap.entries (clients s)))
  /\ lastCleanup (fst r) = now.
Proof.
  intros Hwf r.
  assert (Hin : forall e, e ∈ clients s ->
            JsMap.get (clients (fst (s, @nil effect))) (fst e) = Some (snd e)).
  { intros [c cd] He. by apply elem_get_wf. }
  destruct (cleanup_fold_spec wss now (clients s) (s, []) Hwf Hin)
    as (Ha & _ & Hc & Hd).
  destruct (cleanup_fold_effects wss now (clients s) (s, [])) as [Hs Hcl].
  unfold r, cleanup, JsMap.entries.
  cbn [fst snd clients pttStates voiceStates rateLimits lastCleanup
         with_lastCleanup] in *.
  split.
  { intros ws. rewrite Ha, (existsb_key_wf _ _ _ Hwf).
    destruct (JsMap.get (clients s) ws) as [cd|]; [|done].
    by destruct (timed_out now cd). }
  split.
  { intros ws cd Hcd Hto.
    apply (Hd (ws, cd)); [|done]. by apply get_Some_elem_of. }
  split.
  { intros g Hg. apply Hc. intros [c cd] He Hto. cbn [fst snd] in *.
    apply (Hg c); [|done]. by apply elem_get_wf. }
  done.
Qed.


Lemma cleanup_registry_after_sweep (wss : list (conn * Socket.t))
    (s : StateManager) (now : Z) :
  JsMap.wf (clients s) ->
  (forall ws,
     JsMap.get (clients (fst (cleanup wss s now))) ws
     = match JsMap.get (clients s) ws with
       | Some cd => if timed_out now cd then None else Some cd
       | None => None
       end)
  /\ sends (snd (cleanup wss s now)) = [].
Proof.
  intros Hwf.
  assert (Hin : forall e, e ∈ clients s ->
            JsMap.get (clients (fst (s, @nil effect))) (fst e) = Some (snd e)).
  { intros [c cd] He. by apply elem_get_wf. }
  destruct (cleanup_fold_spec wss now (clients s) (s, []) Hwf Hin)
    as (Ha & _).
  destruct (cleanup_fold_effects wss now (clients s) (s, [])) as [Hs _].
  unfold cleanup, JsMap.entries.
  cbn [fst snd clients with_lastCleanup] in *.
  split; [|done].
  intros ws. rewrite Ha, (existsb_key_wf _ _ _ Hwf).
  destruct (JsMap.get (clients s) ws) as [cd|]; [|done].
  by destruct (timed_out now cd).
Qed.

(** X14.  A registered connection with a truthy identity whose activity
    has timed out: the sweep removes it from the registry without telling
    anybody, and when its socket then closes, the close handler sends the
    leave event for its identity to the remaining open sockets, followed by
    the identity list, which no longer contains that identity; the close
    changes no state. *)
Theorem sweep_then_close_announces_leave (w : World) (ws : conn)
    (sk : Socket.t) (cd : Client.t) (now : Z) :
  state_ok (stateManager w) ->
  JsMap.get (wss_clients w) ws = Some sk ->
  JsMap.get (clients (stateManager w)) ws = Some cd ->
  Socket.gamertag sk = Client.gamertag cd ->
  truthy (Client.gamertag cd) = true ->
  timed_out now cd = true ->
  let swept := handle w (CleanupTick now) in
  let r := handle (fst swept) (CloseEvent ws) in
  let remaining := JsMap.delete (wss_clients (fst swept)) ws in
  let g := Client.gamertag cd in
  sends (snd swept) = []
  /\ JsMap.get (clients (stateManager (fst swept))) ws = None
  /\ (g ∉ getParticipants (stateManager (fst swept)))
  /\ snd r
     = (Log INFO "disconnected"
        :: map (fun c => Send c (MsgLeave g)) (other_open_sockets remaining ws)
        ++ map (fun c =>
                  Send c (MsgParticipantsList
                            (getParticipants (stateManager (fst swept)))))
             (open_sockets remaining))
  /\ stateManager (fst r) = stateManager (fst swept).
Proof.
  intros Hok Hsk Hreg Hlink Htruthy Hto swept r remaining g.
  destruct Hok as (Hu & Hwf & Hwp & Hwv).
  destruct (cleanup_registry_after_sweep (wss_clients w)
              (stateManager w) now Hwf) as (Hget & Hsends).
  assert (Hsw : swept
                = (mkWorld (fst (cleanup (wss_clients w) (stateManager w) now))
                     (apply_closes (wss_clients w)
                        (snd (cleanup (wss_clients w) (stateManager w) now))),
                   snd (cleanup (wss_clients w) (stateManager w) now)))
    by done.
  assert (Hun : JsMap.get (clients (stateManager (fst swept))) ws = None).
  { rewrite Hsw. cbn [fst stateManager]. by rewrite Hget, Hreg, Hto. }
  assert (Hvar : option_map Socket.gamertag
                   (JsMap.get (wss_clients (fst swept)) ws) = Some g).
  { rewrite Hsw. cbn [fst wss_clients].
    rewrite apply_closes_closes, fold_close_gamertag, Hsk. cbn. by rewrite Hlink. }
  split; [by rewrite Hsw|]. split; [done|].
  split.
  { intros Hin.
    assert (Hok' : state_ok (stateManager (fst swept))).
    { rewrite Hsw. cbn [fst stateManager]. by apply state_ok_cleanup. }
    destruct Hok' as (_ & Hwf' & _).
    unfold getParticipants, JsMap.values in Hin. rewrite map_map in Hin.
    apply list_elem_of_In, in_map_iff in Hin as ([c cd'] & Hg' & Hcd').
    apply list_elem_of_In, elem_get_wf in Hcd'; [|done].
    cbn [snd] in Hg'.
    assert (Hcd0 : JsMap.get (clients (stateManager w)) c = Some cd').
    { rewrite Hsw in Hcd'. cbn [fst stateManager] in Hcd'.
      rewrite Hget in Hcd'.
      destruct (JsMap.get (clients (stateManager w)) c) as [cd0|]; [|done].
      destruct (timed_out now cd0); [done|]. by injection Hcd' as ->. }
    assert (c = ws) as -> by (by eapply unique_get).
    by rewrite Hun in Hcd'. }
  destruct (JsMap.get (wss_clients (fst swept)) ws) as [sk2|] eqn:Hsk2; [|done].
  injection Hvar as Hvar.
  unfold r, handle. rewrite Hsk2, Hvar. fold remaining.
  unfold on_close. fold g in Htruthy. rewrite Htruthy. cbn [fst snd stateManager].
  rewrite removeClient_unregistered by done.
  by rewrite broadcast_spec, broadcastToAll_spec.
Qed.

(** What stays true of a registered connection whose socket is gone. *)
Lemma stale_registration_preserved (w : World) (ev : event) (ws : conn)
    (cd : Client.t) :
  enabled w ev ->
  (forall now, ev <> CleanupTick now) ->
  JsMap.get (wss_clients w) ws = None ->
  JsMap.get (clients (stateManager w)) ws = Some cd ->
  JsMap.get (wss_clients (fst (handle w ev))) ws = None
  /\ JsMap.get (clients (stateManager (fst (handle w ev)))) ws = Some cd.
Proof.
  intros Hen Hns Hsk Hreg.
  destruct ev as [c|c now msg|c|c|body|now]; cbn [handle enabled] in *.
  - destruct Hen as (_ & Hfresh & _).
    assert (c <> ws) by congruence.
    cbn [fst stateManager wss_clients]. by rewrite get_set_ne.
  - destruct (JsMap.get (wss_clients w) c) as [sk|] eqn:Hc; [|done].
    assert (Hne : c <> ws) by congruence.
    cbn [fst stateManager wss_clients]. split.
    + eapply option_map_None;
        [rewrite apply_closes_closes; apply fold_close_gamertag|].
      by rewrite get_set_ne.
    + by rewrite on_message_clients_other.
  - cbn [fst stateManager wss_clients]. split; [|done].
    eapply option_map_None; [apply close_socket_gamertag | done].
  - destruct (JsMap.get (wss_clients w) c) as [sk|] eqn:Hc; [|done].
    assert (Hne : c <> ws) by congruence.
    cbn [fst stateManager wss_clients].
    split; [by apply get_delete_None|].
    unfold on_close. destruct (truthy (Socket.gamertag sk)); cbn [fst];
      [|done].
    rewrite removeClient_clients. by rewrite get_delete_ne.
  - cbn [fst stateManager wss_clients]. split; [done|].
    by rewrite post_minecraft_data_clients.
  - by destruct (Hns now).
Qed.

(** X15.  The close handler deregisters only when the handler's recorded
    identity is truthy.  A connection registered under a falsy identity
    (the empty string, or a join without [gamertag]) is therefore still
    registered after its socket has closed; nothing is announced, and no
    later event other than the sweep removes the entry, so the identity
    stays taken. *)
Theorem falsy_identity_survives_close (w : World) (ws : conn) (sk : Socket.t)
    (cd : Client.t) (evs : list event) :
  JsMap.get (wss_clients w) ws = Some sk ->
  JsMap.get (clients (stateManager w)) ws = Some cd ->
  Socket.gamertag sk = Client.gamertag cd ->
  truthy (Client.gamertag cd) = false ->
  all_enabled (fst (handle w (CloseEvent ws))) evs ->
  Forall (fun ev => forall now, ev <> CleanupTick now) evs ->
  let closed := handle w (CloseEvent ws) in
  let later := stateManager (run (fst closed) evs) in
  snd closed = []
  /\ stateManager (fst closed) = stateManager w
  /\ JsMap.get (wss_clients (fst closed)) ws = None
  /\ JsMap.get (clients later) ws = Some cd
  /\ isGamertagTaken later (Client.gamertag cd) = true.
Proof.
  intros Hsk Hreg Hlink Hfalsy Hen Hns closed later.
  assert (Hcl : closed = (mkWorld (stateManager w)
                            (JsMap.delete (wss_clients w) ws), [])).
  { unfold closed. cbn [handle]. rewrite Hsk, Hlink.
    unfold on_close. by rewrite Hfalsy. }
  assert (Hlater : JsMap.get (clients later) ws = Some cd).
  { unfold later.
    assert (Hstart : JsMap.get (wss_clients (fst closed)) ws = None
                     /\ JsMap.get (clients (stateManager (fst closed))) ws
                        = Some cd).
    { rewrite Hcl. cbn [fst stateManager wss_clients].
      split; [apply get_delete_eq | done]. }
    clear Hcl. fold closed in Hen. revert Hstart Hen.
    generalize (fst closed). clear closed later.
    induction Hns as [|ev evs Hev _ IH]; intros w1 [H1 H2] Hen; [done|].
    destruct Hen as (Hen1 & _ & Hrest). simpl. apply IH; [|done].
    by apply stale_registration_preserved. }
  rewrite Hcl. cbn [fst snd stateManager wss_clients].
  split; [done|]. split; [done|]. split; [apply get_delete_eq|].
  split; [done|].
  apply isGamertagTaken_spec. by eapply participant_of_get.
Qed.


(** *** Snapshots *)

Lemma jsmap_ext {K V : Type} `{EqDecision K} (m1 m2 : list (K * V)) :
  JsMap.keys m1 = JsMap.keys m2 ->
  JsMap.wf m1 ->
  (forall k, JsMap.get m1 k = JsMap.get m2 k) ->
  m1 = m2.
Proof.
  unfold JsMap.keys, JsMap.wf, JsMap.keys.
  revert m2. induction m1 as [|[k1 v1] m1 IH]; intros [|[k2 v2] m2]; simpl;
    try done.
  intros [= -> Hk] [Hnin Hnd]%NoDup_cons Hget.
  pose proof (Hget k2) as Hh. rewrite !decide_True in Hh by done.
  injection Hh as ->. f_equal. apply IH; [done..|].
  intros k. specialize (Hget k).
  destruct (decide (k2 = k)) as [<-|Hne]; [|done].
  assert (Hn1 : JsMap.get m1 k2 = None) by (by apply get_None_keys).
  assert (Hn2 : JsMap.get m2 k2 = None)
    by (apply get_None_keys; unfold JsMap.keys; by rewrite <- Hk).
  by rewrite Hn1, Hn2.
Qed.

Lemma keys_set_present {K V : Type} `{EqDecision K} (m : list (K * V)) (k : K)
    (v : V) :
  is_Some (JsMap.get m k) -> JsMap.keys (JsMap.set m k v) = JsMap.keys m.
Proof.
  intros [v0 Hv0]. unfold JsMap.keys. by apply map_set_present with (v := v0).
Qed.

Lemma last_record_is_Some (ps : list Player.t) (p : Player.t) :
  p ∈ ps -> truthy (Player.name p) = true ->
  is_Some (last_record ps (Player.name p)).
Proof.
  induction ps as [|q ps IH]; [by intros ?%elem_of_nil|].
  intros [->|Hin]%elem_of_cons Ht; simpl.
  - destruct (last_record ps (Player.name q)); [by eexists|].
    unfold strict_eq. rewrite Ht, bool_decide_true by done. by eexists.
  - destruct (IH Hin Ht) as [r Hr]. rewrite Hr. by eexists.
Qed.

Lemma ingest_players_fields (ps : list Player.t) :
  forall s,
    minecraftData (fold_left ingest_player ps s) = minecraftData s
    /\ rateLimits (fold_left ingest_player ps s) = rateLimits s
    /\ lastCleanup (fold_left ingest_player ps s) = lastCleanup s.
Proof.
  induction ps as [|p ps IH]; intros s; [done|].
  simpl. destruct (IH (ingest_player s p)) as (-> & -> & ->).
  unfold ingest_player. by destruct (truthy (Player.name p)).
Qed.

Lemma ingest_players_keys (ps : list Player.t) :
  forall s,
    (forall p, p ∈ ps -> truthy (Player.name p) = true ->
               is_Some (JsMap.get (pttStates s) (Player.name p))
               /\ is_Some (JsMap.get (voiceStates s) (Player.name p))) ->
    JsMap.keys (pttStates (fold_left ingest_player ps s))
    = JsMap.keys (pttStates s)
    /\ JsMap.keys (voiceStates (fold_left ingest_player ps s))
       = JsMap.keys (voiceStates s).
Proof.
  induction ps as [|p ps IH]; intros s Hpres; [done|].
  simpl.
  assert (Hstep : JsMap.keys (pttStates (ingest_player s p))
                  = JsMap.keys (pttStates s)
                  /\ JsMap.keys (voiceStates (ingest_player s p))
                     = JsMap.keys (voiceStates s)).
  { unfold ingest_player. destruct (truthy (Player.name p)) eqn:Ht;
      cbn [negb]; [|done].
    destruct (Hpres p) as [Hp Hv]; [apply elem_of_cons; by left | done |].
    cbn [pttStates voiceStates with_voiceStates with_pttStates].
    split; by apply keys_set_present. }
  destruct Hstep as [Hkp Hkv].
  destruct (IH (ingest_player s p)) as [Hp Hv].
  - intros q Hq Ht.
    destruct (Hpres q) as [Hqp Hqv]; [apply elem_of_cons; by right | done |].
    rewrite ingest_player_ptt, ingest_player_voice.
    split; destruct (truthy (Player.name p) && strict_eq (Player.name p) _);
      done || by eexists.
  - by rewrite Hp, Hv.
Qed.

Lemma state_eq (s t : StateManager) :
  minecraftData s = minecraftData t -> clients s = clients t ->
  pttStates s = pttStates t -> voiceStates s = voiceStates t ->
  rateLimits s = rateLimits t -> lastCleanup s = lastCleanup t ->
  s = t.
Proof. destruct s, t. simpl. by intros -> -> -> -> -> ->. Qed.

(** Ingesting the records of a body once more, into the state they were
    ingested into, changes nothing. *)
Lemma post_minecraft_data_same_value (wss : list (conn * Socket.t))
    (s : StateManager) (body : Body.t) :
  state_ok s ->
  post_minecraft_data wss (fst (fst (post_minecraft_data wss s body))) body
  = post_minecraft_data wss s body.
Proof.
  intros Hok.
  pose proof (state_ok_post wss s body Hok) as (_ & _ & Hwp & Hwv).
  set (ps := default [] (Body.players body)).
  set (s1 := fst (fst (post_minecraft_data wss s body))) in *.
  assert (Hs1 : s1 = fold_left ingest_player ps (with_minecraftData s (Some body)))
    by done.
  set (s2 := fold_left ingest_player ps (with_minecraftData s1 (Some body))).
  assert (Heq : s2 = s1).
  { destruct (ingest_players_lookup ps (with_minecraftData s (Some body)) VNull)
      as (_ & _ & Hc1).
    destruct (ingest_players_lookup ps (with_minecraftData s1 (Some body)) VNull)
      as (_ & _ & Hc2).
    destruct (ingest_players_fields ps (with_minecraftData s (Some body)))
      as (Hm1 & Hr1 & Hl1).
    destruct (ingest_players_fields ps (with_minecraftData s1 (Some body)))
      as (Hm2 & Hr2 & Hl2).
    rewrite <- Hs1 in Hc1, Hm1, Hr1, Hl1. fold s2 in Hc2, Hm2, Hr2, Hl2.
    cbn [minecraftData clients rateLimits lastCleanup with_minecraftData]
      in Hc1, Hm1, Hr1, Hl1, Hc2, Hm2, Hr2, Hl2.
    assert (Hpres : forall p, p ∈ ps -> truthy (Player.name p) = true ->
              is_Some (JsMap.get (pttStates (with_minecraftData s1 (Some body)))
                         (Player.name p))
              /\ is_Some (JsMap.get
                            (voiceStates (with_minecraftData s1 (Some body)))
                            (Player.name p))).
    { intros p Hp Ht. cbn [pttStates voiceStates with_minecraftData].
      destruct (ingest_players_lookup ps (with_minecraftData s (Some body))
                  (Player.name p)) as (Hgp & Hgv & _).
      rewrite <- Hs1 in Hgp, Hgv.
      destruct (last_record_is_Some ps p Hp Ht) as [q Hq].
      rewrite Hq in Hgp, Hgv. rewrite Hgp, Hgv. split; by eexists. }
    destruct (ingest_players_keys ps (with_minecraftData s1 (Some body)) Hpres)
      as [Hkp Hkv].
    fold s2 in Hkp, Hkv. cbn [pttStates voiceStates with_minecraftData] in Hkp, Hkv.
    assert (Hok2 : state_ok s2).
    { pose proof (state_ok_post wss s1 body) as H2. apply H2.
      by apply state_ok_post. }
    destruct Hok2 as (_ & _ & Hwp2 & Hwv2).
    apply state_eq.
    - by rewrite Hm2, Hm1.
    - by rewrite Hc2.
    - apply jsmap_ext; [done..|]. intros g.
      destruct (ingest_players_lookup ps (with_minecraftData s1 (Some body)) g)
        as (Hgp2 & _ & _).
      destruct (ingest_players_lookup ps (with_minecraftData s (Some body)) g)
        as (Hgp1 & _ & _).
      fold s2 in Hgp2. rewrite <- Hs1 in Hgp1.
      cbn [pttStates with_minecraftData] in Hgp1, Hgp2.
      rewrite Hgp2. by destruct (last_record ps g).
    - apply jsmap_ext; [done..|]. intros g.
      destruct (ingest_players_lookup ps (with_minecraftData s1 (Some body)) g)
        as (_ & Hgv2 & _).
      destruct (ingest_players_lookup ps (with_minecraftData s (Some body)) g)
        as (_ & Hgv1 & _).
      fold s2 in Hgv2. rewrite <- Hs1 in Hgv1.
      cbn [voiceStates with_minecraftData] in Hgv1, Hgv2.
      rewrite Hgv2. by destruct (last_record ps g).
    - by rewrite Hr2.
    - by rewrite Hl2. }
  unfold post_minecraft_data at 1. fold ps s2. rewrite Heq.
  unfold post_minecraft_data. fold ps. by rewrite <- Hs1.
Qed.

Lemma ingest_player_with_minecraftData (s : StateManager) (p : Player.t)
    (d : option Body.t) :
  ingest_player (with_minecraftData s d) p
  = with_minecraftData (ingest_player s p) d.
Proof. unfold ingest_player. by destruct (truthy (Player.name p)). Qed.

Lemma ingest_players_with_minecraftData (ps : list Player.t)
    (d : option Body.t) :
  forall s,
    fold_left ingest_player ps (with_minecraftData s d)
    = with_minecraftData (fold_left ingest_player ps s) d.
Proof.
  induction ps as [|p ps IH]; intros s; [done|].
  simpl. by rewrite ingest_player_with_minecraftData, IH.
Qed.

Lemma same_text_primitive (v w : value) :
  same_text v w = true -> is_object v = false -> v = w.
Proof.
  destruct v, w; simpl; try done; intros H _;
    by apply bool_decide_eq_true in H.
Qed.

Lemma same_text_truthy (v w : value) :
  same_text v w = true -> truthy v = truthy w.
Proof.
  destruct v, w; simpl; try done; intros H;
    apply bool_decide_eq_true in H; by simplify_eq.
Qed.

Lemma same_text_number (v w : value) :
  same_text v w = true ->
  (if is_number v then v else VNum (-100))
  = (if is_number w then w else VNum (-100)).
Proof.
  destruct v, w; simpl; try done; intros H;
    apply bool_decide_eq_true in H; by simplify_eq.
Qed.

(** The loop body reads a record through its name, the truth values of
    two fields and the number in a third. *)
Lemma ingest_player_same_text (s : StateManager) (p q : Player.t) :
  same_text_player p q = true ->
  is_object (Player.name p) = false ->
  ingest_player s q = ingest_player s p.
Proof.
  unfold same_text_player. intros [Hn Hd]%andb_true_iff Hprim.
  apply same_text_primitive in Hn; [|done].
  unfold ingest_player. rewrite <- Hn.
  destruct (truthy (Player.name p)); cbn [negb]; [|done].
  destruct (Player.data p) as [d|], (Player.data q) as [e|]; try done.
  cbn [same_text_data] in Hd.
  apply andb_true_iff in Hd as [[Ht Hm]%andb_true_iff Hv].
  cbn [default from_option id].
  by rewrite (same_text_truthy _ _ Ht), (same_text_truthy _ _ Hm),
    (same_text_number _ _ Hv).
Qed.

Lemma ingest_players_same_text (ps qs : list Player.t) :
  Forall2 (fun p q => same_text_player p q = true) ps qs ->
  Forall (fun p => is_object (Player.name p) = false) ps ->
  forall s, fold_left ingest_player qs s = fold_left ingest_player ps s.
Proof.
  induction 1 as [|p q ps qs Hpq _ IH]; intros Hprim s; [done|].
  apply Forall_cons in Hprim as [Hp Hps].
  simpl. by rewrite (ingest_player_same_text s p q Hpq Hp), IH.
Qed.

(** X16.  Ingestion is idempotent on snapshots whose player names are not
    objects.  A second request with the same text brings a body of its own
    ([again]: equal primitive values, objects of its own).  Posted after
    the first, on tables with distinct keys, it leaves both state tables,
    the registry and the rate windows as the first post left them, stores
    itself as the last snapshot, and yields the same response and a
    combined update with the same state rows to the same sockets.  (A name
    that is an object is a new key of the tables on every request.) *)
Theorem snapshot_ingestion_idempotent (wss : list (conn * Socket.t))
    (s : StateManager) (body again : Body.t) :
  state_ok s ->
  posted_again body again ->
  Forall (fun p => is_object (Player.name p) = false)
    (default [] (Body.players body)) ->
  let first := post_minecraft_data wss s body in
  let second := post_minecraft_data wss (fst (fst first)) again in
  fst (fst second) = with_minecraftData (fst (fst first)) (Some again)
  /\ snd (fst second)
     = map (fun c =>
              Send c (MsgMinecraftUpdate again
                        (get_ptt_states (fst (fst first)))
                        (get_voice_states (fst (fst first)))))
         (open_sockets wss)
  /\ snd second = snd first.
Proof.
  intros Hok Hagain Hprim first second.
  set (ps := default [] (Body.players body)) in *.
  set (qs := default [] (Body.players again)).
  assert (Hrel : Forall2 (fun p q => same_text_player p q = true) ps qs).
  { unfold posted_again in Hagain. unfold ps, qs.
    destruct (Body.players body), (Body.players again); done. }
  set (s1 := fst (fst first)).
  assert (Hfix : fold_left ingest_player ps (with_minecraftData s1 (Some body))
                 = s1).
  { pose proof (post_minecraft_data_same_value wss s body Hok) as Hsame.
    by apply (f_equal (fun r => fst (fst r))) in Hsame. }
  assert (Hs2 : fst (fst second) = with_minecraftData s1 (Some again)).
  { unfold second, post_minecraft_data. cbn [fst]. fold s1 qs.
    rewrite (ingest_players_same_text ps qs Hrel Hprim).
    rewrite ingest_players_with_minecraftData.
    rewrite <- Hfix at 2.
    rewrite ingest_players_with_minecraftData. done. }
  assert (Heff : snd (fst second)
                 = broadcastToAll wss
                     (MsgMinecraftUpdate again (ptt_rows (fst (fst second)))
                        (voice_rows (fst (fst second))))) by done.
  split; [done|]. split.
  - rewrite Heff, Hs2, broadcastToAll_spec. done.
  - unfold second, first, post_minecraft_data. cbn [fst snd]. fold ps qs.
    rewrite !broadcastToAll_spec, !length_map.
    by rewrite (Forall2_length _ _ _ Hrel).
Qed.

(** X17.  Every post stores the body as the last snapshot and sends one
    combined update, carrying the body and the rows of both tables as they
    are after the upserts, to each open socket.  The response counts every
    record of [players] as processed, those skipped for a falsy name
    included, and counts the open sockets as broadcast.  When [players] is
    not an array nothing is upserted and the count is 0, but the body is
    stored and broadcast all the same. *)
Theorem ingestion_response_and_broadcast (wss : list (conn * Socket.t))
    (s : StateManager) (body : Body.t) :
  let r := post_minecraft_data wss s body in
  let s' := fst (fst r) in
  minecraftData s' = Some body
  /\ snd (fst r)
     = map (fun c =>
              Send c (MsgMinecraftUpdate body (get_ptt_states s')
                        (get_voice_states s')))
         (open_sockets wss)
  /\ snd r = mkResponse true (length (default [] (Body.players body)))
               (length (open_sockets wss))
  /\ (Body.players body = None ->
      pttStates s' = pttStates s /\ voiceStates s' = voiceStates s
      /\ processed (snd r) = 0).
Proof.
  intros r s'. unfold s', r, post_minecraft_data. cbn [fst snd].
  destruct (ingest_players_fields (default [] (Body.players body))
              (with_minecraftData s (Some body))) as (Hm & _).
  split; [by rewrite Hm|].
  rewrite broadcastToAll_spec. split; [done|].
  split; [by rewrite length_map|].
  by intros ->.
Qed.


Lemma ingestion_fields_stored (wss : list (conn * Socket.t)) (s : StateManager)
    (body : Body.t) :
  minecraftData (fst (fst (post_minecraft_data wss s body))) = Some body.
Proof.
  unfold post_minecraft_data. cbn [fst].
  by destruct (ingest_players_fields (default [] (Body.players body))
                 (with_minecraftData s (Some body))) as (-> & _).
Qed.

Lemma elem_of_other_open_sockets (wss : list (conn * Socket.t)) (ws c : conn) :
  c ∈ other_open_sockets wss ws <-> c <> ws /\ c ∈ open_sockets wss.
Proof.
  unfold other_open_sockets.
  rewrite list_elem_of_In, filter_In, <- list_elem_of_In, bool_decide_eq_true.
  tauto.
Qed.

Lemma dispatch_minecraftData (p : bool) (wss : list (conn * Socket.t)) (s : StateManager)
    (c : conn) (g : value) (now : Z) (data : Msg.t) :
  minecraftData (fst (fst (dispatch p wss s c g now data))) = minecraftData s.
Proof.
  unfold dispatch.
  repeat case_match; cbn [fst snd minecraftData with_voiceStates with_pttStates];
    try done.
  all: try (match goal with H : addClient _ _ _ _ = inr _ |- _ =>
              apply addClient_inr in H as [_ ->] end; done).
  unfold removeClient. by destruct (JsMap.get (clients s) c).
Qed.

Lemma handle_minecraftData (w : World) (ev : event) :
  (forall body, ev <> PostMinecraftData body) ->
  minecraftData (stateManager (fst (handle w ev)))
  = minecraftData (stateManager w).
Proof.
  intros Hnp. destruct ev as [c|c now msg|c|c|body|now]; cbn [handle];
    try done.
  - destruct (JsMap.get (wss_clients w) c) as [sk|]; [|done].
    cbn [fst stateManager]. unfold on_message.
    destruct (fst (checkRateLimit _ c now)); cbn [negb fst snd]; [|done].
    destruct msg as [| |data|data]; cbn [fst snd];
      rewrite ?dispatch_minecraftData;
      unfold updateActivity; by destruct (JsMap.get _ c).
  - destruct (JsMap.get (wss_clients w) c) as [sk|]; [|done].
    cbn [fst stateManager]. unfold on_close.
    destruct (truthy (Socket.gamertag sk)); cbn [fst]; [|done].
    unfold removeClient. by destruct (JsMap.get _ c).
  - by destruct (Hnp body).
  - cbn [fst stateManager]. unfold cleanup. cbn [fst minecraftData with_lastCleanup].
    change (minecraftData (stateManager w))
      with (minecraftData (fst (stateManager w, @nil effect))).
    generalize (stateManager w, @nil effect).
    induction (JsMap.entries (clients (stateManager w))) as [|e l IH];
      intros acc; [done|].
    simpl. rewrite IH. unfold cleanup_entry. case_bool_decide; [|done].
    cbn [fst]. unfold removeClient. by destruct (JsMap.get _ (fst e)).
Qed.

Lemma run_minecraftData (evs : list event) :
  Forall (fun ev => forall body, ev <> PostMinecraftData body) evs ->
  forall w,
    minecraftData (stateManager (run w evs)) = minecraftData (stateManager w).
Proof.
  induction 1 as [|ev evs Hev _ IH]; intros w; [done|].
  simpl. rewrite IH. by apply handle_minecraftData.
Qed.

(** X18.  The last posted snapshot is what a new connection is greeted
    with: after a post of [body], and whatever events the running server
    handles afterwards that are not posts, the connection handler logs the
    attempt and sends one message to the new socket, of type
    [minecraft-update] with the stored body as its only field; on a server
    that never received a post the connection handler only logs. *)
Theorem new_connection_gets_last_snapshot (w : World) (body : Body.t)
    (evs : list event) (ws : conn) :
  Forall (fun ev => forall b, ev <> PostMinecraftData b) evs ->
  (all_enabled (fst (handle w (PostMinecraftData body))) evs ->
   snd (handle (run (fst (handle w (PostMinecraftData body))) evs)
          (Connection ws))
   = [Log DEBUG "New connection attempt";
      Send ws (MsgMinecraftGreeting body)])
  /\ (forall now,
        all_enabled (start now) evs ->
        snd (handle (run (start now) evs) (Connection ws))
        = [Log DEBUG "New connection attempt"]).
Proof.
  intros Hevs. split.
  - intros _. cbn [handle]. rewrite run_minecraftData by done.
    cbn [handle fst stateManager].
    by rewrite (ingestion_fields_stored (wss_clients w) (stateManager w) body).
  - intros now _. cbn [handle]. by rewrite run_minecraftData.
Qed.

(** *** Broadcasts *)

Lemma open_sockets_NoDup (wss : list (conn * Socket.t)) :
  JsMap.wf wss -> NoDup (open_sockets wss).
Proof.
  unfold JsMap.wf, JsMap.keys, open_sockets.
  induction wss as [|[c sk] wss IH]; simpl; [done|].
  rewrite NoDup_cons. intros [Hnin Hnd].
  destruct (bool_decide (Socket.readyState sk = 1%Z)); simpl; [|by apply IH].
  apply NoDup_cons. split; [|by apply IH].
  intros Hin. apply Hnin.
  apply list_elem_of_In, in_map_iff in Hin as (e & <- & He).
  apply filter_In in He as [He _].
  apply list_elem_of_In, in_map, He.
Qed.

Lemma elem_open_sockets (wss : list (conn * Socket.t)) (c : conn) :
  c ∈ open_sockets wss
  <-> exists sk, (c, sk) ∈ wss /\ Socket.readyState sk = 1%Z.
Proof.
  unfold open_sockets. rewrite list_elem_of_In, in_map_iff. split.
  - intros ([c' sk] & <- & [Hin Hopen]%filter_In).
    exists sk. split; [by apply list_elem_of_In|].
    by apply bool_decide_eq_true in Hopen.
  - intros (sk & Hin & Hopen). exists (c, sk). split; [done|].
    apply filter_In. split; [by apply list_elem_of_In|].
    by apply bool_decide_eq_true.
Qed.

(** X19.  [broadcastToAll] calls [send] once for each open socket of
    [wss.clients], in their order, and for no other socket;
    [broadcast(sender, ...)] does the same except that it leaves out the
    sender.  Sockets that are not open are skipped, and with distinct
    sockets nobody is sent the same broadcast twice. *)
Theorem broadcast_reaches_open_sockets (wss : list (conn * Socket.t))
    (ws : conn) (p : payload) :
  broadcastToAll wss p = map (fun c => Send c p) (open_sockets wss)
  /\ broadcast wss ws p
     = map (fun c => Send c p)
         (List.filter (fun c => bool_decide (c <> ws)) (open_sockets wss))
  /\ (forall c q,
        (c, q) ∈ sends (broadcast wss ws p)
        <-> q = p /\ c <> ws
            /\ exists sk, (c, sk) ∈ wss /\ Socket.readyState sk = 1%Z)
  /\ (JsMap.wf wss -> NoDup (map fst (sends (broadcastToAll wss p)))).
Proof.
  split; [apply broadcastToAll_spec|].
  split; [apply broadcast_spec|].
  split.
  - intros c q. rewrite broadcast_spec, sends_broadcast.
    rewrite list_elem_of_In, in_map_iff. split.
    + intros (c' & [= -> ->] & Hin).
      apply list_elem_of_In, elem_of_other_open_sockets in Hin as [Hne Hin].
      split; [done|]. split; [done|]. by apply elem_open_sockets.
    + intros (-> & Hne & Hopen). exists c. split; [done|].
      apply list_elem_of_In, elem_of_other_open_sockets.
      split; [done|]. by apply elem_open_sockets.
  - intros Hwf. rewrite broadcastToAll_spec, sends_broadcast, map_map.
    cbn [fst]. rewrite map_id. by apply open_sockets_NoDup.
Qed.


(** *** Shutdown *)

Lemma close_socket_keys (wss : list (conn * Socket.t)) (c : conn) :
  JsMap.keys (close_socket wss c) = JsMap.keys wss.
Proof.
  unfold close_socket. destruct (JsMap.get wss c) as [sk|] eqn:Hc; [|done].
  case_bool_decide; [|done]. apply keys_set_present. by eexists.
Qed.

Lemma fold_close_keys (cs : list conn) :
  forall wss, JsMap.keys (fold_left close_socket cs wss) = JsMap.keys wss.
Proof.
  induction cs as [|c cs IH]; intros wss; [done|].
  simpl. rewrite IH. apply close_socket_keys.
Qed.

Lemma close_socket_not_open (wss : list (conn * Socket.t)) (c : conn)
    (sk : Socket.t) :
  JsMap.get (close_socket wss c) c = Some sk -> Socket.readyState sk <> 1%Z.
Proof.
  unfold close_socket. destruct (JsMap.get wss c) as [sk0|] eqn:Hc.
  - case_bool_decide as Ho.
    + rewrite get_set_eq. by intros [= <-].
    + rewrite Hc. by intros [= <-].
  - by rewrite Hc.
Qed.

Lemma close_socket_stays_closed (wss : list (conn * Socket.t)) (c c' : conn)
    (sk : Socket.t) :
  JsMap.get wss c = Some sk -> Socket.readyState sk <> 1%Z ->
  JsMap.get (close_socket wss c') c = Some sk.
Proof.
  intros Hc Hrs. unfold close_socket.
  destruct (JsMap.get wss c') as [sk'|] eqn:Hc'; [|done].
  case_bool_decide as Ho; [|done].
  destruct (decide (c' = c)) as [->|Hne]; [congruence|].
  by rewrite get_set_ne.
Qed.

Lemma fold_close_not_open (cs : list conn) (c : conn) :
  forall wss sk,
    c ∈ cs ->
    JsMap.get (fold_left close_socket cs wss) c = Some sk ->
    Socket.readyState sk <> 1%Z.
Proof.
  induction cs as [|c0 cs IH]; intros wss sk Hin Hget;
    [by apply elem_of_nil in Hin|].
  simpl in Hget. destruct (decide (c ∈ cs)) as [Hcs|Hncs]; [by eapply IH|].
  apply elem_of_cons in Hin as [->|]; [|done].
  destruct (JsMap.get (close_socket wss c0) c0) as [sk0|] eqn:H0.
  - pose proof (close_socket_not_open wss c0 sk0 H0) as Hrs.
    assert (Hst : JsMap.get (fold_left close_socket cs (close_socket wss c0)) c0
                  = Some sk0).
    { clear -H0 Hrs. revert H0. generalize (close_socket wss c0).
      induction cs as [|c1 cs IH]; intros l Hl; [done|].
      simpl. apply IH. by apply close_socket_stays_closed. }
    rewrite Hst in Hget. by injection Hget as <-.
  - exfalso. apply get_None_keys in H0.
    assert (Hk : c0 ∈ JsMap.keys (fold_left close_socket cs (close_socket wss c0))).
    { apply get_Some_keys. by eexists. }
    by rewrite fold_close_keys in Hk.
Qed.

(** X20.  [gracefulShutdown] first sends the shutdown notice to each open
    socket and then calls [close(1001)] on every socket of [wss.clients],
    open or not, in their order; with distinct sockets, once these closes
    have taken effect no socket is open any more. *)
Theorem graceful_shutdown_closes_all (wss : list (conn * Socket.t)) :
  JsMap.wf wss ->
  gracefulShutdown wss
  = (Log WARN "received. Starting graceful shutdown..."
     :: map (fun c => Send c MsgServerShutdown) (open_sockets wss)
     ++ map (fun c => Close c 1001 "Server shutting down") (JsMap.keys wss))
  /\ open_sockets (apply_closes wss (gracefulShutdown wss)) = [].
Proof.
  intros Hwf.
  assert (Hshape : gracefulShutdown wss
                   = (Log WARN "received. Starting graceful shutdown..."
                      :: map (fun c => Send c MsgServerShutdown)
                           (open_sockets wss)
                      ++ map (fun c => Close c 1001 "Server shutting down")
                           (JsMap.keys wss))).
  { unfold gracefulShutdown, JsMap.keys, JsMap.entries.
    by rewrite broadcastToAll_spec, map_map. }
  split; [done|].
  rewrite apply_closes_closes, Hshape.
  change (closes (Log WARN ?m :: ?l)) with (closes l).
  rewrite closes_append, closes_sends. cbn [app].
  assert (Hcl : closes (map (fun c => Close c 1001 "Server shutting down")
                          (JsMap.keys wss)) = JsMap.keys wss).
  { clear. induction (JsMap.keys wss) as [|c l IH]; [done|]. simpl.
    f_equal. exact IH. }
  rewrite Hcl.
  set (wss' := fold_left close_socket (JsMap.keys wss) wss).
  assert (Hwf' : JsMap.wf wss').
  { unfold JsMap.wf, wss'. by rewrite fold_close_keys. }
  destruct (open_sockets wss') as [|c l] eqn:Hopen; [done|].
  exfalso.
  assert (Hc : c ∈ open_sockets wss') by (rewrite Hopen; apply elem_of_cons; by left).
  apply elem_open_sockets in Hc as (sk & Hin & Hrs).
  assert (Hk : c ∈ JsMap.keys wss).
  { unfold wss' in Hin.
    rewrite <- (fold_close_keys (JsMap.keys wss) wss).
    apply list_elem_of_In, (in_map fst) in Hin.
    by apply list_elem_of_In. }
  apply elem_get_wf in Hin; [|done].
  by apply (fold_close_not_open (JsMap.keys wss) c wss sk Hk Hin).
Qed.

(** *** Heartbeat *)

Lemma heartbeat_terminates_iff (evs : list heartbeat_event) :
  forall isAlive,
    HbTerminate ∈ heartbeat isAlive evs
    <-> (isAlive = false /\ exists post, evs = Tick :: post)
        \/ (exists pre post, evs = pre ++ Tick :: Tick :: post).
Proof.
  induction evs as [|ev evs IH]; intros a.
  - simpl. split.
    + by intros ?%elem_of_nil.
    + intros [[_ [post ?]]|(pre & post & Heq)]; [done|].
      by destruct pre.
  - destruct ev.
    + (* Tick *)
      destruct a; cbn.
      * rewrite elem_of_cons, IH. split.
        -- intros [?|[[_ [post ->]]|(pre & post & ->)]]; [done| |].
           ++ right. by exists [], post.
           ++ right. by exists (Tick :: pre), post.
        -- intros [[? _]|(pre & post & Heq)]; [done|]. right.
           destruct pre as [|e pre].
           ++ injection Heq as ->. left. split; [done|]. by eexists.
           ++ injection Heq as <- ->. right. by exists pre, post.
      * split.
        -- intros _. left. split; [done|]. by eexists.
        -- intros _. rewrite !elem_of_cons. auto.
    + (* Pong *)
      cbn. unfold on_pong. rewrite IH. split.
      * intros [[? _]|(pre & post & ->)]; [done|].
        right. by exists (Pong :: pre), post.
      * intros [[_ [post ?]]|(pre & post & Heq)]; [done|].
        right. destruct pre as [|e pre]; [done|].
        injection Heq as <- ->. by exists pre, post.
Qed.

(** X21.  The heartbeat of a connection, which starts alive, terminates
    the socket exactly when two timer ticks follow each other with no pong
    in between: a peer that answers every ping before the next tick is
    never terminated, and one tick without an answer is tolerated until the
    next tick.  Messages of the peer other than pongs do not count. *)
Theorem heartbeat_terminates_after_missed_pong (evs : list heartbeat_event) :
  HbTerminate ∈ heartbeat true evs
  <-> exists pre post, evs = pre ++ Tick :: Tick :: post.
Proof.
  rewrite heartbeat_terminates_iff. split.
  - by intros [[? _]|?].
  - intros H. by right.
Qed.

(** X22.  In every reachable state the leave event that the [leave]
    branch and the close handler send for a registered connection carries
    the identity under which the connection is registered. *)
Theorem departure_names_registered_identity (w : World) (ws : conn)
    (sk : Socket.t) (cd : Client.t) (now : Z) (data : Msg.t) :
  reachable w ->
  JsMap.get (wss_clients w) ws = Some sk ->
  JsMap.get (clients (stateManager w)) ws = Some cd ->
  Msg.type data = VStr "leave" ->
  fst (checkRateLimit (stateManager w) ws now) = true ->
  snd (handle w (Message ws now (Parsed data)))
  = (Log INFO "left"
     :: map (fun c => Send c (MsgLeave (Client.gamertag cd)))
          (other_open_sockets (wss_clients w) ws))
  /\ (truthy (Client.gamertag cd) = true ->
      sends (snd (handle w (CloseEvent ws)))
      = map (fun c => (c, MsgLeave (Client.gamertag cd)))
          (other_open_sockets (JsMap.delete (wss_clients w) ws) ws)
        ++ map (fun c =>
                  (c, MsgParticipantsList
                        (getParticipants (removeClient (stateManager w) ws))))
             (open_sockets (JsMap.delete (wss_clients w) ws))).
Proof.
  intros Hw Hsk Hreg Htype Hrate.
  pose proof (reachable_closure_agrees w Hw ws cd sk Hreg Hsk) as Hlink.
  split.
  - cbn [handle]. rewrite Hsk. cbn [snd].
    rewrite on_message_admitted by done.
    by rewrite dispatch_leave, broadcast_spec, Hlink.
  - intros Ht. cbn [handle]. rewrite Hsk, Hlink. cbn [snd].
    unfold on_close. rewrite Ht. cbn [snd].
    change (sends (Log INFO "disconnected" :: ?l)) with (sends l).
    by rewrite sends_append, broadcast_spec, broadcastToAll_spec,
      !sends_broadcast.
Qed.

End Server.

(** ** The example states are reachable *)

Lemma alice_bob_reachable : reachable 200 alice_bob.
Proof.
  change alice_bob with
    (run 200 (start 0)
       [Connection 1; Connection 2;
        Message 1 0 (Parsed (join_msg (VStr "Alice")));
        Message 2 0 (Parsed (join_msg (VStr "Bob")))]).
  apply reachable_run; [apply reachable_start|].
  cbn. repeat split; by eexists.
Qed.

Lemma alice_bob_visitor_reachable : reachable 200 alice_bob_visitor.
Proof.
  change alice_bob_visitor with (fst (handle 200 alice_bob (Connection 3))).
  apply reachable_step; [exact alice_bob_reachable | done | reflexivity].
Qed.

Lemma nameless_bob_reachable : reachable 200 nameless_bob.
Proof.
  change nameless_bob with
    (run 200 (start 0)
       [Connection 1; Connection 2;
        Message 1 0 (Parsed (join_msg (VStr "")));
        Message 2 0 (Parsed (join_msg (VStr "Bob")))]).
  apply reachable_run; [apply reachable_start|].
  cbn. repeat split; by eexists.
Qed.

Lemma alice_alone_reachable : reachable 200 alice_alone.
Proof.
  change alice_alone with
    (run 200 (start 0)
       [Connection 1; Message 1 0 (Parsed (join_msg (VStr "Alice")))]).
  apply reachable_run; [apply reachable_start|].
  cbn. repeat split; by eexists.
Qed.

(** ** The dispatch table of the specification against the code *)

(** C3, counterexample.  "Alice" is registered on socket 1 and "Bob" on
    socket 2, both open.  Socket 1 sends [leave]: the only message sent is
    the leave event to socket 2; no identity list follows. *)
Lemma leave_sends_no_identity_list :
  JsMap.get (clients (stateManager alice_bob)) 1 = Some alice
  /\ fst (checkRateLimit (stateManager alice_bob) 1 5) = true
  /\ snd (on_message 200 (wss_clients alice_bob) (stateManager alice_bob) 1
            (VStr "Alice") 5 (Parsed leave_msg))
     = [Log INFO "left"; Send 2 (MsgLeave (VStr "Alice"))]
  /\ ~ leave_as_specified 200 (wss_clients alice_bob) (stateManager alice_bob)
         1 (VStr "Alice") 5 leave_msg.
Proof.
  split; [reflexivity|]. split; [reflexivity|]. split; [reflexivity|].
  intros [_ Hsends]. vm_compute in Hsends. discriminate Hsends.
Qed.

(** C5, counterexample.  In the same state socket 1 sends a body that does
    not parse, 5 ms after its join: its rate window advances from count 1
    to count 2 and its registry entry gets [lastActivity] 5 and
    [messageCount] 1. *)
Lemma parse_failure_consumes_window :
  rateLimits (stateManager alice_bob) !! 1 = Some (Limit.mk 1 1000)
  /\ rateLimits
       (fst (fst (on_message 200 (wss_clients alice_bob)
                    (stateManager alice_bob) 1 (VStr "Alice") 5 SyntaxError)))
       !! 1
     = Some (Limit.mk 2 1000)
  /\ JsMap.get (clients (stateManager alice_bob)) 1
     = Some (Client.mk (VStr "Alice") 0 0 0)
  /\ JsMap.get
       (clients
          (fst (fst (on_message 200 (wss_clients alice_bob)
                       (stateManager alice_bob) 1 (VStr "Alice") 5
                       SyntaxError))))
       1
     = Some (Client.mk (VStr "Alice") 0 5 1)
  /\ ~ parse_failure_as_specified 200 (wss_clients alice_bob)
         (stateManager alice_bob) 1 (VStr "Alice") 5.
Proof.
  split; [reflexivity|]. split; [reflexivity|]. split; [reflexivity|].
  split; [reflexivity|].
  intros [Hstate _].
  apply (f_equal (fun t => JsMap.get (clients t) 1)) in Hstate.
  vm_compute in Hstate. discriminate Hstate.
Qed.

(** C6, counterexample.  In the same state socket 1 sends
    [request-participants]: the list goes to socket 1 and to nobody else,
    although socket 2 is open. *)
Lemma request_participants_not_broadcast :
  fst (checkRateLimit (stateManager alice_bob) 1 5) = true
  /\ open_sockets (wss_clients alice_bob) = [1; 2]
  /\ snd (on_message 200 (wss_clients alice_bob) (stateManager alice_bob) 1
            (VStr "Alice") 5 (Parsed (bare_msg "request-participants")))
     = [Send 1 (MsgParticipantsList [VStr "Alice"; VStr "Bob"])]
  /\ ~ request_participants_as_specified 200 (wss_clients alice_bob)
         (stateManager alice_bob) 1 (VStr "Alice") 5
         (bare_msg "request-participants").
Proof.
  split; [reflexivity|]. split; [reflexivity|]. split; [reflexivity|].
  intros Hsends. vm_compute in Hsends. discriminate Hsends.
Qed.

(** C10, counterexample.  Socket 1 is registered under the empty string
    (a join the registry accepts) and socket 2 under "Bob".  Socket 1 sends
    [leave] and then closes: the close handler sends nothing, although
    socket 2 remains open. *)
Lemma empty_identity_close_is_silent :
  JsMap.get (clients (stateManager nameless_bob)) 1
  = Some (Client.mk (VStr "") 0 0 0)
  /\ snd (handle 200 nameless_bob (Message 1 5 (Parsed leave_msg)))
     = [Log INFO "left"; Send 2 (MsgLeave (VStr ""))]
  /\ open_sockets
       (JsMap.delete
          (wss_clients
             (fst (handle 200 nameless_bob (Message 1 5 (Parsed leave_msg)))))
          1)
     = [2]
  /\ snd (handle 200
            (fst (handle 200 nameless_bob (Message 1 5 (Parsed leave_msg))))
            (CloseEvent 1))
     = []
  /\ ~ second_leave_on_close 200 nameless_bob 1 (VStr "") 5 leave_msg.
Proof.
  split; [reflexivity|]. split; [reflexivity|]. split; [reflexivity|].
  split; [reflexivity|].
  intros [Hsends _]. vm_compute in Hsends. discriminate Hsends.
Qed.

(** C8, counterexample.  Socket 1 is registered as "Alice" and joins again
    as "Carol", which is free: the entries of "Alice" stay.  It then joins
    a third time, as "Alice", which is free again since the registry entry
    of the socket names "Carol"; a [leave] now deletes the entries of
    "Alice". *)
Lemma rejoin_under_old_identity_removes_states :
  JsMap.get (clients (stateManager alice_alone)) 1 = Some alice
  /\ Msg.gamertag (join_msg (VStr "Carol")) <> Client.gamertag alice
  /\ isGamertagTaken
       (stateManager alice_alone) (Msg.gamertag (join_msg (VStr "Carol")))
     = false
  /\ (Z.of_nat (JsMap.size (clients (stateManager alice_alone))) < 200)%Z
  /\ fst (checkRateLimit (stateManager alice_alone) 1 5) = true
  /\ JsMap.get
       (pttStates
          (stateManager
             (fst (handle 200 alice_alone
                     (Message 1 5 (Parsed (join_msg (VStr "Carol"))))))))
       (VStr "Alice")
     = Some (Ptt.mk (VBool true) (VBool false))
  /\ all_enabled 200
       (fst (handle 200 alice_alone
               (Message 1 5 (Parsed (join_msg (VStr "Carol"))))))
       [Message 1 10 (Parsed (join_msg (VStr "Alice")));
        Message 1 15 (Parsed leave_msg)]
  /\ JsMap.get
       (pttStates
          (stateManager
             (run 200
                (fst (handle 200 alice_alone
                        (Message 1 5 (Parsed (join_msg (VStr "Carol"))))))
                [Message 1 10 (Parsed (join_msg (VStr "Alice")));
                 Message 1 15 (Parsed leave_msg)])))
       (VStr "Alice")
     = None
  /\ JsMap.get
       (voiceStates
          (stateManager
             (run 200
                (fst (handle 200 alice_alone
                        (Message 1 5 (Parsed (join_msg (VStr "Carol"))))))
                [Message 1 10 (Parsed (join_msg (VStr "Alice")));
                 Message 1 15 (Parsed leave_msg)])))
       (VStr "Alice")
     = None
  /\ ~ old_entries_never_removed 200 alice_alone 1 5
         (join_msg (VStr "Carol")) (VStr "Alice").
Proof.
  split; [reflexivity|]. split; [discriminate|]. split; [reflexivity|].
  split; [vm_compute; reflexivity|].
  split; [reflexivity|]. split; [reflexivity|].
  split; [cbn; repeat split; by eexists|].
  split; [reflexivity|]. split; [reflexivity|].
  intros Hnever.
  destruct (Hnever [Message 1 10 (Parsed (join_msg (VStr "Alice")))])
    as [Hptt _]; [cbn; repeat split; by eexists|].
  vm_compute in Hptt. discriminate Hptt.
Qed.

(** The registration check distinguishes case: with "Alice" registered, a
    join as "alice" is accepted. *)
Lemma join_is_case_sensitive :
  isGamertagTaken (stateManager alice_bob) (VStr "Alice") = true
  /\ isGamertagTaken (stateManager alice_bob) (VStr "alice") = false
  /\ getParticipants
       (stateManager
          (fst (handle 200 (fst (handle 200 alice_bob (Connection 3)))
                  (Message 3 5 (Parsed (join_msg (VStr "alice")))))))
     = [VStr "Alice"; VStr "Bob"; VStr "alice"].
Proof. repeat split; reflexivity. Qed.

(** A join whose gamertag is an object with an own [toString], which no
    template literal can convert.  Below capacity the socket is registered
    and the process exits without a reply; at capacity (here a limit of 2)
    the handler logs and the sender is neither answered nor closed. *)
Lemma join_with_unprintable_identity :
  handle 200 alice_bob_visitor
    (Message 3 5 (ParsedUnprintable (join_msg (VObj 9))))
  = (mkWorld
       (mkState None
          [(1, alice); (2, bob); (3, Client.mk (VObj 9) 5 5 0)]
          [(VStr "Alice", Ptt.mk (VBool true) (VBool false));
           (VStr "Bob", Ptt.mk (VBool true) (VBool false));
           (VObj 9, Ptt.mk (VBool true) (VBool false))]
          [(VStr "Alice", Voice.mk (VBool false) (VNum 0));
           (VStr "Bob", Voice.mk (VBool false) (VNum 0));
           (VObj 9, Voice.mk (VBool false) (VNum 0))]
          (<[3 := Limit.mk 1 1005]>
             (<[2 := Limit.mk 1 1000]> (<[1 := Limit.mk 1 1000]> ∅)))
          0)
       [(1, Socket.mk 1 (VStr "Alice")); (2, Socket.mk 1 (VStr "Bob"));
        (3, Socket.mk 1 (VObj 9))],
     [Log ERROR "Uncaught Exception"; Exit 1])
  /\ handle 2 alice_bob_visitor
       (Message 3 5 (ParsedUnprintable (join_msg (VObj 9))))
     = (mkWorld
          (mkState None
             [(1, alice); (2, bob)]
             [(VStr "Alice", Ptt.mk (VBool true) (VBool false));
              (VStr "Bob", Ptt.mk (VBool true) (VBool false))]
             [(VStr "Alice", Voice.mk (VBool false) (VNum 0));
              (VStr "Bob", Voice.mk (VBool false) (VNum 0))]
             (<[3 := Limit.mk 1 1005]>
                (<[2 := Limit.mk 1 1000]> (<[1 := Limit.mk 1 1000]> ∅)))
             0)
          [(1, Socket.mk 1 (VStr "Alice")); (2, Socket.mk 1 (VStr "Bob"));
           (3, Socket.mk 1 VNull)],
        [Log ERROR "Message processing error"]).
Proof. split; reflexivity. Qed.

(** ** The theorems at concrete inputs *)

Lemma duplicate_join_rejected_witness :
  JsMap.get (clients (stateManager alice_bob)) 1 = Some alice
  /\ 2 <> 1
  /\ fst (checkRateLimit (stateManager alice_bob) 2 5) = true
  /\ getParticipants
       (fst (fst (on_message 200 (wss_clients alice_bob)
                    (stateManager alice_bob) 2 (VStr "Bob") 5
                    (Parsed (join_msg (VStr "Alice"))))))
     = [VStr "Alice"; VStr "Bob"]
  /\ exists message,
       snd (on_message 200 (wss_clients alice_bob) (stateManager alice_bob) 2
              (VStr "Bob") 5 (Parsed (join_msg (VStr "Alice"))))
       = [Log ERROR "Join failed"; Send 2 (MsgError message);
          Close 2 1008 message].
Proof.
  assert (H1 : JsMap.get (clients (stateManager alice_bob)) 1 = Some alice)
    by reflexivity.
  assert (H2 : 2 <> 1) by lia.
  assert (H3 : fst (checkRateLimit (stateManager alice_bob) 2 5) = true)
    by reflexivity.
  destruct (duplicate_join_rejected 200 (wss_clients alice_bob)
              (stateManager alice_bob) 1 2 alice (VStr "Bob") 5
              (join_msg (VStr "Alice")) H1 H2 eq_refl eq_refl H3)
    as (_ & (m & _ & Hm) & _ & Hp & _).
  split; [exact H1|]. split; [exact H2|]. split; [exact H3|].
  split; [exact Hp|]. exists m. exact Hm.
Defined.

Lemma checkRateLimit_window_counter_witness :
  opens_window (snd (checkRateLimit (constructor 0) 1 0)) 1 2000
  /\ length (replicate 50 2500%Z) = 50%nat
  /\ Forall (fun t => t <= 2000 + RATE_LIMIT_WINDOW)%Z (replicate 50 2500%Z)
  /\ (3001 > 2000 + RATE_LIMIT_WINDOW)%Z
  /\ rate_answers (snd (checkRateLimit (constructor 0) 1 0)) 1
       (2000%Z :: replicate 50 2500%Z)
     = replicate 50 true ++ [false]
  /\ fst (checkRateLimit
            (rate_state (snd (checkRateLimit (constructor 0) 1 0)) 1
               (2000%Z :: replicate 50 2500%Z))
            1 3001)
     = true.
Proof.
  assert (H1 : opens_window (snd (checkRateLimit (constructor 0) 1 0)) 1 2000)
    by (vm_compute; reflexivity).
  assert (H2 : length (replicate 50 2500%Z) = 50%nat) by reflexivity.
  assert (H3 : Forall (fun t => t <= 2000 + RATE_LIMIT_WINDOW)%Z
                 (replicate 50 2500%Z)).
  { apply Forall_replicate. unfold RATE_LIMIT_WINDOW. lia. }
  assert (H4 : (3001 > 2000 + RATE_LIMIT_WINDOW)%Z)
    by (unfold RATE_LIMIT_WINDOW; lia).
  destruct (proj2 checkRateLimit_window_counter
              (snd (checkRateLimit (constructor 0) 1 0)) 1 2000%Z
              (replicate 50 2500%Z) 3001%Z H1 H2 H3 H4) as (Ha & Hb & _).
  split; [exact H1|]. split; [exact H2|]. split; [exact H3|].
  split; [exact H4|]. split; [exact Ha | exact Hb].
Defined.

Lemma removeClient_deregisters_witness :
  unique_identities (stateManager alice_bob)
  /\ JsMap.get (clients (removeClient (stateManager alice_bob) 1)) 1 = None
  /\ findTarget
       (JsMap.entries (clients (removeClient (stateManager alice_bob) 1)))
       (VStr "Alice")
     = None
  /\ removeClient (removeClient (stateManager alice_bob) 1) 1
     = removeClient (stateManager alice_bob) 1.
Proof.
  assert (H1 : unique_identities (stateManager alice_bob)).
  { unfold unique_identities. apply (bool_decide_unpack _). vm_compute. exact I. }
  destruct (removeClient_deregisters (stateManager alice_bob) 1 H1)
    as [Hreg Hidem].
  change (JsMap.get (clients (stateManager alice_bob)) 1) with (Some alice)
    in Hreg.
  cbv zeta in Hreg. destruct Hreg as (Hc & _ & _ & _ & Hf & _).
  split; [exact H1|]. split; [exact Hc|]. split; [exact Hf | exact Hidem].
Defined.

Lemma snapshot_ingestion_upserts_witness :
  JsMap.wf (pttStates (constructor 0))
  /\ JsMap.wf (voiceStates (constructor 0))
  /\ get_ptt_states
       (fst (fst (post_minecraft_data [] (constructor 0) alice_snapshot)))
     = [PttRow.mk (VStr "Alice") (VBool false) (VBool true)]
  /\ get_voice_states
       (fst (fst (post_minecraft_data [] (constructor 0) alice_snapshot)))
     = [VoiceRow.mk (VStr "Alice") (VBool false) (VNum (-30))].
Proof.
  assert (H1 : JsMap.wf (pttStates (constructor 0))) by apply NoDup_nil_2.
  assert (H2 : JsMap.wf (voiceStates (constructor 0))) by apply NoDup_nil_2.
  assert (H3 : forall g, g ∈ JsMap.keys (pttStates (constructor 0)) ->
                  g = VStr "Alice")
    by (intros g Hg; by apply elem_of_nil in Hg).
  assert (H4 : forall g, g ∈ JsMap.keys (voiceStates (constructor 0)) ->
                  g = VStr "Alice")
    by (intros g Hg; by apply elem_of_nil in Hg).
  destruct (proj2 (proj2 snapshot_ingestion_upserts) [] (constructor 0)
              H1 H2 H3 H4) as [Hp Hv].
  split; [exact H1|]. split; [exact H2|]. split; [exact Hp | exact Hv].
Defined.

Lemma rejoin_keeps_old_identity_states_witness :
  JsMap.get (clients (stateManager alice_bob)) 1 = Some alice
  /\ VStr "Carol" <> Client.gamertag alice
  /\ isGamertagTaken (stateManager alice_bob) (VStr "Carol") = false
  /\ (Z.of_nat (JsMap.size (clients (stateManager alice_bob))) < 200)%Z
  /\ fst (checkRateLimit (stateManager alice_bob) 1 5) = true
  /\ JsMap.get
       (clients
          (fst (fst (on_message 200 (wss_clients alice_bob)
                       (stateManager alice_bob) 1 (VStr "Alice") 5
                       (Parsed (join_msg (VStr "Carol")))))))
       1
     = Some (Client.mk (VStr "Carol") 5 5 0)
  /\ JsMap.get
       (pttStates
          (removeClient
             (fst (fst (on_message 200 (wss_clients alice_bob)
                          (stateManager alice_bob) 1 (VStr "Alice") 5
                          (Parsed (join_msg (VStr "Carol"))))))
             1))
       (VStr "Alice")
     = Some (Ptt.mk (VBool true) (VBool false)).
Proof.
  assert (H1 : JsMap.get (clients (stateManager alice_bob)) 1 = Some alice)
    by reflexivity.
  assert (H2 : VStr "Carol" <> Client.gamertag alice) by discriminate.
  assert (H3 : isGamertagTaken (stateManager alice_bob) (VStr "Carol") = false)
    by reflexivity.
  assert (H4 : (Z.of_nat (JsMap.size (clients (stateManager alice_bob))) < 200)%Z)
    by (vm_compute; reflexivity).
  assert (H5 : fst (checkRateLimit (stateManager alice_bob) 1 5) = true)
    by reflexivity.
  destruct (rejoin_keeps_old_identity_states 200 (wss_clients alice_bob)
              (stateManager alice_bob) 1 (VStr "Alice") 5
              (join_msg (VStr "Carol")) alice H1 eq_refl H2 H3 H4 H5)
    as (Hc & _ & _ & _ & _ & Hp & _).
  split; [exact H1|]. split; [exact H2|]. split; [exact H3|].
  split; [exact H4|]. split; [exact H5|]. split; [exact Hc | exact Hp].
Defined.

Lemma state_updates_are_unchecked_witness :
  fst (checkRateLimit (stateManager alice_bob) 2 5) = true
  /\ JsMap.get (clients (stateManager alice_bob)) 2 = Some bob
  /\ JsMap.get
       (voiceStates
          (fst (fst (on_message 200 (wss_clients alice_bob)
                       (stateManager alice_bob) 2 (VStr "Bob") 5
                       (Parsed (voice_detection_msg (VStr "Alice")
                                  (VBool true) (VNum (-12))))))))
       (VStr "Alice")
     = Some (Voice.mk (VBool true) (VNum (-12)))
  /\ JsMap.get
       (pttStates
          (fst (fst (on_message 200 (wss_clients alice_bob)
                       (stateManager alice_bob) 2 (VStr "Bob") 5
                       (Parsed (ptt_status_msg (VStr "Alice") (VBool false)
                                  (VBool true)))))))
       (VStr "Alice")
     = Some (Ptt.mk (VBool false) (VBool true)).
Proof.
  assert (H1 : fst (checkRateLimit (stateManager alice_bob) 2 5) = true)
    by reflexivity.
  destruct (proj1 (state_updates_are_unchecked 200) (wss_clients alice_bob)
              (stateManager alice_bob) 2 (VStr "Bob") 5%Z
              (voice_detection_msg (VStr "Alice") (VBool true) (VNum (-12)))
              eq_refl H1)
    as (_ & Hv & _).
  destruct (proj1 (proj2 (state_updates_are_unchecked 200))
              (wss_clients alice_bob) (stateManager alice_bob) 2 (VStr "Bob")
              5%Z
              (ptt_status_msg (VStr "Alice") (VBool false) (VBool true))
              eq_refl H1)
    as (_ & Hp & _).
  split; [exact H1|]. split; [reflexivity|]. split; [exact Hv | exact Hp].
Defined.

Lemma leave_deregisters_and_notifies_witness :
  JsMap.get (clients (stateManager alice_bob)) 1 = Some alice
  /\ unique_identities (stateManager alice_bob)
  /\ fst (checkRateLimit (stateManager alice_bob) 1 5) = true
  /\ sends
       (snd (on_message 200 (wss_clients alice_bob) (stateManager alice_bob) 1
               (VStr "Alice") 5 (Parsed leave_msg)))
     = map (fun c => (c, MsgLeave (VStr "Alice")))
         (other_open_sockets (wss_clients alice_bob) 1)
  /\ JsMap.get
       (clients
          (fst (fst (on_message 200 (wss_clients alice_bob)
                       (stateManager alice_bob) 1 (VStr "Alice") 5
                       (Parsed leave_msg)))))
       1
     = None.
Proof.
  assert (H1 : JsMap.get (clients (stateManager alice_bob)) 1 = Some alice)
    by reflexivity.
  assert (H2 : unique_identities (stateManager alice_bob)).
  { unfold unique_identities. apply (bool_decide_unpack _). vm_compute. exact I. }
  assert (H3 : fst (checkRateLimit (stateManager alice_bob) 1 5) = true)
    by reflexivity.
  destruct (leave_deregisters_and_notifies 200 (wss_clients alice_bob)
              (stateManager alice_bob) 1 (VStr "Alice") 5 leave_msg alice
              H1 H2 eq_refl H3)
    as (Hc & _ & _ & Hs & _).
  split; [exact H1|]. split; [exact H2|]. split; [exact H3|].
  split; [exact Hs | exact Hc].
Defined.

Lemma parse_failure_after_rate_limit_witness :
  fst (checkRateLimit (stateManager alice_bob) 1 5) = true
  /\ rateLimits
       (fst (fst (on_message 200 (wss_clients alice_bob)
                    (stateManager alice_bob) 1 (VStr "Alice") 5 SyntaxError)))
       !! 1
     = Some (spec_window (rateLimits (stateManager alice_bob) !! 1) 5)
  /\ getParticipants
       (fst (fst (on_message 200 (wss_clients alice_bob)
                    (stateManager alice_bob) 1 (VStr "Alice") 5 SyntaxError)))
     = getParticipants (stateManager alice_bob).
Proof.
  destruct (parse_failure_after_rate_limit 200 (wss_clients alice_bob)
              (stateManager alice_bob) 1 (VStr "Alice") 5)
    as (_ & Hl & Hp & _).
  split; [reflexivity|]. split; [exact Hl | exact Hp].
Defined.

Lemma request_participants_replies_to_requester_witness :
  fst (checkRateLimit (stateManager alice_bob) 1 5) = true
  /\ snd (on_message 200 (wss_clients alice_bob) (stateManager alice_bob) 1
            (VStr "Alice") 5 (Parsed (bare_msg "request-participants")))
     = [Send 1 (MsgParticipantsList (getParticipants (stateManager alice_bob)))].
Proof.
  assert (H1 : fst (checkRateLimit (stateManager alice_bob) 1 5) = true)
    by reflexivity.
  split; [exact H1|].
  rewrite (request_participants_replies_to_requester 200
             (wss_clients alice_bob) (stateManager alice_bob) 1 (VStr "Alice") 5
             (bare_msg "request-participants") eq_refl H1).
  reflexivity.
Defined.

Lemma close_after_leave_witness :
  JsMap.get (wss_clients alice_bob) 1 = Some (Socket.mk 1 (VStr "Alice"))
  /\ JsMap.get (clients (stateManager alice_bob)) 1 = Some alice
  /\ fst (checkRateLimit (stateManager alice_bob) 1 5) = true
  /\ Forall (fun ev => event_socket ev <> Some 1)
       [Message 2 6 (Parsed (bare_msg "heartbeat"));
        PostMinecraftData alice_snapshot; Closing 1]
  /\ snd (handle 200
            (run 200
               (fst (handle 200 alice_bob (Message 1 5 (Parsed leave_msg))))
               [Message 2 6 (Parsed (bare_msg "heartbeat"));
                PostMinecraftData alice_snapshot; Closing 1])
            (CloseEvent 1))
     = [Log INFO "disconnected"; Send 2 (MsgLeave (VStr "Alice"));
        Send 2 (MsgParticipantsList [VStr "Bob"])].
Proof.
  assert (H1 : JsMap.get (wss_clients alice_bob) 1
               = Some (Socket.mk 1 (VStr "Alice"))) by reflexivity.
  assert (H2 : JsMap.get (clients (stateManager alice_bob)) 1 = Some alice)
    by reflexivity.
  assert (H3 : fst (checkRateLimit (stateManager alice_bob) 1 5) = true)
    by reflexivity.
  assert (H4 : Forall (fun ev => event_socket ev <> Some 1)
                 [Message 2 6 (Parsed (bare_msg "heartbeat"));
                  PostMinecraftData alice_snapshot; Closing 1]).
  { repeat (apply Forall_cons_2; [discriminate|]). apply Forall_nil_2. }
  destruct (close_after_leave 200 alice_bob 1 (Socket.mk 1 (VStr "Alice"))
              alice 5 leave_msg
              [Message 2 6 (Parsed (bare_msg "heartbeat"));
               PostMinecraftData alice_snapshot; Closing 1]
              H1 H2 eq_refl eq_refl H3 H4)
    as (_ & _ & _ & _ & Hr).
  split; [exact H1|]. split; [exact H2|]. split; [exact H3|].
  split; [exact H4|]. rewrite Hr. reflexivity.
Defined.

(** ** Further example states *)

Lemma alice_bob_state_ok : state_ok (stateManager alice_bob).
Proof. exact (proj1 (reachable_world_ok 200 alice_bob alice_bob_reachable)). Defined.

Lemma alice_bob_sockets_wf : JsMap.wf (wss_clients alice_bob).
Proof. apply (bool_decide_unpack _). vm_compute. exact I. Defined.

(** ** The further properties at concrete inputs *)

Lemma join_registers_and_announces_witness :
  JsMap.get (clients (stateManager alice_bob_visitor)) 3 = None
  /\ isGamertagTaken (stateManager alice_bob_visitor) (VStr "Carol") = false
  /\ (Z.of_nat (JsMap.size (clients (stateManager alice_bob_visitor))) < 200)%Z
  /\ fst (checkRateLimit (stateManager alice_bob_visitor) 3 5) = true
  /\ snd (on_message 200 (wss_clients alice_bob_visitor)
            (stateManager alice_bob_visitor) 3 VNull 5
            (Parsed (join_msg (VStr "Carol"))))
     = [Log SUCCESS "joined";
        Send 3 (MsgParticipantsList [VStr "Alice"; VStr "Bob"; VStr "Carol"]);
        Send 1 (MsgJoin (VStr "Carol")); Send 2 (MsgJoin (VStr "Carol"));
        Send 1 (MsgParticipantsList [VStr "Alice"; VStr "Bob"; VStr "Carol"]);
        Send 2 (MsgParticipantsList [VStr "Alice"; VStr "Bob"; VStr "Carol"]);
        Send 3 (MsgParticipantsList [VStr "Alice"; VStr "Bob"; VStr "Carol"])]
  /\ is_object (VObj 9) = true
  /\ snd (on_message 200 (wss_clients alice_bob_visitor)
            (stateManager alice_bob_visitor) 3 VNull 5
            (ParsedUnprintable (join_msg (VObj 9))))
     = [Log ERROR "Uncaught Exception"; Exit 1].
Proof.
  assert (H1 : JsMap.get (clients (stateManager alice_bob_visitor)) 3 = None)
    by reflexivity.
  assert (H2 : isGamertagTaken (stateManager alice_bob_visitor) (VStr "Carol")
               = false) by reflexivity.
  assert (H3 : (Z.of_nat (JsMap.size (clients (stateManager alice_bob_visitor)))
                < 200)%Z) by (vm_compute; reflexivity).
  assert (H4 : fst (checkRateLimit (stateManager alice_bob_visitor) 3 5) = true)
    by reflexivity.
  pose proof (join_registers_and_announces 200 (wss_clients alice_bob_visitor)
                (stateManager alice_bob_visitor) 3 VNull 5
                (join_msg (VStr "Carol")) H1 eq_refl H2 H3 H4) as H.
  cbv zeta in H. destruct H as (_ & _ & _ & _ & _ & Ht & _).
  pose proof (join_registers_and_announces 200 (wss_clients alice_bob_visitor)
                (stateManager alice_bob_visitor) 3 VNull 5
                (join_msg (VObj 9)) H1 eq_refl eq_refl H3 H4) as H'.
  cbv zeta in H'. destruct H' as (_ & _ & _ & _ & _ & _ & Hu).
  split; [exact H1|]. split; [exact H2|]. split; [exact H3|].
  split; [exact H4|]. split; [rewrite Ht; reflexivity|].
  split; [reflexivity|]. rewrite (Hu eq_refl). reflexivity.
Defined.

Lemma join_at_capacity_rejected_witness :
  (Z.of_nat (JsMap.size (clients (stateManager alice_bob_visitor))) >= 2)%Z
  /\ fst (checkRateLimit (stateManager alice_bob_visitor) 3 5) = true
  /\ snd (on_message 2 (wss_clients alice_bob_visitor)
            (stateManager alice_bob_visitor) 3 VNull 5
            (Parsed (join_msg (VStr "Carol"))))
     = [Log ERROR "Join failed"; Send 3 (MsgError "Server at capacity");
        Close 3 1008 "Server at capacity"]
  /\ is_object (VObj 9) = true
  /\ snd (on_message 2 (wss_clients alice_bob_visitor)
            (stateManager alice_bob_visitor) 3 VNull 5
            (ParsedUnprintable (join_msg (VObj 9))))
     = [Log ERROR "Message processing error"].
Proof.
  assert (H1 : (Z.of_nat (JsMap.size (clients (stateManager alice_bob_visitor)))
                >= 2)%Z) by (vm_compute; discriminate).
  assert (H2 : fst (checkRateLimit (stateManager alice_bob_visitor) 3 5) = true)
    by reflexivity.
  pose proof (join_at_capacity_rejected 2 (wss_clients alice_bob_visitor)
                (stateManager alice_bob_visitor) 3 VNull 5
                (join_msg (VStr "Carol")) H1 eq_refl H2) as H.
  cbv zeta in H. destruct H as (Hr & _).
  pose proof (join_at_capacity_rejected 2 (wss_clients alice_bob_visitor)
                (stateManager alice_bob_visitor) 3 VNull 5
                (join_msg (VObj 9)) H1 eq_refl H2) as H'.
  cbv zeta in H'. destruct H' as (_ & _ & _ & _ & _ & Hu).
  split; [exact H1|]. split; [exact H2|]. split; [exact Hr|].
  split; [reflexivity|]. rewrite (Hu eq_refl). reflexivity.
Defined.

Lemma registry_within_capacity_witness :
  reachable 200 alice_bob
  /\ (Z.of_nat (JsMap.size (clients (stateManager alice_bob))) <= Z.max 0 200)%Z.
Proof.
  split; [exact alice_bob_reachable|].
  exact (registry_within_capacity 200 alice_bob alice_bob_reachable).
Defined.

Lemma registered_identities_unique_witness :
  reachable 200 alice_bob
  /\ JsMap.get (clients (stateManager alice_bob)) 1 = Some alice
  /\ 1 = 1.
Proof.
  split; [exact alice_bob_reachable|]. split; [reflexivity|].
  exact (registered_identities_unique 200 alice_bob 1 1 alice alice
           alice_bob_reachable eq_refl eq_refl eq_refl).
Defined.

Lemma registered_identities_have_states_witness :
  reachable 200 alice_bob
  /\ participants_have_states (stateManager alice_bob).
Proof.
  split; [exact alice_bob_reachable|].
  exact (proj1 (registered_identities_have_states 200 alice_bob
                  alice_bob_reachable)).
Defined.

Lemma signaling_relayed_to_target_witness :
  unique_identities (stateManager alice_bob)
  /\ JsMap.get (clients (stateManager alice_bob)) 2 = Some bob
  /\ readyState_of (wss_clients alice_bob) 2 = 1%Z
  /\ fst (checkRateLimit (stateManager alice_bob) 1 5) = true
  /\ snd (on_message 200 (wss_clients alice_bob) (stateManager alice_bob) 1
            (VStr "Alice") 5
            (Parsed (signal_msg "offer" (VStr "Bob") (VStr "Alice"))))
     = [Send 2 (MsgSignal (signal_msg "offer" (VStr "Bob") (VStr "Alice")))].
Proof.
  assert (H1 : unique_identities (stateManager alice_bob))
    by exact (proj1 alice_bob_state_ok).
  assert (H2 : JsMap.get (clients (stateManager alice_bob)) 2 = Some bob)
    by reflexivity.
  assert (H3 : readyState_of (wss_clients alice_bob) 2 = 1%Z) by reflexivity.
  assert (H4 : fst (checkRateLimit (stateManager alice_bob) 1 5) = true)
    by reflexivity.
  split; [exact H1|]. split; [exact H2|]. split; [exact H3|].
  split; [exact H4|].
  rewrite (signaling_relayed_to_target 200 (wss_clients alice_bob)
             (stateManager alice_bob) 1 2 (VStr "Alice") 5
             (signal_msg "offer" (VStr "Bob") (VStr "Alice")) bob
             eq_refl eq_refl eq_refl H1 H2 eq_refl H3 H4).
  reflexivity.
Defined.

Lemma signaling_dropped_silently_witness :
  fst (checkRateLimit (stateManager alice_bob) 1 5) = true
  /\ (VStr "Carol" ∉ getParticipants (stateManager alice_bob))
  /\ snd (on_message 200 (wss_clients alice_bob) (stateManager alice_bob) 1
            (VStr "Alice") 5
            (Parsed (signal_msg "answer" (VStr "Carol") (VStr "Alice"))))
     = []
  /\ snd (on_message 200 (wss_clients alice_bob) (stateManager alice_bob) 1
            (VStr "Alice") 5
            (Parsed (signal_msg "answer" VUndefined (VStr "Alice"))))
     = [Log WARN "Invalid signaling message: missing to/from"].
Proof.
  assert (H1 : fst (checkRateLimit (stateManager alice_bob) 1 5) = true)
    by reflexivity.
  assert (H2 : VStr "Carol" ∉ getParticipants (stateManager alice_bob)).
  { apply (bool_decide_unpack _). vm_compute. exact I. }
  pose proof (signaling_dropped_silently 200 (wss_clients alice_bob)
                (stateManager alice_bob) 1 (VStr "Alice") 5
                (signal_msg "answer" (VStr "Carol") (VStr "Alice"))
                eq_refl H1) as H.
  cbv zeta in H. destruct H as (_ & Hb & _).
  pose proof (signaling_dropped_silently 200 (wss_clients alice_bob)
                (stateManager alice_bob) 1 (VStr "Alice") 5
                (signal_msg "answer" VUndefined (VStr "Alice"))
                eq_refl H1) as H'.
  cbv zeta in H'. destruct H' as (Ha & _).
  split; [exact H1|]. split; [exact H2|]. split.
  - rewrite (Hb eq_refl eq_refl H2). reflexivity.
  - rewrite (Ha (or_introl eq_refl)). reflexivity.
Defined.

Lemma unknown_and_heartbeat_ignored_witness :
  fst (checkRateLimit (stateManager alice_bob) 1 5) = true
  /\ (VStr "dance" ∉ known_types)
  /\ snd (on_message 200 (wss_clients alice_bob) (stateManager alice_bob) 1
            (VStr "Alice") 5 (Parsed (bare_msg "heartbeat")))
     = []
  /\ snd (on_message 200 (wss_clients alice_bob) (stateManager alice_bob) 1
            (VStr "Alice") 5 (Parsed (bare_msg "dance")))
     = [].
Proof.
  assert (H1 : fst (checkRateLimit (stateManager alice_bob) 1 5) = true)
    by reflexivity.
  assert (H2 : VStr "dance" ∉ known_types).
  { apply (bool_decide_unpack _). vm_compute. exact I. }
  split; [exact H1|]. split; [exact H2|]. split.
  - rewrite (unknown_and_heartbeat_ignored 200 (wss_clients alice_bob)
               (stateManager alice_bob) 1 (VStr "Alice") 5
               (bare_msg "heartbeat") (or_introl eq_refl) H1).
    reflexivity.
  - rewrite (unknown_and_heartbeat_ignored 200 (wss_clients alice_bob)
               (stateManager alice_bob) 1 (VStr "Alice") 5
               (bare_msg "dance") (or_intror H2) H1).
    reflexivity.
Defined.

Lemma leave_without_registration_announced_witness :
  JsMap.get (clients (stateManager alice_bob_visitor)) 3 = None
  /\ fst (checkRateLimit (stateManager alice_bob_visitor) 3 5) = true
  /\ snd (on_message 200 (wss_clients alice_bob_visitor)
            (stateManager alice_bob_visitor) 3 VNull 5 (Parsed leave_msg))
     = [Log INFO "left"; Send 1 (MsgLeave VNull); Send 2 (MsgLeave VNull)].
Proof.
  assert (H1 : JsMap.get (clients (stateManager alice_bob_visitor)) 3 = None)
    by reflexivity.
  assert (H2 : fst (checkRateLimit (stateManager alice_bob_visitor) 3 5) = true)
    by reflexivity.
  split; [exact H1|]. split; [exact H2|].
  rewrite (leave_without_registration_announced 200
             (wss_clients alice_bob_visitor) (stateManager alice_bob_visitor)
             3 VNull 5 leave_msg H1 eq_refl H2).
  reflexivity.
Defined.

Lemma rate_windows_are_independent_witness :
  1 <> 2
  /\ rateLimits
       (fst (fst (on_message 200 (wss_clients alice_bob)
                    (stateManager alice_bob) 1 (VStr "Alice") 5
                    (Parsed leave_msg))))
       !! 2
     = Some (Limit.mk 1 1000).
Proof.
  assert (H1 : 1 <> 2) by lia.
  split; [exact H1|].
  rewrite (proj1 (rate_windows_are_independent 200 (wss_clients alice_bob)
                    (stateManager alice_bob) 1 2 (VStr "Alice") 5
                    (Parsed leave_msg) H1)).
  reflexivity.
Defined.

Lemma flood_is_rejected_until_reset_witness :
  rateLimits (rate_state (constructor 0) 1 (replicate 50 0%Z)) !! 1
  = Some (Limit.mk 50 1000)
  /\ (RATE_LIMIT_MAX <= 50)%Z
  /\ Forall (fun t => t <= 1000)%Z [500; 1000]%Z
  /\ (1001 > 1000)%Z
  /\ rate_answers (rate_state (constructor 0) 1 (replicate 50 0%Z)) 1
       [500; 1000]%Z
     = [false; false]
  /\ fst (checkRateLimit
            (rate_state (rate_state (constructor 0) 1 (replicate 50 0%Z)) 1
               [500; 1000]%Z)
            1 1001)
     = true.
Proof.
  assert (H1 : rateLimits (rate_state (constructor 0) 1 (replicate 50 0%Z)) !! 1
               = Some (Limit.mk 50 1000)) by (vm_compute; reflexivity).
  assert (H2 : (RATE_LIMIT_MAX <= 50)%Z) by (unfold RATE_LIMIT_MAX; lia).
  assert (H3 : Forall (fun t => t <= 1000)%Z [500; 1000]%Z).
  { repeat (apply Forall_cons_2; [lia|]). apply Forall_nil_2. }
  assert (H4 : (1001 > 1000)%Z) by lia.
  destruct (flood_is_rejected_until_reset
              (rate_state (constructor 0) 1 (replicate 50 0%Z)) 1 50 1000
              [500; 1000]%Z 1001 H1 H2 H3 H4) as (Ha & _ & Hc).
  split; [exact H1|]. split; [exact H2|]. split; [exact H3|].
  split; [exact H4|]. split; [exact Ha | exact Hc].
Defined.

Lemma unregistered_rate_window_is_kept_witness :
  JsMap.get
    (wss_clients
       (run 200 (start 0) [Connection 1; Message 1 0 (Parsed (bare_msg "heartbeat"))]))
    1
  = Some (Socket.mk 1 VNull)
  /\ JsMap.get
       (clients
          (stateManager
             (run 200 (start 0)
                [Connection 1; Message 1 0 (Parsed (bare_msg "heartbeat"))])))
       1
     = None
  /\ rateLimits
       (stateManager
          (run 200
             (fst (handle 200
                     (run 200 (start 0)
                        [Connection 1;
                         Message 1 0 (Parsed (bare_msg "heartbeat"))])
                     (CloseEvent 1)))
             [Connection 2; Message 2 5 (Parsed (join_msg (VStr "Bob")));
              CleanupTick 70000]))
       !! 1
     = Some (Limit.mk 1 1000).
Proof.
  split; [reflexivity|]. split; [reflexivity|].
  apply (unregistered_rate_window_is_kept 200
           (run 200 (start 0)
              [Connection 1; Message 1 0 (Parsed (bare_msg "heartbeat"))])
           1 (Socket.mk 1 VNull) (Limit.mk 1 1000)
           [Connection 2; Message 2 5 (Parsed (join_msg (VStr "Bob")));
            CleanupTick 70000]);
    [reflexivity | reflexivity | reflexivity |].
  cbn. repeat split; by eexists.
Defined.

(** Bob was last active at 50000; Alice at 0. *)
Lemma cleanup_evicts_exactly_timed_out_witness :
  JsMap.wf
    (clients
       (stateManager
          (fst (handle 200 alice_bob
                  (Message 2 50000 (Parsed (bare_msg "heartbeat")))))))
  /\ getParticipants
       (fst (cleanup (wss_clients alice_bob)
               (stateManager
                  (fst (handle 200 alice_bob
                          (Message 2 50000 (Parsed (bare_msg "heartbeat"))))))
               70000))
     = [VStr "Bob"]
  /\ closes
       (snd (cleanup (wss_clients alice_bob)
               (stateManager
                  (fst (handle 200 alice_bob
                          (Message 2 50000 (Parsed (bare_msg "heartbeat"))))))
               70000))
     = [1].
Proof.
  assert (H1 : JsMap.wf
                 (clients
                    (stateManager
                       (fst (handle 200 alice_bob
                               (Message 2 50000
                                  (Parsed (bare_msg "heartbeat")))))))).
  { apply (bool_decide_unpack _). vm_compute. exact I. }
  pose proof (cleanup_evicts_exactly_timed_out (wss_clients alice_bob)
                (stateManager
                   (fst (handle 200 alice_bob
                           (Message 2 50000 (Parsed (bare_msg "heartbeat"))))))
                70000 H1) as H.
  cbv zeta in H. destruct H as (_ & _ & _ & _ & Hc & _).
  split; [exact H1|]. split; [vm_compute; reflexivity|].
  rewrite Hc. vm_compute. reflexivity.
Defined.

Lemma bob_active_state_ok :
  state_ok
    (stateManager
       (fst (handle 200 alice_bob
               (Message 2 50000 (Parsed (bare_msg "heartbeat")))))).
Proof.
  apply (reachable_world_ok 200%Z).
  apply reachable_step; [exact alice_bob_reachable | by eexists | reflexivity].
Qed.

Lemma sweep_then_close_announces_leave_witness :
  state_ok
    (stateManager
       (fst (handle 200 alice_bob
               (Message 2 50000 (Parsed (bare_msg "heartbeat"))))))
  /\ JsMap.get
       (wss_clients
          (fst (handle 200 alice_bob
                  (Message 2 50000 (Parsed (bare_msg "heartbeat"))))))
       1
     = Some (Socket.mk 1 (VStr "Alice"))
  /\ JsMap.get
       (clients
          (stateManager
             (fst (handle 200 alice_bob
                     (Message 2 50000 (Parsed (bare_msg "heartbeat")))))))
       1
     = Some alice
  /\ timed_out 70000 alice = true
  /\ snd (handle 200
            (fst (handle 200
                    (fst (handle 200 alice_bob
                            (Message 2 50000 (Parsed (bare_msg "heartbeat")))))
                    (CleanupTick 70000)))
            (CloseEvent 1))
     = [Log INFO "disconnected"; Send 2 (MsgLeave (VStr "Alice"));
        Send 2 (MsgParticipantsList [VStr "Bob"])].
Proof.
  assert (H1 : JsMap.get
                 (wss_clients
                    (fst (handle 200 alice_bob
                            (Message 2 50000 (Parsed (bare_msg "heartbeat"))))))
                 1
               = Some (Socket.mk 1 (VStr "Alice"))) by reflexivity.
  assert (H2 : JsMap.get
                 (clients
                    (stateManager
                       (fst (handle 200 alice_bob
                               (Message 2 50000
                                  (Parsed (bare_msg "heartbeat")))))))
                 1
               = Some alice) by reflexivity.
  assert (H3 : timed_out 70000 alice = true) by reflexivity.
  pose proof (sweep_then_close_announces_leave 200
                (fst (handle 200 alice_bob
                        (Message 2 50000 (Parsed (bare_msg "heartbeat")))))
                1 (Socket.mk 1 (VStr "Alice")) alice 70000
                bob_active_state_ok H1 H2 eq_refl eq_refl H3) as H.
  cbv zeta in H. destruct H as (_ & _ & _ & Hr & _).
  split; [exact bob_active_state_ok|]. split; [exact H1|].
  split; [exact H2|]. split; [exact H3|]. rewrite Hr. vm_compute. reflexivity.
Defined.

Lemma falsy_identity_survives_close_witness :
  JsMap.get (wss_clients nameless_bob) 1 = Some (Socket.mk 1 (VStr ""))
  /\ JsMap.get (clients (stateManager nameless_bob)) 1
     = Some (Client.mk (VStr "") 0 0 0)
  /\ truthy (VStr "") = false
  /\ Forall (fun ev => forall now, ev <> CleanupTick now)
       [Message 2 5 (Parsed (bare_msg "heartbeat"));
        PostMinecraftData alice_snapshot]
  /\ isGamertagTaken
       (stateManager
          (run 200 (fst (handle 200 nameless_bob (CloseEvent 1)))
             [Message 2 5 (Parsed (bare_msg "heartbeat"));
              PostMinecraftData alice_snapshot]))
       (VStr "")
     = true.
Proof.
  assert (H1 : JsMap.get (wss_clients nameless_bob) 1
               = Some (Socket.mk 1 (VStr ""))) by reflexivity.
  assert (H2 : JsMap.get (clients (stateManager nameless_bob)) 1
               = Some (Client.mk (VStr "") 0 0 0)) by reflexivity.
  assert (H3 : truthy (VStr "") = false) by reflexivity.
  assert (H4 : all_enabled 200 (fst (handle 200 nameless_bob (CloseEvent 1)))
                 [Message 2 5 (Parsed (bare_msg "heartbeat"));
                  PostMinecraftData alice_snapshot]).
  { cbn. repeat split; by eexists. }
  assert (H5 : Forall (fun ev => forall now, ev <> CleanupTick now)
                 [Message 2 5 (Parsed (bare_msg "heartbeat"));
                  PostMinecraftData alice_snapshot]).
  { repeat (apply Forall_cons_2; [intros now; discriminate|]).
    apply Forall_nil_2. }
  pose proof (falsy_identity_survives_close 200 nameless_bob 1
                (Socket.mk 1 (VStr "")) (Client.mk (VStr "") 0 0 0)
                [Message 2 5 (Parsed (bare_msg "heartbeat"));
                 PostMinecraftData alice_snapshot]
                H1 H2 eq_refl H3 H4 H5) as H.
  cbv zeta in H. destruct H as (_ & _ & _ & _ & Ht).
  split; [exact H1|]. split; [exact H2|]. split; [exact H3|].
  split; [exact H5 | exact Ht].
Defined.

(** A second request with the text of [alice_snapshot]. *)
Lemma snapshot_ingestion_idempotent_witness :
  state_ok (stateManager alice_bob)
  /\ posted_again
       (Body.mk
          (Some [Player.mk (VStr "Alice")
                   (Some (PlayerData.mk (VObj 7) (VBool true) (VNum (-30))))]))
       (Body.mk
          (Some [Player.mk (VStr "Alice")
                   (Some (PlayerData.mk (VObj 8) (VBool true) (VNum (-30))))]))
  /\ Forall (fun p => is_object (Player.name p) = false)
       [Player.mk (VStr "Alice")
          (Some (PlayerData.mk (VObj 7) (VBool true) (VNum (-30))))]
  /\ pttStates
       (fst (fst
          (post_minecraft_data (wss_clients alice_bob)
             (fst (fst
                (post_minecraft_data (wss_clients alice_bob)
                   (stateManager alice_bob)
                   (Body.mk
                      (Some [Player.mk (VStr "Alice")
                               (Some (PlayerData.mk (VObj 7) (VBool true)
                                        (VNum (-30))))])))))
             (Body.mk
                (Some [Player.mk (VStr "Alice")
                         (Some (PlayerData.mk (VObj 8) (VBool true)
                                  (VNum (-30))))])))))
     = [(VStr "Alice", Ptt.mk (VBool true) (VBool true));
        (VStr "Bob", Ptt.mk (VBool true) (VBool false))].
Proof.
  assert (H1 : posted_again
                 (Body.mk
                    (Some [Player.mk (VStr "Alice")
                             (Some (PlayerData.mk (VObj 7) (VBool true)
                                      (VNum (-30))))]))
                 (Body.mk
                    (Some [Player.mk (VStr "Alice")
                             (Some (PlayerData.mk (VObj 8) (VBool true)
                                      (VNum (-30))))]))).
  { cbn. constructor; [reflexivity | constructor]. }
  assert (H2 : Forall (fun p => is_object (Player.name p) = false)
                 [Player.mk (VStr "Alice")
                    (Some (PlayerData.mk (VObj 7) (VBool true) (VNum (-30))))]).
  { apply Forall_cons_2; [reflexivity | apply Forall_nil_2]. }
  pose proof (snapshot_ingestion_idempotent (wss_clients alice_bob)
                (stateManager alice_bob) _ _ alice_bob_state_ok H1 H2) as H.
  cbv zeta in H. destruct H as (Hs & _).
  split; [exact alice_bob_state_ok|]. split; [exact H1|]. split; [exact H2|].
  rewrite Hs. reflexivity.
Defined.

Lemma ingestion_response_and_broadcast_witness :
  Body.players (Body.mk None) = None
  /\ snd (post_minecraft_data (wss_clients alice_bob) (stateManager alice_bob)
            (Body.mk None))
     = mkResponse true 0 2
  /\ pttStates
       (fst (fst (post_minecraft_data (wss_clients alice_bob)
                    (stateManager alice_bob) (Body.mk None))))
     = pttStates (stateManager alice_bob).
Proof.
  pose proof (ingestion_response_and_broadcast (wss_clients alice_bob)
                (stateManager alice_bob) (Body.mk None)) as H.
  cbv zeta in H. destruct H as (_ & _ & Hr & Hn).
  split; [reflexivity|]. split.
  - rewrite Hr. reflexivity.
  - exact (proj1 (Hn eq_refl)).
Defined.

Lemma new_connection_gets_last_snapshot_witness :
  Forall (fun ev => forall b, ev <> PostMinecraftData b)
    [Message 1 5 (Parsed (bare_msg "heartbeat")); CleanupTick 70000]
  /\ all_enabled 200
       (fst (handle 200 alice_bob (PostMinecraftData alice_snapshot)))
       [Message 1 5 (Parsed (bare_msg "heartbeat")); CleanupTick 70000]
  /\ snd (handle 200
            (run 200 (fst (handle 200 alice_bob (PostMinecraftData alice_snapshot)))
               [Message 1 5 (Parsed (bare_msg "heartbeat")); CleanupTick 70000])
            (Connection 3))
     = [Log DEBUG "New connection attempt";
        Send 3 (MsgMinecraftGreeting alice_snapshot)].
Proof.
  assert (H1 : Forall (fun ev => forall b, ev <> PostMinecraftData b)
                 [Message 1 5 (Parsed (bare_msg "heartbeat"));
                  CleanupTick 70000]).
  { repeat (apply Forall_cons_2; [intros b; discriminate|]).
    apply Forall_nil_2. }
  assert (H2 : all_enabled 200
                 (fst (handle 200 alice_bob (PostMinecraftData alice_snapshot)))
                 [Message 1 5 (Parsed (bare_msg "heartbeat"));
                  CleanupTick 70000]).
  { cbn. repeat split; by eexists. }
  split; [exact H1|]. split; [exact H2|].
  exact (proj1 (new_connection_gets_last_snapshot 200 alice_bob alice_snapshot
                  [Message 1 5 (Parsed (bare_msg "heartbeat"));
                   CleanupTick 70000] 3 H1) H2).
Defined.

Lemma broadcast_reaches_open_sockets_witness :
  JsMap.wf (wss_clients alice_bob)
  /\ broadcast (wss_clients alice_bob) 1 (MsgLeave (VStr "Alice"))
     = [Send 2 (MsgLeave (VStr "Alice"))]
  /\ NoDup
       (map fst
          (sends (broadcastToAll (wss_clients alice_bob) MsgServerShutdown))).
Proof.
  split; [exact alice_bob_sockets_wf|]. split.
  - rewrite (proj1 (proj2 (broadcast_reaches_open_sockets
                             (wss_clients alice_bob) 1
                             (MsgLeave (VStr "Alice"))))).
    reflexivity.
  - exact (proj2 (proj2 (proj2 (broadcast_reaches_open_sockets
                                  (wss_clients alice_bob) 1
                                  MsgServerShutdown)))
             alice_bob_sockets_wf).
Defined.

Lemma graceful_shutdown_closes_all_witness :
  JsMap.wf (wss_clients alice_bob)
  /\ gracefulShutdown (wss_clients alice_bob)
     = [Log WARN "received. Starting graceful shutdown...";
        Send 1 MsgServerShutdown; Send 2 MsgServerShutdown;
        Close 1 1001 "Server shutting down";
        Close 2 1001 "Server shutting down"]
  /\ open_sockets
       (apply_closes (wss_clients alice_bob)
          (gracefulShutdown (wss_clients alice_bob)))
     = [].
Proof.
  destruct (graceful_shutdown_closes_all (wss_clients alice_bob)
              alice_bob_sockets_wf) as [Hs Ho].
  split; [exact alice_bob_sockets_wf|]. split; [|exact Ho].
  rewrite Hs. reflexivity.
Defined.

Lemma heartbeat_terminates_after_missed_pong_witness :
  [Tick; Pong; Tick; Tick; Pong] = [Tick; Pong] ++ Tick :: Tick :: [Pong]
  /\ (HbTerminate ∈ heartbeat true [Tick; Pong; Tick; Tick; Pong]).
Proof.
  split; [reflexivity|].
  apply (proj2 (heartbeat_terminates_after_missed_pong
                  [Tick; Pong; Tick; Tick; Pong])).
  exists [Tick; Pong], [Pong]. reflexivity.
Defined.

Lemma departure_names_registered_identity_witness :
  reachable 200 alice_bob
  /\ JsMap.get (wss_clients alice_bob) 1 = Some (Socket.mk 1 (VStr "Alice"))
  /\ JsMap.get (clients (stateManager alice_bob)) 1 = Some alice
  /\ fst (checkRateLimit (stateManager alice_bob) 1 5) = true
  /\ snd (handle 200 alice_bob (Message 1 5 (Parsed leave_msg)))
     = [Log INFO "left"; Send 2 (MsgLeave (VStr "Alice"))].
Proof.
  assert (H1 : JsMap.get (wss_clients alice_bob) 1
               = Some (Socket.mk 1 (VStr "Alice"))) by reflexivity.
  assert (H2 : JsMap.get (clients (stateManager alice_bob)) 1 = Some alice)
    by reflexivity.
  assert (H3 : fst (checkRateLimit (stateManager alice_bob) 1 5) = true)
    by reflexivity.
  split; [exact alice_bob_reachable|]. split; [exact H1|]. split; [exact H2|].
  split; [exact H3|].
  rewrite (proj1 (departure_names_registered_identity 200 alice_bob 1
                    (Socket.mk 1 (VStr "Alice")) alice 5 leave_msg
                    alice_bob_reachable H1 H2 eq_refl H3)).
  reflexivity.
Defined.
